(** * vibecoding: context aggregation and vector-ranked retrieval

    A shallow embedding of the aggregation engine
    ([src/services/context_service.py]), the vector index
    ([src/services/vector_store.py]), the retrieval orchestrator
    ([src/services/vector_context_service.py]) and the [/context] endpoint
    ([src/main.py]), followed by the properties of the specification that
    were checked against them.

    Python values of type [Any] are [pyval]; dictionaries are [gmap string];
    code that raises, catches, reads the clock or updates the index runs in
    the monad [M], a state monad over [World] with exceptions.  The four
    source clients, the embedding backend, the text splitter and the few
    library functions used on text and dates are fields of [Env]: the
    services are written against them and every general theorem holds for
    all of them.  A text is held as its UTF-8 encoding. *)

From stdpp Require Import gmap strings list fin_maps sorting pretty.
From Stdlib Require Import ZArith QArith.
Close Scope Q_scope.

Set Warnings "-register-all".

(** ** Python values *)

(** A value as it is found in a decoded JSON body, in a raw source record
    or in the dictionary form of an item. *)
Inductive pyval :=
| VNone
| VBool (b : bool)
| VInt (z : Z)
| VFloat (q : Q)
| VStr (s : string)
| VDatetime (t : N)
| VList (l : list pyval)
| VDict (m : gmap string pyval).

(** [datetime]: microseconds elapsed since [datetime.min]. *)
Definition datetime := N.
Definition datetime_min : datetime := 0%N.

(** Truth value of a Python object ([if v:]). *)
Definition truthy (v : pyval) : bool :=
  match v with
  | VNone => false
  | VBool b => b
  | VInt z => negb (z =? 0)%Z
  | VFloat q => negb (Qnum q =? 0)%Z
  | VStr s => negb (String.eqb s "")
  | VDatetime _ => true
  | VList l => match l with [] => false | _ => true end
  | VDict m => negb (bool_decide (dom m = ∅))
  end.

(** [d.get(k)] and [d.get(k, default)]. *)
Definition dict_get (d : gmap string pyval) (k : string) : pyval :=
  default VNone (d !! k).
Definition dict_get_or (d : gmap string pyval) (k : string) (dflt : pyval) : pyval :=
  default dflt (d !! k).

(** Truth value of an optional text ([if query:]). *)
Definition str_truthy (o : option string) : bool :=
  match o with Some s => negb (String.eqb s "") | None => false end.

(** [x or d] for an optional integer: [limit or 5]. *)
Definition int_or (o : option Z) (d : Z) : Z :=
  match o with Some z => if (z =? 0)%Z then d else z | None => d end.

(** [needle in hay] on texts: one UTF-8 encoding occurs in another exactly
    where the text occurs in the other text. *)
Fixpoint contains (needle hay : string) : bool :=
  String.prefix needle hay ||
  match hay with
  | EmptyString => false
  | String _ hay' => contains needle hay'
  end.

(** ** Exceptions and results *)

Inductive exn :=
| ValueError
| TypeError
| AttributeError
| ValidationError
| ClientError (msg : string)
| HTTPException (status : Z).

Inductive outcome (A : Type) :=
| Ok (a : A)
| Raised (e : exn).
Arguments Ok {A} a.
Arguments Raised {A} e.

Definition of_option {A} (e : exn) (o : option A) : outcome A :=
  match o with Some a => Ok a | None => Raised e end.

(** ** The data model ([src/models/schemas.py]) *)

(** The fields a subtype adds to [ContextItem]; [Base] is a plain
    [ContextItem]. *)
Inductive payload :=
| Base
| Email (subject sender : string) (recipients : list string)
        (date : datetime) (thread_id : option string)
| Meeting (title : string) (participants : list string) (date : datetime)
          (duration : Z) (meeting_id : string)
| Document_ (title : string) (authors : list string)
            (last_edited : datetime) (page_id : string)
| Opportunity (name stage : string) (amount : option Q)
              (close_date : option datetime)
              (account_name owner_name opportunity_id : string)
| Account (name : string) (industry website : option string)
          (account_id : string) (description : option string)
| Contact (name : string) (email phone title account_name : option string)
          (contact_id : string).

Record ContextItem := {
  type : string;
  source : string;
  content : string;
  metadata : gmap string pyval;
  timestamp : option datetime;
  detail : payload
}.

Record ContextRequest := {
  query : option string;
  time_range : option (gmap string pyval);
  sources : option (list string);
  limit : option Z;
  entity_focus : option (gmap string pyval)
}.

Record ContextResponse := {
  resp_source : string;
  context_items : list ContextItem;
  resp_query : option string;
  resp_timestamp : datetime
}.

(** A chunk of the vector index (langchain's [Document]). *)
Record Document := {
  page_content : string;
  doc_metadata : gmap string pyval
}.

(** The two attributes of a [VectorStore] that change: the backend's
    collection ([None] until the first [add_items]) and the tracking list. *)
Record VectorStoreState := {
  vector_db : option (list Document);
  documents : list Document
}.

(** One element of the list returned by [VectorStore.search]. *)
Record SearchHit := {
  hit_content : string;
  hit_metadata : gmap string pyval;
  hit_score : pyval
}.

(** ** The environment of the services *)

Record Env := {
  (** the value returned by the n-th call of [datetime.now()] *)
  clock : nat → datetime;
  (** [datetime.isoformat] *)
  isoformat : datetime → string;
  (** [datetime.strptime(s, "%a, %d %b %Y %H:%M:%S %z")]; [None] is
      [ValueError] *)
  strptime_email : string → option datetime;
  (** [datetime.fromisoformat(s.replace("Z", "+00:00"))] *)
  fromisoformat_z : string → option datetime;
  (** [datetime.strptime(s, "%Y-%m-%d")] *)
  strptime_ymd : string → option datetime;
  (** [int(s)] and [float(s)] on text *)
  int_of_str : string → option Z;
  float_of_str : string → option Q;
  (** [str(v)] for a value that is not text *)
  py_str : pyval → string;
  (** [s.lower()] *)
  str_lower : string → string;
  (** ZoomClient.get_recent_meeting_transcripts(days_back, limit) *)
  zoom_get_recent_meeting_transcripts : Z → Z → outcome (list (gmap string pyval));
  (** GmailClient.search_emails(search_term, limit) *)
  gmail_search_emails : string → Z → outcome (list (gmap string pyval));
  (** GmailClient.get_recent_emails(days_back, limit) *)
  gmail_get_recent_emails : Z → Z → outcome (list (gmap string pyval));
  (** NotionClient.search_pages(query, limit) *)
  notion_search_pages : string → Z → outcome (list (gmap string pyval));
  (** NotionClient.get_database_pages(limit) *)
  notion_get_database_pages : Z → outcome (list (gmap string pyval));
  (** NotionClient.get_page_content(page_id) *)
  notion_get_page_content : pyval → outcome (gmap string pyval);
  (** SalesforceClient.get_accounts(search_term, limit) *)
  sf_get_accounts : option string → Z → outcome (list (gmap string pyval));
  (** SalesforceClient.get_contacts(account_id, limit) *)
  sf_get_contacts : pyval → Z → outcome (list (gmap string pyval));
  (** SalesforceClient.get_opportunities(days_back, limit) *)
  sf_get_opportunities : Z → Z → outcome (list (gmap string pyval));
  (** RecursiveCharacterTextSplitter(1000, 100).split_text *)
  split_text : string → list string;
  (** the chunks that [persist_directory] holds when the collection is
      opened *)
  persisted : list Document;
  (** the exception [Chroma.from_documents(documents, ...)] raises, if any:
      Chroma refuses an empty batch and metadata that is not text, a number
      or a boolean *)
  from_documents_error : list Document → option exn;
  (** the exception [vector_db.add_documents(documents)] raises, if any, on
      a collection that holds [db] *)
  add_documents_error : list Document → list Document → option exn;
  (** Chroma.similarity_search(query, k, filter) over the stored chunks *)
  similarity_search :
    list Document → string → Z → option (gmap string pyval) → outcome (list Document);
  (** AuthService.check_permission(user, source) *)
  check_permission : string → string → bool
}.

(** ** State and the monad of the services *)

Record World := {
  (** how many times the clock has been read *)
  now_calls : nat;
  (** VectorContextService.initialized *)
  initialized : bool;
  (** VectorContextService.vector_store *)
  vector_store : VectorStoreState
}.

Definition M (A : Type) : Type := World → outcome A * World.

Definition ret {A} (a : A) : M A := λ w, (Ok a, w).

Definition bind {A B} (m : M A) (k : A → M B) : M B :=
  λ w, match m w with
       | (Ok a, w') => k a w'
       | (Raised e, w') => (Raised e, w')
       end.

Definition raise {A} (e : exn) : M A := λ w, (Raised e, w).

Definition lift {A} (o : outcome A) : M A := λ w, (o, w).

(** [try: m  except Exception as e: h e] *)
Definition try_except {A} (m : M A) (h : exn → M A) : M A :=
  λ w, match m w with
       | (Ok a, w') => (Ok a, w')
       | (Raised e, w') => h e w'
       end.

Declare Scope py_scope.
Delimit Scope py_scope with py.
Notation "'let*' x ':=' m 'in' k" := (bind m (λ x, k))
  (at level 10, x name, m at level 100, k at level 200) : py_scope.
Notation "'do' m 'then' k" := (bind m (λ _, k))
  (at level 10, m at level 100, k at level 200) : py_scope.
Open Scope py_scope.

(** [for x in xs: body], the accumulator being the list the loop appends
    to; [continue] returns it unchanged. *)
Fixpoint for_each {A B} (xs : list A) (body : A → list B → M (list B))
    (acc : list B) : M (list B) :=
  match xs with
  | [] => ret acc
  | x :: xs' => let* acc' := body x acc in for_each xs' body acc'
  end.

(** The world after one reading of the clock. *)
Definition tick (w : World) : World :=
  {| now_calls := S (now_calls w);
     initialized := initialized w;
     vector_store := vector_store w |}.

(** [datetime.now()] *)
Definition now (env : Env) : M datetime :=
  λ w, (Ok (clock env (now_calls w)), tick w).

Definition get_store : M VectorStoreState := λ w, (Ok (vector_store w), w).

Definition put_store (s : VectorStoreState) : M unit :=
  λ w, (Ok tt, {| now_calls := now_calls w;
                  initialized := initialized w;
                  vector_store := s |}).

Definition get_initialized : M bool := λ w, (Ok (initialized w), w).

Definition set_initialized (b : bool) : M unit :=
  λ w, (Ok tt, {| now_calls := now_calls w;
                  initialized := b;
                  vector_store := vector_store w |}).

(** ** Conversions and field validation *)

(** [int(v)] *)
Definition py_int (env : Env) (v : pyval) : outcome Z :=
  match v with
  | VInt z => Ok z
  | VBool b => Ok (if b then 1 else 0)%Z
  | VFloat q => Ok (Z.quot (Qnum q) (Zpos (Qden q)))
  | VStr s => of_option ValueError (int_of_str env s)
  | _ => Raised TypeError
  end.

(** [float(v)] *)
Definition py_float (env : Env) (v : pyval) : outcome Q :=
  match v with
  | VInt z => Ok (inject_Z z)
  | VBool b => Ok (inject_Z (if b then 1 else 0))
  | VFloat q => Ok q
  | VStr s => of_option ValueError (float_of_str env s)
  | _ => Raised TypeError
  end.

(** A value interpolated in an f-string. *)
Definition fmt (env : Env) (v : pyval) : string :=
  match v with VStr s => s | _ => py_str env v end.

(** The receiver of a [str] method ([.lower()], [.replace()]). *)
Definition str_receiver (v : pyval) : outcome string :=
  match v with VStr s => Ok s | _ => Raised AttributeError end.

(** The argument of [datetime.strptime]. *)
Definition str_argument (v : pyval) : outcome string :=
  match v with VStr s => Ok s | _ => Raised TypeError end.

(** pydantic validation of a field declared [str]: numbers are rendered as
    text, anything else is refused. *)
Definition str_field (env : Env) (v : pyval) : outcome string :=
  match v with
  | VStr s => Ok s
  | VInt _ | VFloat _ | VBool _ => Ok (py_str env v)
  | _ => Raised ValidationError
  end.

(** A field declared [Optional[str]]. *)
Definition opt_str_field (env : Env) (v : pyval) : outcome (option string) :=
  match v with
  | VNone => Ok None
  | _ => match str_field env v with Ok s => Ok (Some s) | Raised e => Raised e end
  end.

(** A field declared [int]. *)
Definition int_field (env : Env) (v : pyval) : outcome Z :=
  match py_int env v with Ok z => Ok z | Raised _ => Raised ValidationError end.

(** Sequencing of validations. *)
Definition obind {A B} (o : outcome A) (k : A → outcome B) : outcome B :=
  match o with Ok a => k a | Raised e => Raised e end.
Notation "'let?' x ':=' o 'in' k" := (obind o (λ x, k))
  (at level 10, x name, o at level 100, k at level 200) : py_scope.

(** A field declared [List[str]]. *)
Fixpoint str_list_field (env : Env) (vs : list pyval) : outcome (list string) :=
  match vs with
  | [] => Ok []
  | v :: vs' =>
      let? s := str_field env v in
      let? ss := str_list_field env vs' in
      Ok (s :: ss)
  end.

(** ** Constructors of the item classes *)

(** The [timestamp] field: [Field(default_factory=datetime.now)].  [given]
    is [None] when the call passes no [timestamp] argument and [Some v] when
    it passes [v] (which may be Python's [None]). *)
Definition timestamp_field (env : Env) (given : option (option datetime))
    : M (option datetime) :=
  match given with
  | None => let* t := now env in ret (Some t)
  | Some v => ret v
  end.

(** [ContextItem(type=.., source=.., content=.., metadata=.., [timestamp=..])]
    and, with [extra] the validated fields of a subtype, the constructor of
    that subtype. *)
Definition ContextItem_init (env : Env) (ty src content_ : pyval)
    (metadata_ : gmap string pyval) (given : option (option datetime))
    (extra : outcome payload) : M ContextItem :=
  let* ts := timestamp_field env given in
  lift (let? ty' := str_field env ty in
        let? src' := str_field env src in
        let? c := str_field env content_ in
        let? d := extra in
        Ok {| type := ty'; source := src'; content := c;
              metadata := metadata_; timestamp := ts; detail := d |}).

Definition EmailContext (env : Env) (content_ subject sender : pyval)
    (recipients : list pyval) (date : datetime) (thread_id : pyval)
    (metadata_ : gmap string pyval) : M ContextItem :=
  ContextItem_init env (VStr "email") (VStr "gmail") content_ metadata_ None
    (let? su := str_field env subject in
     let? se := str_field env sender in
     let? rs := str_list_field env recipients in
     let? th := opt_str_field env thread_id in
     Ok (Email su se rs date th)).

Definition MeetingContext (env : Env) (content_ title : pyval)
    (participants : list pyval) (date : datetime) (duration meeting_id : pyval)
    (metadata_ : gmap string pyval) : M ContextItem :=
  ContextItem_init env (VStr "meeting") (VStr "zoom") content_ metadata_ None
    (let? ti := str_field env title in
     let? ps := str_list_field env participants in
     let? du := int_field env duration in
     let? mi := str_field env meeting_id in
     Ok (Meeting ti ps date du mi)).

Definition DocumentContext (env : Env) (content_ title : pyval)
    (authors : list pyval) (last_edited : datetime) (page_id : pyval)
    (metadata_ : gmap string pyval) : M ContextItem :=
  ContextItem_init env (VStr "document") (VStr "notion") content_ metadata_ None
    (let? ti := str_field env title in
     let? au := str_list_field env authors in
     let? pi := str_field env page_id in
     Ok (Document_ ti au last_edited pi)).

Definition OpportunityContext (env : Env) (content_ name stage : pyval)
    (amount : option Q) (close_date : option datetime)
    (account_name owner_name opportunity_id : pyval)
    (metadata_ : gmap string pyval) : M ContextItem :=
  ContextItem_init env (VStr "opportunity") (VStr "salesforce") content_ metadata_ None
    (let? na := str_field env name in
     let? st := str_field env stage in
     let? an := str_field env account_name in
     let? ow := str_field env owner_name in
     let? oi := str_field env opportunity_id in
     Ok (Opportunity na st amount close_date an ow oi)).

(** The call in the source passes no [description]. *)
Definition AccountContext (env : Env) (content_ name industry website account_id : pyval)
    (metadata_ : gmap string pyval) : M ContextItem :=
  ContextItem_init env (VStr "account") (VStr "salesforce") content_ metadata_ None
    (let? na := str_field env name in
     let? ind := opt_str_field env industry in
     let? we := opt_str_field env website in
     let? ai := str_field env account_id in
     Ok (Account na ind we ai None)).

Definition ContactContext (env : Env)
    (content_ name email phone title account_name contact_id : pyval)
    (metadata_ : gmap string pyval) : M ContextItem :=
  ContextItem_init env (VStr "contact") (VStr "salesforce") content_ metadata_ None
    (let? na := str_field env name in
     let? em := opt_str_field env email in
     let? ph := opt_str_field env phone in
     let? ti := opt_str_field env title in
     let? an := opt_str_field env account_name in
     let? ci := str_field env contact_id in
     Ok (Contact na em ph ti an ci)).

(** ** List operations of the language *)

(** [l.sort(key=key, reverse=True)]: the sort is stable and [reverse=True]
    keeps the original order of elements with equal keys.  The list it
    produces is computed here by insertion from the right: an element goes
    before the first element whose key is not greater than its own. *)
Section sort.
Context {A : Type} (key : A → N).

Fixpoint insert_desc (x : A) (l : list A) : list A :=
  match l with
  | [] => [x]
  | y :: l' =>
      if (key x <? key y)%N then y :: insert_desc x l' else x :: y :: l'
  end.

Definition sort_desc (l : list A) : list A := foldr insert_desc [] l.
End sort.

(** [l[:n]] *)
Definition slice_to {A} (l : list A) (n : Z) : list A :=
  if (0 <=? n)%Z then take (Z.to_nat n) l
  else take (length l - Z.to_nat (- n)) l.

Definition dict_truthy (o : option (gmap string pyval)) : bool :=
  match o with Some d => truthy (VDict d) | None => false end.

Definition newline : string := String (Ascii.ascii_of_nat 10) EmptyString.

(** ["\n".join(parts)] *)
Fixpoint join_lines (parts : list string) : string :=
  match parts with
  | [] => ""
  | [p] => p
  | p :: ps => p +:+ newline +:+ join_lines ps
  end.

(** ** The aggregation engine ([src/services/context_service.py]) *)

Module ContextService.

(** The key of the sort in [get_context]:
    [x.timestamp if x.timestamp else datetime.min]. *)
Definition sort_key (x : ContextItem) : datetime :=
  match timestamp x with Some t => t | None => datetime_min end.

Definition _get_zoom_context (env : Env) (query : option string) (days_back : Z)
    (limit : option Z) : M (list ContextItem) :=
  try_except
    (let* transcripts :=
       lift (zoom_get_recent_meeting_transcripts env days_back (int_or limit 5)) in
     for_each transcripts (λ transcript context_items,
       let* skip :=
         (if str_truthy query then
            let* text := lift (str_receiver (dict_get_or transcript "transcript" (VStr ""))) in
            ret (negb (contains (str_lower env (default "" query)) (str_lower env text)))
          else ret false) in
       if skip then ret context_items else
       let content_ := dict_get_or transcript "transcript" (VStr "") in
       let title := dict_get_or transcript "topic" (VStr "Unknown Meeting") in
       let* date :=
         (if truthy (dict_get transcript "start_time") then
            let* s := lift (str_receiver (dict_get transcript "start_time")) in
            lift (of_option ValueError (fromisoformat_z env s))
          else now env) in
       let* meeting_context :=
         MeetingContext env content_ title [VStr "Unknown"] date
           (dict_get_or transcript "duration" (VInt 0))
           (dict_get_or transcript "meeting_id" (VStr ""))
           {[ "source" := VStr "zoom";
              "date" := dict_get transcript "start_time" ]} in
       ret (context_items ++ [meeting_context])) [])
    (λ _, ret []).

Definition _get_gmail_context (env : Env) (query : option string) (days_back : Z)
    (limit : option Z) : M (list ContextItem) :=
  try_except
    (let* emails :=
       (if str_truthy query
        then lift (gmail_search_emails env (default "" query) (int_or limit 10))
        else lift (gmail_get_recent_emails env days_back (int_or limit 10))) in
     for_each emails (λ email context_items,
       try_except
         (let date_str := dict_get_or email "date" (VStr "") in
          let* date :=
            (let* s := lift (str_argument date_str) in
             match strptime_email env s with
             | Some d => ret d
             | None => now env
             end) in
          let* email_context :=
            EmailContext env
              (dict_get_or email "body" (dict_get_or email "snippet" (VStr "")))
              (dict_get_or email "subject" (VStr ""))
              (dict_get_or email "from" (VStr ""))
              [dict_get_or email "to" (VStr "")]
              date
              (dict_get_or email "thread_id" (VStr ""))
              {[ "source" := VStr "gmail";
                 "id" := dict_get_or email "id" (VStr "") ]} in
          ret (context_items ++ [email_context]))
         (λ _, ret context_items)) [])
    (λ _, ret []).

(** What a [for] gets from a value: the elements of a list, the keys of a
    dictionary, the characters of a text (each of them a text); [None], a
    number or a date is not iterable. *)
Definition iterate (v : pyval) : outcome (list pyval) :=
  match v with
  | VList l => Ok l
  | VDict m => Ok ((λ kv : string * pyval, VStr kv.1) <$> map_to_list m)
  | VStr s => Ok ((λ c, VStr (String c EmptyString)) <$> String.list_ascii_of_string s)
  | _ => Raised TypeError
  end.

(** [[block.get("text", "") for block in content_blocks]], then the check of
    ["\n".join] that every element is a text.  Only a dictionary has
    [.get]. *)
Fixpoint block_texts (blocks : list pyval) : outcome (list string) :=
  match blocks with
  | [] => Ok []
  | VDict block :: rest =>
      match dict_get_or block "text" (VStr "") with
      | VStr t => let? ts := block_texts rest in Ok (t :: ts)
      | _ => Raised TypeError
      end
  | _ :: _ => Raised AttributeError
  end.

Definition _get_notion_context (env : Env) (query : option string)
    (limit : option Z) : M (list ContextItem) :=
  try_except
    (let* pages :=
       (if str_truthy query
        then lift (notion_search_pages env (default "" query) (int_or limit 10))
        else lift (notion_get_database_pages env (int_or limit 10))) in
     for_each pages (λ page context_items,
       try_except
         (let page_id := dict_get page "id" in
          if negb (truthy page_id) then ret context_items else
          let* page_with_content := lift (notion_get_page_content env page_id) in
          let* content_blocks :=
            lift (iterate (dict_get_or page_with_content "content" (VList []))) in
          let* texts := lift (block_texts content_blocks) in
          let content_text := join_lines texts in
          let last_edited_str := dict_get_or page "last_edited_time" (VStr "") in
          let* last_edited :=
            (let* s := lift (str_receiver last_edited_str) in
             match fromisoformat_z env s with
             | Some d => ret d
             | None => now env
             end) in
          let* document_context :=
            DocumentContext env (VStr content_text)
              (dict_get_or page "title" (VStr "Untitled"))
              [VStr "Unknown"] last_edited page_id
              {[ "source" := VStr "notion";
                 "url" := dict_get_or page "url" (VStr "");
                 "created_time" := dict_get_or page "created_time" (VStr "") ]} in
          ret (context_items ++ [document_context]))
         (λ _, ret context_items)) [])
    (λ _, ret []).

(** [d.get("Account", {}).get("Name") if d.get("Account") else dflt] *)
Definition nested_name (d : gmap string pyval) (k : string) (dflt : pyval)
    : outcome pyval :=
  if truthy (dict_get d k) then
    match dict_get_or d k (VDict ∅) with
    | VDict a => Ok (dict_get a "Name")
    | _ => Raised AttributeError
    end
  else Ok dflt.

Definition _get_salesforce_context (env : Env) (query : option string)
    (entity_focus : option (gmap string pyval)) (days_back : Z)
    (limit : option Z) : M (list ContextItem) :=
  try_except
    (let context_items := [] in
     match (if dict_truthy entity_focus
            then default ∅ entity_focus !! "account_id" else None) with
     | Some account_id =>
         let* accounts := lift (sf_get_accounts env None 1) in
         let* contacts := lift (sf_get_contacts env account_id (int_or limit 5)) in
         let* context_items :=
           for_each accounts (λ account context_items,
             let* account_context :=
               AccountContext env
                 (dict_get_or account "Description" (VStr "No description available"))
                 (dict_get_or account "Name" (VStr "Unknown Account"))
                 (dict_get account "Industry")
                 (dict_get account "Website")
                 (dict_get account "Id")
                 {[ "source" := VStr "salesforce";
                    "type" := dict_get account "Type";
                    "phone" := dict_get account "Phone";
                    "last_modified" := dict_get account "LastModifiedDate" ]} in
             ret (context_items ++ [account_context])) context_items in
         for_each contacts (λ contact context_items,
           let first := fmt env (dict_get_or contact "FirstName" (VStr "")) in
           let last := fmt env (dict_get_or contact "LastName" (VStr "")) in
           let* account_name := lift (nested_name contact "Account" VNone) in
           let* contact_context :=
             ContactContext env
               (VStr ("Contact: " +:+ first +:+ " " +:+ last +:+ ", "
                      +:+ fmt env (dict_get_or contact "Title" (VStr "No title"))
                      +:+ ", "
                      +:+ fmt env (dict_get_or contact "Email" (VStr "No email"))))
               (VStr (first +:+ " " +:+ last))
               (dict_get contact "Email")
               (dict_get contact "Phone")
               (dict_get contact "Title")
               account_name
               (dict_get contact "Id")
               {[ "source" := VStr "salesforce";
                  "department" := dict_get contact "Department";
                  "account_id" := dict_get contact "AccountId";
                  "last_modified" := dict_get contact "LastModifiedDate" ]} in
           ret (context_items ++ [contact_context])) context_items
     | None =>
         let* opportunities :=
           lift (sf_get_opportunities env days_back (int_or limit 5)) in
         for_each opportunities (λ opp context_items,
           let* skip :=
             (if str_truthy query then
                let* nm := lift (str_receiver (dict_get_or opp "Name" (VStr ""))) in
                ret (negb (contains (str_lower env (default "" query))
                                 (str_lower env nm)))
              else ret false) in
           if skip then ret context_items else
           let* close_date :=
             (if truthy (dict_get opp "CloseDate") then
                let* s := lift (str_argument (dict_get opp "CloseDate")) in
                ret (strptime_ymd env s)
              else ret None) in
           let* amount :=
             (if truthy (dict_get opp "Amount") then
                let* a := lift (py_float env (dict_get opp "Amount")) in ret (Some a)
              else ret None) in
           let* account_name :=
             lift (nested_name opp "Account" (VStr "Unknown Account")) in
           let* owner_name :=
             lift (nested_name opp "Owner" (VStr "Unknown Owner")) in
           let* opportunity_context :=
             OpportunityContext env
               (VStr ("Opportunity: " +:+ fmt env (dict_get opp "Name")
                      +:+ ", Stage: " +:+ fmt env (dict_get opp "StageName")
                      +:+ ", Amount: " +:+ fmt env (dict_get opp "Amount")))
               (dict_get_or opp "Name" (VStr "Unknown Opportunity"))
               (dict_get_or opp "StageName" (VStr "Unknown Stage"))
               amount close_date account_name owner_name
               (dict_get opp "Id")
               {[ "source" := VStr "salesforce";
                  "account_id" := dict_get opp "AccountId";
                  "owner_id" := dict_get opp "OwnerId";
                  "last_modified" := dict_get opp "LastModifiedDate" ]} in
           ret (context_items ++ [opportunity_context])) context_items
     end)
    (λ _, ret []).

(** [request.sources or ["zoom", "gmail", "notion", "salesforce"]] *)
Definition enabled_sources (request : ContextRequest) : list string :=
  match sources request with
  | Some (s :: l) => s :: l
  | _ => ["zoom"; "gmail"; "notion"; "salesforce"]
  end.

(** The [days_back] of a request: 7 unless [time_range] has the key. *)
Definition days_back_of (env : Env) (request : ContextRequest) : outcome Z :=
  if dict_truthy (time_range request) then
    match default ∅ (time_range request) !! "days_back" with
    | Some v => py_int env v
    | None => Ok 7%Z
    end
  else Ok 7%Z.

(** [if request.limit and len(items) > request.limit: items = items[:request.limit]] *)
Definition apply_limit {A} (limit : option Z) (items : list A) : list A :=
  match limit with
  | Some n =>
      if negb (n =? 0)%Z && (n <? Z.of_nat (length items))%Z
      then slice_to items n else items
  | None => items
  end.

Definition get_context (env : Env) (request : ContextRequest) : M ContextResponse :=
  let context_items := [] in
  let sources := enabled_sources request in
  let* days_back := lift (days_back_of env request) in
  let entity_focus :=
    if dict_truthy (entity_focus request) then entity_focus request else None in
  let* context_items :=
    (if bool_decide ("zoom" ∈ sources) then
       let* zoom_items := _get_zoom_context env (query request) days_back (limit request) in
       ret (context_items ++ zoom_items)
     else ret context_items) in
  let* context_items :=
    (if bool_decide ("gmail" ∈ sources) then
       let* gmail_items := _get_gmail_context env (query request) days_back (limit request) in
       ret (context_items ++ gmail_items)
     else ret context_items) in
  let* context_items :=
    (if bool_decide ("notion" ∈ sources) then
       let* notion_items := _get_notion_context env (query request) (limit request) in
       ret (context_items ++ notion_items)
     else ret context_items) in
  let* context_items :=
    (if bool_decide ("salesforce" ∈ sources) then
       let* salesforce_items :=
         _get_salesforce_context env (query request) entity_focus days_back (limit request) in
       ret (context_items ++ salesforce_items)
     else ret context_items) in
  let context_items := sort_desc sort_key context_items in
  let context_items := apply_limit (limit request) context_items in
  let* ts := now env in
  ret {| resp_source := "vibecoding-mcp";
         context_items := context_items;
         resp_query := query request;
         resp_timestamp := ts |}.

End ContextService.

(** ** The dictionary form of an item ([item.dict()]) *)

Definition opt_str_val (o : option string) : pyval :=
  match o with Some s => VStr s | None => VNone end.
Definition opt_datetime_val (o : option datetime) : pyval :=
  match o with Some t => VDatetime t | None => VNone end.
Definition opt_float_val (o : option Q) : pyval :=
  match o with Some q => VFloat q | None => VNone end.
Definition str_list_val (l : list string) : pyval := VList (VStr <$> l).

Definition payload_fields (d : payload) : list (string * pyval) :=
  match d with
  | Base => []
  | Email subject sender recipients date thread_id =>
      [("subject", VStr subject); ("sender", VStr sender);
       ("recipients", str_list_val recipients); ("date", VDatetime date);
       ("thread_id", opt_str_val thread_id)]
  | Meeting title participants date duration meeting_id =>
      [("title", VStr title); ("participants", str_list_val participants);
       ("date", VDatetime date); ("duration", VInt duration);
       ("meeting_id", VStr meeting_id)]
  | Document_ title authors last_edited page_id =>
      [("title", VStr title); ("authors", str_list_val authors);
       ("last_edited", VDatetime last_edited); ("page_id", VStr page_id)]
  | Opportunity name stage amount close_date account_name owner_name opportunity_id =>
      [("name", VStr name); ("stage", VStr stage);
       ("amount", opt_float_val amount); ("close_date", opt_datetime_val close_date);
       ("account_name", VStr account_name); ("owner_name", VStr owner_name);
       ("opportunity_id", VStr opportunity_id)]
  | Account name industry website account_id description =>
      [("name", VStr name); ("industry", opt_str_val industry);
       ("website", opt_str_val website); ("account_id", VStr account_id);
       ("description", opt_str_val description)]
  | Contact name email phone title account_name contact_id =>
      [("name", VStr name); ("email", opt_str_val email);
       ("phone", opt_str_val phone); ("title", opt_str_val title);
       ("account_name", opt_str_val account_name); ("contact_id", VStr contact_id)]
  end.

Definition item_dict (it : ContextItem) : gmap string pyval :=
  list_to_map
    ([("type", VStr (type it)); ("source", VStr (source it));
      ("content", VStr (content it)); ("metadata", VDict (metadata it));
      ("timestamp", opt_datetime_val (timestamp it))]
     ++ payload_fields (detail it)).

(** ** The vector index ([src/services/vector_store.py]) *)

Module VectorStore.

(** The type-specific entries written into a chunk's metadata, in the order
    of the assignments. *)
Definition type_fields (item : gmap string pyval) : list (string * pyval) :=
  match dict_get item "type" with
  | VStr ty =>
      if String.eqb ty "email" then
        [("subject", dict_get_or item "subject" (VStr ""));
         ("sender", dict_get_or item "sender" (VStr ""));
         ("date", dict_get_or item "date" (VStr ""))]
      else if String.eqb ty "meeting" then
        [("title", dict_get_or item "title" (VStr ""));
         ("date", dict_get_or item "date" (VStr ""))]
      else if String.eqb ty "document" then
        [("title", dict_get_or item "title" (VStr ""));
         ("last_edited", dict_get_or item "last_edited" (VStr ""))]
      else if String.eqb ty "opportunity" || String.eqb ty "account"
              || String.eqb ty "contact" then
        [("name", dict_get_or item "name" (VStr ""))]
      else []
  | _ => []
  end.

(** [d[k] = v] for each entry of a list, in order. *)
Definition assign_all (entries : list (string * pyval)) (d : gmap string pyval)
    : gmap string pyval :=
  foldl (λ m kv, <[kv.1 := kv.2]> m) d entries.

(** One [Document] per chunk: [{**metadata, "chunk": i, "total_chunks": len(texts)}]. *)
Definition chunk_documents (metadata_ : gmap string pyval) (texts : list string)
    : list Document :=
  imap (λ i text,
          {| page_content := text;
             doc_metadata :=
               <["total_chunks" := VInt (Z.of_nat (length texts))]>
                 (<["chunk" := VInt (Z.of_nat i)]> metadata_) |}) texts.

(** The body of the loop of [add_items]: the chunks of one item are appended
    to the local list [documents]; an item without content is skipped. *)
Definition item_documents (env : Env) (item : gmap string pyval)
    (documents_ : list Document) : M (list Document) :=
  let content_ := dict_get_or item "content" (VStr "") in
  if negb (truthy content_) then ret documents_ else
  let* t := now env in
  let metadata_ : gmap string pyval :=
    {[ "source" := dict_get_or item "source" (VStr "unknown");
       "type" := dict_get_or item "type" (VStr "unknown");
       "id" := dict_get_or item "id" (VStr "");
       "timestamp" := VStr (isoformat env t) ]} in
  let metadata_ := assign_all (type_fields item) metadata_ in
  let* text := lift (str_argument content_) in
  let texts := split_text env text in
  ret (documents_ ++ chunk_documents metadata_ texts).

(** The loop of [add_items] that builds the local list [documents]. *)
Definition build_documents (env : Env) (context_items : list (gmap string pyval))
    : M (list Document) :=
  for_each context_items (item_documents env) [].

(** [Chroma.from_documents(documents, embeddings, persist_directory)]: the
    collection it opens holds what the directory held, then [documents]. *)
Definition from_documents (env : Env) (docs : list Document)
    : outcome (list Document) :=
  match from_documents_error env docs with
  | Some e => Raised e
  | None => Ok (persisted env ++ docs)
  end.

(** [vector_db.add_documents(documents)] on a collection that holds [db]. *)
Definition add_documents (env : Env) (db docs : list Document)
    : outcome (list Document) :=
  match add_documents_error env db docs with
  | Some e => Raised e
  | None => Ok (db ++ docs)
  end.

(** [add_items]: the chunks are first appended to the tracking list; then
    the first call creates the collection from them
    ([Chroma.from_documents]) and later calls add them to it
    ([add_documents]).  Nothing catches what the backend raises: the
    tracking list then keeps the chunks and the collection is as it was. *)
Definition add_items (env : Env) (context_items : list (gmap string pyval)) : M unit :=
  let* docs := build_documents env context_items in
  let* st := get_store in
  let tracked := documents st ++ docs in
  do put_store {| vector_db := vector_db st; documents := tracked |} then
  match vector_db st with
  | None =>
      let* db := lift (from_documents env docs) in
      put_store {| vector_db := Some db; documents := tracked |}
  | Some db =>
      let* db' := lift (add_documents env db docs) in
      put_store {| vector_db := Some db'; documents := tracked |}
  end.

(** The [filter] argument handed to [similarity_search]:
    the entries of [filter_criteria] whose key is ["source"] or ["type"], or
    [None] when there is none. *)
Definition search_filter (filter_criteria : option (gmap string pyval))
    : option (gmap string pyval) :=
  let filter_dict : gmap string pyval :=
    if dict_truthy filter_criteria then
      filter (λ kv, kv.1 = "source" ∨ kv.1 = "type") (default ∅ filter_criteria)
    else ∅ in
  if truthy (VDict filter_dict) then Some filter_dict else None.

Definition search (env : Env) (query_ : string)
    (filter_criteria : option (gmap string pyval)) (limit_ : Z) : M (list SearchHit) :=
  let* st := get_store in
  match vector_db st, documents st with
  | None, _ | _, [] => ret []
  | Some db, _ :: _ =>
      let filter_ := search_filter filter_criteria in
      try_except
        (let* results := lift (similarity_search env db query_ limit_ filter_) in
         ret ((λ doc, {| hit_content := page_content doc;
                         hit_metadata := doc_metadata doc;
                         hit_score := dict_get_or (doc_metadata doc) "score" (VFloat 0) |})
                <$> results))
        (λ _, ret [])
  end.

End VectorStore.

(** ** The retrieval orchestrator ([src/services/vector_context_service.py]) *)

Module VectorContextService.

Definition initialize (env : Env) (days_back : Z) : M unit :=
  let* done_ := get_initialized in
  if done_ then ret tt else
  let request :=
    {| query := None;
       time_range := Some {[ "days_back" := VInt days_back ]};
       sources := Some ["zoom"; "gmail"; "notion"; "salesforce"];
       limit := Some 100%Z;
       entity_focus := None |} in
  let* response := ContextService.get_context env request in
  let context_dicts := item_dict <$> context_items response in
  do VectorStore.add_items env context_dicts then
  set_initialized true.

(** The [filter_criteria] built from [request.sources]. *)
Definition filter_criteria_of (request : ContextRequest) : gmap string pyval :=
  match sources request with
  | Some (s :: l) =>
      {[ "source" := match l with [] => VStr s | _ => VNone end ]}
  | _ => ∅
  end.

(** The identifiers of the items built from the search hits:
    [set(item.metadata.get("id", "") for item in context_items if item.metadata.get("id"))].
    A list or a dictionary cannot be put in a set ([TypeError]).  A fresh
    item's identifier is text, and a number, a boolean or a date is never
    equal to a text: of the members of the set only the texts matter, and
    the set is held as the set of its texts. *)
Fixpoint existing_ids_of (items : list ContextItem) : outcome (gset string) :=
  match items with
  | [] => Ok ∅
  | it :: rest =>
      let id_ := dict_get_or (metadata it) "id" (VStr "") in
      if truthy (dict_get (metadata it) "id") then
        match id_ with
        | VList _ | VDict _ => Raised TypeError
        | VStr s => let? ids := existing_ids_of rest in Ok ({[ s ]} ∪ ids)
        | _ => existing_ids_of rest
        end
      else existing_ids_of rest
  end.

(** The [hasattr] chain: [thread_id], else [meeting_id], else [page_id],
    else the initial [""]. *)
Definition item_id (it : ContextItem) : option string :=
  match detail it with
  | Email _ _ _ _ thread_id => thread_id
  | Meeting _ _ _ _ meeting_id => Some meeting_id
  | Document_ _ _ _ page_id => Some page_id
  | _ => Some ""
  end.

(** The loop that adds the fresh items:
    [if item_id and item_id not in existing_ids: append; existing_ids.add]. *)
Fixpoint merge_fresh (fresh : list ContextItem) (context_items_ : list ContextItem)
    (existing_ids : gset string) : list ContextItem :=
  match fresh with
  | [] => context_items_
  | item :: rest =>
      if str_truthy (item_id item)
         && negb (bool_decide (default "" (item_id item) ∈ existing_ids))
      then merge_fresh rest (context_items_ ++ [item])
             ({[ default "" (item_id item) ]} ∪ existing_ids)
      else merge_fresh rest context_items_ existing_ids
  end.

(** [request.time_range and request.time_range.get("include_fresh", False)] *)
Definition include_fresh (request : ContextRequest) : bool :=
  dict_truthy (time_range request)
  && truthy (dict_get_or (default ∅ (time_range request)) "include_fresh" (VBool false)).

(** The items rebuilt from the search hits. *)
Definition items_of_hits (env : Env) (vector_results : list SearchHit)
    : M (list ContextItem) :=
  for_each vector_results (λ result context_items_,
    let metadata_ := hit_metadata result in
    let item_type := dict_get_or metadata_ "type" (VStr "unknown") in
    let source_ := dict_get_or metadata_ "source" (VStr "unknown") in
    let* item :=
      ContextItem_init env item_type source_ (VStr (hit_content result))
        (<["vector_score" := hit_score result]> metadata_) None (Ok Base) in
    ret (context_items_ ++ [item])) [].

(** [if not self.initialized: await self.initialize()] *)
Definition ensure_initialized (env : Env) : M unit :=
  let* done_ := get_initialized in
  if done_ then ret tt else initialize env 30.

Definition get_context (env : Env) (request : ContextRequest) : M ContextResponse :=
  do ensure_initialized env then
  if negb (str_truthy (query request)) then
    ContextService.get_context env request
  else
    let filter_criteria := filter_criteria_of request in
    let* vector_results :=
      VectorStore.search env (default "" (query request)) (Some filter_criteria)
        (int_or (limit request) 10) in
    match vector_results with
    | [] => ContextService.get_context env request
    | _ :: _ =>
        let* context_items_ := items_of_hits env vector_results in
        let* context_items_ :=
          (if include_fresh request then
             let* fresh_response := ContextService.get_context env request in
             let* existing_ids := lift (existing_ids_of context_items_) in
             ret (merge_fresh (context_items fresh_response) context_items_
                    existing_ids)
           else ret context_items_) in
        let* ts := now env in
        ret {| resp_source := "vibecoding-mcp-vector";
               context_items := context_items_;
               resp_query := query request;
               resp_timestamp := ts |}
    end.

Definition add_to_index (env : Env) (context_items_ : list ContextItem) : M unit :=
  let context_dicts := item_dict <$> context_items_ in
  VectorStore.add_items env context_dicts.

End VectorContextService.

(** ** The handler of [/context] ([src/main.py]) *)

(** The body of the handler, for the user that the dependency
    [get_current_active_user] returned; the permission check is the [Env]
    field.  The route with its dependency is [context_route], after
    [AuthService]. *)
Module Main.

(** The permission loop: the first source the user may not read raises 403. *)
Fixpoint check_sources (env : Env) (current_user : string) (srcs : list string)
    : M unit :=
  match srcs with
  | [] => ret tt
  | s :: rest =>
      if check_permission env current_user s
      then check_sources env current_user rest
      else raise (HTTPException 403)
  end.

Definition get_context (env : Env) (current_user : string)
    (request : ContextRequest) : M ContextResponse :=
  try_except
    (do check_sources env current_user (default [] (sources request)) then
     let use_vector := match query request with Some _ => true | None => false end in
     if use_vector then
       VectorContextService.get_context env request
     else
       let* context_response := ContextService.get_context env request in
       do VectorContextService.add_to_index env (context_items context_response) then
       ret context_response)
    (λ _, raise (HTTPException 500)).

End Main.

(** ** Notions used in the statements *)

(** Most recent first: the order of the keys of a sorted response. *)
Definition newer_first {A} (key : A → N) : relation A :=
  λ a b, (key b ≤ key a)%N.

(** A computation that leaves the index and the bootstrap flag as they are,
    whether it returns or raises. *)
Definition preserves_index {A} (m : M A) : Prop :=
  ∀ w o w', m w = (o, w') →
    vector_store w' = vector_store w ∧ initialized w' = initialized w.

(** An item that has a timestamp, which is then its sort key. *)
Definition stamped (it : ContextItem) : Prop :=
  ∃ t, timestamp it = Some t ∧ ContextService.sort_key it = t.

(** What a source adds to the list of [get_context]: the result of its
    pipeline when the source is enabled, nothing otherwise. *)
Definition contribution (enabled : bool) (pipeline : M (list ContextItem))
    (w : World) (items : list ContextItem) (w' : World) : Prop :=
  if enabled then pipeline w = (Ok items, w') else items = [] ∧ w' = w.




(** The entity focus [get_context] hands to the CRM pipeline, and the
    account it names. *)
Definition focus_arg (r : ContextRequest) : option (gmap string pyval) :=
  if dict_truthy (entity_focus r) then entity_focus r else None.





(** The [account_id] of the [AccountContext] items of a list. *)
Definition account_ids (items : list ContextItem) : list string :=
  omap (λ it, match detail it with
              | Account _ _ _ account_id _ => Some account_id
              | _ => None
              end) items.

Definition is_opportunity (it : ContextItem) : bool :=
  match detail it with Opportunity _ _ _ _ _ _ _ => true | _ => false end.

(** The texts [add_items] stores for a list of items: the chunks of every
    non-empty content. *)
Fixpoint chunk_texts (env : Env) (items : list (gmap string pyval)) : list string :=
  match items with
  | [] => []
  | item :: rest =>
      match dict_get_or item "content" (VStr "") with
      | VStr s => if String.eqb s "" then chunk_texts env rest
                  else split_text env s ++ chunk_texts env rest
      | _ => chunk_texts env rest
      end
  end.

(** A chunk without the time at which it was stored. *)
Definition untimed (d : Document) : Document :=
  {| page_content := page_content d;
     doc_metadata := delete "timestamp" (doc_metadata d) |}.

(** The value a run returns, if it returns one, and the state it ends in. *)
Definition returned {A} (x : outcome A * World) : option A :=
  match x.1 with Ok a => Some a | Raised _ => None end.
Definition final {A} (x : outcome A * World) : World := x.2.

(** ** Sample environments and requests *)

Definition email1 : gmap string pyval :=
  list_to_map
    [("id", VStr "m1"); ("thread_id", VStr "t1"); ("subject", VStr "Proposal");
     ("from", VStr "ann@example.com"); ("to", VStr "bob@example.com");
     ("date", VStr "Unknown"); ("body", VStr "alpha beta"); ("snippet", VStr "alpha")].

Definition email2 : gmap string pyval :=
  list_to_map
    [("id", VStr "m2"); ("thread_id", VStr "t1"); ("subject", VStr "Re: Proposal");
     ("from", VStr "bob@example.com"); ("to", VStr "ann@example.com");
     ("date", VStr "Unknown"); ("body", VStr "alpha gamma"); ("snippet", VStr "alpha")].

Definition account_yy : gmap string pyval :=
  list_to_map
    [("Id", VStr "001YY"); ("Name", VStr "Globex");
     ("Description", VStr "Most recently modified account")].

Definition contact1 : gmap string pyval :=
  list_to_map
    [("Id", VStr "003AA"); ("FirstName", VStr "Ann"); ("LastName", VStr "Lee");
     ("AccountId", VStr "001XX")].

Definition scalar_eqb (a b : pyval) : bool :=
  match a, b with
  | VStr s, VStr t => String.eqb s t
  | VInt x, VInt y => (x =? y)%Z
  | VBool x, VBool y => Bool.eqb x y
  | _, _ => false
  end.

Definition matches_filter (f : option (gmap string pyval)) (d : Document) : bool :=
  match f with
  | None => true
  | Some m =>
      forallb (λ kv, scalar_eqb (dict_get (doc_metadata d) kv.1) kv.2) (map_to_list m)
  end.

(** Lower-casing of ASCII text, which is what the texts of the sample
    environments are. *)
Definition ascii_lower_char (c : Ascii.ascii) : Ascii.ascii :=
  let n := Ascii.nat_of_ascii c in
  if (65 <=? n)%nat && (n <=? 90)%nat then Ascii.ascii_of_nat (n + 32) else c.

Fixpoint ascii_lower (s : string) : string :=
  match s with
  | EmptyString => EmptyString
  | String c s' => String (ascii_lower_char c) (ascii_lower s')
  end.

(** What Chroma refuses: an empty batch, and a chunk whose metadata holds
    anything but text, numbers and booleans (a date, [None]). *)
Definition storable (v : pyval) : bool :=
  match v with
  | VStr _ | VInt _ | VFloat _ | VBool _ => true
  | _ => false
  end.

Definition chroma_refusal (docs : list Document) : option exn :=
  match docs with
  | [] => Some ValueError
  | _ :: _ =>
      if forallb (λ d, forallb (λ kv : string * pyval, storable kv.2)
                         (map_to_list (doc_metadata d))) docs
      then None else Some ValueError
  end.

(** A backend that ranks all chunks equal: the first [k] stored chunks that
    pass the filter. *)
Definition first_k_backend (db : list Document) (q : string) (k : Z)
    (f : option (gmap string pyval)) : outcome (list Document) :=
  Ok (take (Z.to_nat k) (List.filter (matches_filter f) db)).

(** An environment given by what Zoom answers, what Gmail lists as recent and
    finds by search, and the accounts and contacts of the CRM.  The clock
    advances by one at each reading; dates never parse; a content is a single
    chunk; the directory of the index is empty when the process starts. *)
Definition sample_env (zoom : outcome (list (gmap string pyval)))
    (recent found accounts contacts : list (gmap string pyval)) : Env :=
  {| clock := λ n, N.of_nat (1000 + n);
     isoformat := λ t, pretty t;
     strptime_email := λ _, None;
     fromisoformat_z := λ _, None;
     strptime_ymd := λ _, None;
     int_of_str := λ _, None;
     float_of_str := λ _, None;
     py_str := λ _, "None";
     str_lower := ascii_lower;
     zoom_get_recent_meeting_transcripts := λ _ _, zoom;
     gmail_search_emails := λ _ _, Ok found;
     gmail_get_recent_emails := λ _ _, Ok recent;
     notion_search_pages := λ _ _, Ok [];
     notion_get_database_pages := λ _, Ok [];
     notion_get_page_content := λ _, Ok ∅;
     sf_get_accounts := λ _ _, Ok accounts;
     sf_get_contacts := λ _ _, Ok contacts;
     sf_get_opportunities := λ _ _, Ok [];
     split_text := λ s, [s];
     persisted := [];
     from_documents_error := chroma_refusal;
     add_documents_error := λ _, chroma_refusal;
     similarity_search := first_k_backend;
     check_permission := λ _ _, true |}.

(** Gmail has one message, recent and found by search; the CRM has one
    account and one contact. *)
Definition env_indexed : Env := sample_env (Ok []) [email1] [email1] [account_yy] [contact1].

(** Two messages of one thread, too old for the bootstrap window and only
    found by search. *)
Definition env_search_only : Env :=
  sample_env (Ok []) [] [email1; email2] [] [].


(** A process that has just started. *)
Definition fresh_world : World :=
  {| now_calls := 0;
     initialized := false;
     vector_store := {| vector_db := None; documents := [] |} |}.

Definition request_of (q : option string) (tr : option (gmap string pyval))
    (srcs : option (list string)) (lim : option Z) : ContextRequest :=
  {| query := q; time_range := tr; sources := srcs; limit := lim;
     entity_focus := None |}.

(** [{"limit": 5}] *)
Definition request_plain : ContextRequest :=
  request_of None None None (Some 5%Z).

(** [{"query": "alpha", "limit": 5}] *)
Definition request_alpha : ContextRequest :=
  request_of (Some "alpha") None None (Some 5%Z).

(** [{"query": "alpha", "time_range": {"include_fresh": true}, "limit": 1}] *)
Definition request_fresh : ContextRequest :=
  request_of (Some "alpha") (Some {[ "include_fresh" := VBool true ]}) None (Some 1%Z).

(** [{"query": "alpha", "sources": ["zoom", "gmail"]}] *)
Definition request_two_sources : ContextRequest :=
  request_of (Some "alpha") None (Some ["zoom"; "gmail"]) None.

(** [{"entity_focus": {"account_id": "001XX"}, "sources": ["salesforce"]}] *)
Definition request_account : ContextRequest :=
  {| query := None; time_range := None; sources := Some ["salesforce"];
     limit := Some 10%Z;
     entity_focus := Some {[ "account_id" := VStr "001XX" ]} |}.

(** One e-mail in dictionary form, as [add_items] receives it. *)
Definition email_item : ContextItem :=
  {| type := "email"; source := "gmail"; content := "alpha beta";
     metadata := {[ "source" := VStr "gmail"; "id" := VStr "m1" ]};
     timestamp := Some 1000%N;
     detail := Email "Proposal" "ann@example.com" ["bob@example.com"] 1000%N
                 (Some "t1") |}.

(** ** Further notions *)

(** The list the fan-out of [get_context] builds before sorting: what the
    enabled sources return, Zoom first, then Gmail, Notion and Salesforce,
    each run in the state the previous one left. *)
Definition fan_out (env : Env) (r : ContextRequest) (d : Z) (w : World)
    (arrivals : list ContextItem) (w4 : World) : Prop :=
  ∃ z g n f w1 w2 w3,
    arrivals = z ++ g ++ n ++ f
    ∧ contribution (bool_decide ("zoom" ∈ ContextService.enabled_sources r))
        (ContextService._get_zoom_context env (query r) d (limit r)) w z w1
    ∧ contribution (bool_decide ("gmail" ∈ ContextService.enabled_sources r))
        (ContextService._get_gmail_context env (query r) d (limit r)) w1 g w2
    ∧ contribution (bool_decide ("notion" ∈ ContextService.enabled_sources r))
        (ContextService._get_notion_context env (query r) (limit r)) w2 n w3
    ∧ contribution (bool_decide ("salesforce" ∈ ContextService.enabled_sources r))
        (ContextService._get_salesforce_context env (query r) (focus_arg r) d (limit r))
        w3 f w4.

(** How many items [items[:n]]-after-the-guard keeps of [total] items, for
    each [request.limit]. *)
Definition kept_by_limit (lim : option Z) (total : nat) : nat :=
  match lim with
  | None => total
  | Some n =>
      if (n =? 0)%Z then total
      else if (0 <? n)%Z then Nat.min (Z.to_nat n) total
      else total - Z.to_nat (- n)
  end.

(** The class of an item agrees with its [type] and [source]. *)
Definition kind_consistent (it : ContextItem) : Prop :=
  match detail it with
  | Base => False
  | Email _ _ _ _ _ => type it = "email" ∧ source it = "gmail"
  | Meeting _ _ _ _ _ => type it = "meeting" ∧ source it = "zoom"
  | Document_ _ _ _ _ => type it = "document" ∧ source it = "notion"
  | Opportunity _ _ _ _ _ _ _ => type it = "opportunity" ∧ source it = "salesforce"
  | Account _ _ _ _ _ => type it = "account" ∧ source it = "salesforce"
  | Contact _ _ _ _ _ _ => type it = "contact" ∧ source it = "salesforce"
  end.

(** A raw record all of whose values are texts. *)
Definition all_text (rec : gmap string pyval) : Prop :=
  ∀ k v, rec !! k = Some v → ∃ s, v = VStr s.

(** The text under a key of a record, or a default. *)
Definition get_text (rec : gmap string pyval) (k dflt : string) : string :=
  match rec !! k with Some (VStr s) => s | _ => dflt end.

(** [str.lower] maps the empty text, and no other, to the empty text. *)
Definition lower_keeps_empty (env : Env) : Prop :=
  str_lower env "" = "" ∧ ∀ s, str_lower env s = "" → s = "".

(** The name of an opportunity item. *)
Definition opportunity_name (it : ContextItem) : option string :=
  match detail it with
  | Opportunity name _ _ _ _ _ _ => Some name
  | _ => None
  end.

(** ** Further sample data and notions *)

(** Zoom has two transcripts, one of which mentions "alpha". *)
Definition env_transcripts : Env :=
  sample_env (Ok [ {[ "meeting_id" := VStr "91"; "transcript" := VStr "alpha beta" ]};
                   {[ "meeting_id" := VStr "92"; "transcript" := VStr "gamma" ]} ])
    [] [] [] [].

(** The CRM has two opportunities. *)
Definition env_opportunities : Env :=
  {| clock := λ n, N.of_nat (1000 + n);
     isoformat := λ t, pretty t;
     strptime_email := λ _, None;
     fromisoformat_z := λ _, None;
     strptime_ymd := λ _, None;
     int_of_str := λ _, None;
     float_of_str := λ _, None;
     py_str := λ _, "None";
     str_lower := ascii_lower;
     zoom_get_recent_meeting_transcripts := λ _ _, Ok [];
     gmail_search_emails := λ _ _, Ok [];
     gmail_get_recent_emails := λ _ _, Ok [];
     notion_search_pages := λ _ _, Ok [];
     notion_get_database_pages := λ _, Ok [];
     notion_get_page_content := λ _, Ok ∅;
     sf_get_accounts := λ _ _, Ok [];
     sf_get_contacts := λ _ _, Ok [];
     sf_get_opportunities := λ _ _,
       Ok [ {[ "Id" := VStr "006A"; "Name" := VStr "Alpha renewal";
               "StageName" := VStr "Won" ]};
            {[ "Id" := VStr "006B"; "Name" := VStr "Beta pilot";
               "StageName" := VStr "Open" ]} ];
     split_text := λ s, [s];
     persisted := [];
     from_documents_error := chroma_refusal;
     add_documents_error := λ _, chroma_refusal;
     similarity_search := first_k_backend;
     check_permission := λ _ _, true |}.

(** A transcript whose [meeting_id] is null, after a regular one. *)
Definition transcript_without_id : gmap string pyval :=
  {[ "meeting_id" := VNone; "transcript" := VStr "gamma" ]}.

Definition env_transcript_without_id : Env :=
  sample_env
    (Ok [ {[ "meeting_id" := VStr "91"; "transcript" := VStr "alpha" ]};
          transcript_without_id ])
    [] [] [] [].

(** A message whose recipient is null, before a regular one. *)
Definition email_without_recipient : gmap string pyval :=
  {[ "id" := VStr "m0"; "to" := VNone; "body" := VStr "lost" ]}.

Definition env_email_without_recipient : Env :=
  sample_env (Ok []) [email_without_recipient; email1] [] [] [].

(** A backend that answers with chunks it stores. *)
Definition backend_returns_stored (env : Env) : Prop :=
  ∀ db q k f docs, similarity_search env db q k f = Ok docs → docs ⊆ db.

(** No chunk of the collection has a ["score"] in its metadata. *)
Definition unscored (st : VectorStoreState) : Prop :=
  ∀ db, vector_db st = Some db → Forall (λ d, doc_metadata d !! "score" = None) db.

(** Nor has a chunk of the directory. *)
Definition unscored_directory (env : Env) : Prop :=
  Forall (λ d, doc_metadata d !! "score" = None) (persisted env).

(** The chunks of the collection: those of the directory, until the
    collection is opened. *)
Definition collection_of (env : Env) (st : VectorStoreState) : list Document :=
  match vector_db st with Some db => db | None => persisted env end.

(** The collection holds what the directory held, then chunks of the
    tracking list, in the order of the list. *)
Definition tracked (env : Env) (st : VectorStoreState) : Prop :=
  ∀ db, vector_db st = Some db →
    ∃ l, db = persisted env ++ l ∧ l `sublist_of` documents st.

(** A computation that keeps a property of the index, whether it returns or
    raises. *)
Definition keeps {A} (P : VectorStoreState → Prop) (m : M A) : Prop :=
  ∀ w o w', P (vector_store w) → m w = (o, w') → P (vector_store w').

(** The chunk built for the [i]-th text of an item. *)
Definition describes (env : Env) (item : gmap string pyval) (d : Document) : Prop :=
  ∃ text i,
    dict_get_or item "content" (VStr "") = VStr text
    ∧ split_text env text !! i = Some (page_content d)
    ∧ doc_metadata d !! "chunk" = Some (VInt (Z.of_nat i))
    ∧ doc_metadata d !! "total_chunks"
      = Some (VInt (Z.of_nat (length (split_text env text))))
    ∧ doc_metadata d !! "source" = Some (dict_get_or item "source" (VStr "unknown"))
    ∧ doc_metadata d !! "type" = Some (dict_get_or item "type" (VStr "unknown")).

(** A backend that answers with at most [k] chunks. *)
Definition backend_respects_k (env : Env) : Prop :=
  ∀ db q k f docs, similarity_search env db q k f = Ok docs →
    (Z.of_nat (length docs) ≤ Z.max 0 k)%Z.

(** The item the orchestrator rebuilds from a search hit. *)
Definition rebuilt (env : Env) (h : SearchHit) (it : ContextItem) : Prop :=
  detail it = Base
  ∧ content it = hit_content h
  ∧ metadata it = <["vector_score" := hit_score h]> (hit_metadata h)
  ∧ str_field env (dict_get_or (hit_metadata h) "type" (VStr "unknown")) = Ok (type it)
  ∧ str_field env (dict_get_or (hit_metadata h) "source" (VStr "unknown"))
    = Ok (source it)
  ∧ is_Some (timestamp it).

(** An item of the CRM: an opportunity, an account or a contact. *)
Definition crm_item (it : ContextItem) : bool :=
  match detail it with
  | Opportunity _ _ _ _ _ _ _ | Account _ _ _ _ _ | Contact _ _ _ _ _ _ => true
  | _ => false
  end.

(** The request of the bootstrap. *)
Definition bootstrap_request (days_back : Z) : ContextRequest :=
  {| query := None;
     time_range := Some {[ "days_back" := VInt days_back ]};
     sources := Some ["zoom"; "gmail"; "notion"; "salesforce"];
     limit := Some 100%Z;
     entity_focus := None |}.

(** An environment with another permission table. *)
Definition with_permission (p : string → string → bool) (env : Env) : Env :=
  {| clock := clock env;
     isoformat := isoformat env;
     strptime_email := strptime_email env;
     fromisoformat_z := fromisoformat_z env;
     strptime_ymd := strptime_ymd env;
     int_of_str := int_of_str env;
     float_of_str := float_of_str env;
     py_str := py_str env;
     str_lower := str_lower env;
     zoom_get_recent_meeting_transcripts := zoom_get_recent_meeting_transcripts env;
     gmail_search_emails := gmail_search_emails env;
     gmail_get_recent_emails := gmail_get_recent_emails env;
     notion_search_pages := notion_search_pages env;
     notion_get_database_pages := notion_get_database_pages env;
     notion_get_page_content := notion_get_page_content env;
     sf_get_accounts := sf_get_accounts env;
     sf_get_contacts := sf_get_contacts env;
     sf_get_opportunities := sf_get_opportunities env;
     split_text := split_text env;
     persisted := persisted env;
     from_documents_error := from_documents_error env;
     add_documents_error := add_documents_error env;
     similarity_search := similarity_search env;
     check_permission := p |}.

(** The document the Notion pipeline builds for a page of the listing. *)
Definition document_of (env : Env) (page : gmap string pyval) (it : ContextItem)
    : Prop :=
  ∃ page_with_content blocks texts page_id title last_edited,
    truthy (dict_get page "id") = true
    ∧ notion_get_page_content env (dict_get page "id") = Ok page_with_content
    ∧ ContextService.iterate (dict_get_or page_with_content "content" (VList []))
      = Ok blocks
    ∧ ContextService.block_texts blocks = Ok texts
    ∧ content it = join_lines texts
    ∧ str_field env (dict_get page "id") = Ok page_id
    ∧ str_field env (dict_get_or page "title" (VStr "Untitled")) = Ok title
    ∧ detail it = Document_ title ["Unknown"] last_edited page_id
    ∧ metadata it
      = {[ "source" := VStr "notion";
           "url" := dict_get_or page "url" (VStr "");
           "created_time" := dict_get_or page "created_time" (VStr "") ]}.

(** Notion lists a page without identifier, then a page of two blocks. *)
Definition env_pages : Env :=
  {| clock := λ n, N.of_nat (1000 + n);
     isoformat := λ t, pretty t;
     strptime_email := λ _, None;
     fromisoformat_z := λ _, None;
     strptime_ymd := λ _, None;
     int_of_str := λ _, None;
     float_of_str := λ _, None;
     py_str := λ _, "None";
     str_lower := ascii_lower;
     zoom_get_recent_meeting_transcripts := λ _ _, Ok [];
     gmail_search_emails := λ _ _, Ok [];
     gmail_get_recent_emails := λ _ _, Ok [];
     notion_search_pages := λ _ _, Ok [];
     notion_get_database_pages := λ _,
       Ok [ {[ "title" := VStr "Draft" ]};
            {[ "id" := VStr "p1"; "title" := VStr "Plan" ]} ];
     notion_get_page_content := λ _,
       Ok {[ "content" := VList [ VDict {[ "text" := VStr "line one" ]};
                                  VDict {[ "text" := VStr "line two" ]} ] ]};
     sf_get_accounts := λ _ _, Ok [];
     sf_get_contacts := λ _ _, Ok [];
     sf_get_opportunities := λ _ _, Ok [];
     split_text := λ s, [s];
     persisted := [];
     from_documents_error := chroma_refusal;
     add_documents_error := λ _, chroma_refusal;
     similarity_search := first_k_backend;
     check_permission := λ _ _, true |}.

(** ** Samples for the index and the orchestrator *)

(** An environment given by what Gmail finds by search and by the
    opportunities of the CRM; Zoom, Notion and the recent mail are empty. *)
Definition crm_env (found opportunities : list (gmap string pyval)) : Env :=
  {| clock := λ n, N.of_nat (1000 + n);
     isoformat := λ t, pretty t;
     strptime_email := λ _, None;
     fromisoformat_z := λ _, None;
     strptime_ymd := λ _, None;
     int_of_str := λ _, None;
     float_of_str := λ _, None;
     py_str := λ _, "None";
     str_lower := ascii_lower;
     zoom_get_recent_meeting_transcripts := λ _ _, Ok [];
     gmail_search_emails := λ _ _, Ok found;
     gmail_get_recent_emails := λ _ _, Ok [];
     notion_search_pages := λ _ _, Ok [];
     notion_get_database_pages := λ _, Ok [];
     notion_get_page_content := λ _, Ok ∅;
     sf_get_accounts := λ _ _, Ok [];
     sf_get_contacts := λ _ _, Ok [];
     sf_get_opportunities := λ _ _, Ok opportunities;
     split_text := λ s, [s];
     persisted := [];
     from_documents_error := chroma_refusal;
     add_documents_error := λ _, chroma_refusal;
     similarity_search := first_k_backend;
     check_permission := λ _ _, true |}.

Definition opportunity_beta : gmap string pyval :=
  {[ "Id" := VStr "006B"; "Name" := VStr "Beta pilot"; "StageName" := VStr "Open" ]}.

(** The CRM has the opportunity "Beta pilot", which the bootstrap indexes;
    the search of Gmail finds one message of thread [t1]. *)
Definition env_crm : Env := crm_env [email1] [opportunity_beta].






(** An opportunity, as the CRM pipeline builds it. *)
Definition opportunity_item : ContextItem :=
  {| type := "opportunity"; source := "salesforce";
     content := "Opportunity: Alpha renewal, Stage: Won, Amount: None";
     metadata := {[ "source" := VStr "salesforce" ]};
     timestamp := Some 1000%N;
     detail := Opportunity "Alpha renewal" "Won" None None "Unknown Account"
                 "Unknown Owner" "006A" |}.

(** ** Authentication and permissions ([src/services/auth_service.py]) *)

Module AuthService.

Record User := {
  username : string;
  full_name : option string;
  permissions : gmap string bool;
  disabled : option bool
}.

Record Token := {
  access_token : string;
  token_type : string
}.

(** An entry of [USERS_DB]. *)
Record UserEntry := {
  entry_username : string;
  entry_full_name : string;
  entry_password : string;
  entry_permissions : gmap string bool;
  entry_disabled : bool
}.

Definition USERS_DB : gmap string UserEntry :=
  {[ "admin" :=
       {| entry_username := "admin";
          entry_full_name := "Admin User";
          entry_password := "admin123";
          entry_permissions :=
            {[ "zoom" := true; "gmail" := true; "notion" := true;
               "salesforce" := true ]};
          entry_disabled := false |};
     "sales" :=
       {| entry_username := "sales";
          entry_full_name := "Sales User";
          entry_password := "sales123";
          entry_permissions :=
            {[ "zoom" := true; "gmail" := true; "notion" := true;
               "salesforce" := true ]};
          entry_disabled := false |} ]}.

(** The [User] built from an entry: the password is no field of [User] and
    is dropped. *)
Definition User_of (user_dict : UserEntry) : User :=
  {| username := entry_username user_dict;
     full_name := Some (entry_full_name user_dict);
     permissions := entry_permissions user_dict;
     disabled := Some (entry_disabled user_dict) |}.

(** The JWT library and the clock it is used with. *)
Record Jose := {
  (** [datetime.utcnow() + timedelta(seconds=s)] *)
  utcnow_plus : Z → datetime;
  (** [jwt.encode(claims, secret_key, algorithm)] *)
  jwt_encode : gmap string pyval → string;
  (** the claims of a token whose signature and expiry verify; [None] is
      the [JWTError] of [jwt.decode] *)
  jwt_decode : string → option (gmap string pyval)
}.

Definition access_token_expire_minutes : Z := 60.

Definition verify_user (username_ password : string) : option User :=
  match USERS_DB !! username_ with
  | None => None
  | Some user_dict =>
      if negb (String.eqb (entry_password user_dict) password) then None
      else if entry_disabled user_dict then None
      else Some (User_of user_dict)
  end.

(** [expires_delta] in seconds; a zero [timedelta] is false. *)
Definition create_access_token (jose : Jose) (data : gmap string pyval)
    (expires_delta : option Z) : string :=
  let expire :=
    match expires_delta with
    | Some s =>
        if (s =? 0)%Z then utcnow_plus jose (60 * access_token_expire_minutes)
        else utcnow_plus jose s
    | None => utcnow_plus jose (60 * access_token_expire_minutes)
    end in
  jwt_encode jose (<["exp" := VDatetime expire]> data).

(** [jwt.decode(token, secret_key, algorithms=[algorithm])]: after the
    signature and the expiry, python-jose checks the registered claims, and
    refuses a ["sub"] that is not text with [JWTClaimsError], which is a
    [JWTError]. *)
Definition decode (jose : Jose) (token : string) : option (gmap string pyval) :=
  match jwt_decode jose token with
  | Some claims =>
      match claims !! "sub" with
      | None | Some (VStr _) => Some claims
      | Some _ => None
      end
  | None => None
  end.

(** [get_current_user]: a token that does not decode, that has no ["sub"],
    or whose ["sub"] names no user raises 401; [TokenData(username=...)]
    validates the claim as text. *)
Definition get_current_user (env : Env) (jose : Jose) (token : string)
    : outcome User :=
  match decode jose token with
  | None => Raised (HTTPException 401)
  | Some payload_ =>
      match dict_get payload_ "sub" with
      | VNone => Raised (HTTPException 401)
      | sub =>
          let? username_ := str_field env sub in
          match USERS_DB !! username_ with
          | None => Raised (HTTPException 401)
          | Some user_dict => Ok (User_of user_dict)
          end
      end
  end.

Definition get_current_active_user (current_user : User) : outcome User :=
  if default false (disabled current_user) then Raised (HTTPException 400)
  else Ok current_user.

(** [check_permission]; a [User] object is true, [None] is not. *)
Definition check_permission (user : option User) (source_ : string) : bool :=
  match user with
  | None => false
  | Some u =>
      if String.eqb source_ "" then false
      else if String.eqb (username u) "admin" then true
      else default false (permissions u !! source_)
  end.

(** The [/token] endpoint ([login_for_access_token] of [src/main.py]). *)
Definition login_for_access_token (jose : Jose) (username_ password : string)
    : outcome Token :=
  match verify_user username_ password with
  | None => Raised (HTTPException 401)
  | Some user =>
      let access_token_expires := (60 * access_token_expire_minutes)%Z in
      let access_token_ :=
        create_access_token jose {[ "sub" := VStr (username user) ]}
          (Some access_token_expires) in
      Ok {| access_token := access_token_; token_type := "bearer" |}
  end.

End AuthService.



(** A token that is its subject. *)
Definition sample_jose : AuthService.Jose :=
  {| AuthService.utcnow_plus := λ s, Z.to_N (1000 + s);
     AuthService.jwt_encode := λ claims,
       match claims !! "sub" with Some (VStr s) => s | _ => "" end;
     AuthService.jwt_decode := λ token, Some {[ "sub" := VStr token ]} |}.

(** A library that verifies no token, and one whose tokens carry no subject. *)
Definition jose_refusing : AuthService.Jose :=
  {| AuthService.utcnow_plus := λ s, Z.to_N (1000 + s);
     AuthService.jwt_encode := λ _, "token";
     AuthService.jwt_decode := λ _, None |}.

Definition jose_without_subject : AuthService.Jose :=
  {| AuthService.utcnow_plus := λ s, Z.to_N (1000 + s);
     AuthService.jwt_encode := λ _, "token";
     AuthService.jwt_decode := λ _, Some {[ "exp" := VInt 0 ]} |}.


(** * Properties *)

(** ** Running the monad *)

Lemma bind_run {A B} (m : M A) (k : A → M B) w a w1 :
  m w = (Ok a, w1) → bind m k w = k a w1.
Proof. intros E. unfold bind. now rewrite E. Qed.

Lemma bind_raised {A B} (m : M A) (k : A → M B) w e w1 :
  m w = (Raised e, w1) → bind m k w = (Raised e, w1).
Proof. intros E. unfold bind. now rewrite E. Qed.

Lemma bind_inv {A B} (m : M A) (k : A → M B) w b w' :
  bind m k w = (Ok b, w') → ∃ a w1, m w = (Ok a, w1) ∧ k a w1 = (Ok b, w').
Proof.
  unfold bind. destruct (m w) as [[a|e] w1]; intros E; [eauto | discriminate].
Qed.

Lemma lift_run {A} (o : outcome A) w : lift o w = (o, w).
Proof. reflexivity. Qed.

Lemma try_except_ok {A} (m : M A) h w a w1 :
  m w = (Ok a, w1) → try_except m h w = (Ok a, w1).
Proof. intros E. unfold try_except. now rewrite E. Qed.


(** A handler that returns a value absorbs every exception. *)
Lemma try_except_total {A} (m : M A) (d : A) w :
  ∃ a w', try_except m (λ _, ret d) w = (Ok a, w').
Proof.
  unfold try_except. destruct (m w) as [[a|e] w1]; unfold ret; eauto.
Qed.

Lemma try_except_inv {A} (m : M A) (d : A) w a w' :
  try_except m (λ _, ret d) w = (Ok a, w') →
  m w = (Ok a, w') ∨ (a = d ∧ ∃ e, m w = (Raised e, w')).
Proof.
  unfold try_except, ret. destruct (m w) as [[x|e] w1]; intros E.
  - left. exact E.
  - right. inversion E; subst. eauto.
Qed.

(** A loop whose body keeps an invariant of the accumulator keeps it. *)
Lemma for_each_invariant {A B} (P : list B → Prop) (body : A → list B → M (list B)) :
  (∀ x acc w acc' w', P acc → body x acc w = (Ok acc', w') → P acc') →
  ∀ xs acc w res w', P acc → for_each xs body acc w = (Ok res, w') → P res.
Proof.
  intros Hbody xs. induction xs as [|x xs IH]; intros acc w res w' Hacc Hrun.
  - cbn in Hrun. inversion Hrun; subst. exact Hacc.
  - cbn in Hrun. apply bind_inv in Hrun as (acc1 & w1 & Hb & Hrest).
    eapply IH; [|exact Hrest]. eapply Hbody; eauto.
Qed.

(** A loop whose body never raises never raises. *)
Lemma for_each_total {A B} (body : A → list B → M (list B)) :
  (∀ x acc w, ∃ acc' w', body x acc w = (Ok acc', w')) →
  ∀ xs acc w, ∃ res w', for_each xs body acc w = (Ok res, w').
Proof.
  intros Hbody xs. induction xs as [|x xs IH]; intros acc w.
  - cbn. unfold ret. eauto.
  - cbn. destruct (Hbody x acc w) as (acc1 & w1 & Hb).
    rewrite (bind_run _ _ _ _ _ Hb). apply IH.
Qed.

(** ** The sort *)

Section sort_facts.
Context {A : Type} (key : A → N).

Lemma insert_desc_perm x l : insert_desc key x l ≡ₚ x :: l.
Proof.
  induction l as [|y l IH]; cbn; [reflexivity|].
  destruct (key x <? key y)%N; [|reflexivity].
  rewrite IH. apply Permutation_swap.
Qed.

Lemma sort_desc_perm l : sort_desc key l ≡ₚ l.
Proof.
  induction l as [|x l IH]; cbn; [reflexivity|].
  rewrite insert_desc_perm. now rewrite IH.
Qed.

Lemma insert_desc_sorted x l :
  StronglySorted (newer_first key) l →
  StronglySorted (newer_first key) (insert_desc key x l).
Proof.
  induction 1 as [|y l Hl IH Hy]; cbn.
  - repeat constructor.
  - destruct (key x <? key y)%N eqn:E.
    + apply N.ltb_lt in E. constructor; [exact IH|].
      rewrite insert_desc_perm. constructor; [|exact Hy].
      unfold newer_first. lia.
    + apply N.ltb_ge in E. constructor; [constructor; assumption|].
      constructor; [exact E|].
      eapply Forall_impl; [exact Hy|].
      unfold newer_first. intros z Hz. lia.
Qed.

Lemma sort_desc_sorted l : StronglySorted (newer_first key) (sort_desc key l).
Proof.
  induction l as [|x l IH]; cbn; [constructor|].
  now apply insert_desc_sorted.
Qed.


End sort_facts.



Lemma slice_to_prefix {A} (l : list A) n : slice_to l n `prefix_of` l.
Proof. unfold slice_to. destruct (0 <=? n)%Z; apply prefix_take. Qed.

Lemma apply_limit_prefix {A} lim (l : list A) :
  ContextService.apply_limit lim l `prefix_of` l.
Proof.
  unfold ContextService.apply_limit. destruct lim as [n|]; [|reflexivity].
  destruct (negb (n =? 0)%Z && (n <? Z.of_nat (length l))%Z); [|reflexivity].
  apply slice_to_prefix.
Qed.

(** With a positive limit the list is cut to that length. *)
Lemma apply_limit_length {A} n (l : list A) :
  (0 < n)%Z → (Z.of_nat (length (ContextService.apply_limit (Some n) l)) ≤ n)%Z.
Proof.
  intros Hn. unfold ContextService.apply_limit.
  destruct (n =? 0)%Z eqn:E0; [apply Z.eqb_eq in E0; lia|]. cbn.
  destruct (n <? Z.of_nat (length l))%Z eqn:E.
  - unfold slice_to. destruct (0 <=? n)%Z eqn:E1; [|apply Z.leb_gt in E1; lia].
    rewrite length_take. lia.
  - apply Z.ltb_ge in E. exact E.
Qed.

Lemma apply_limit_kept {A} lim (l : list A) :
  length (ContextService.apply_limit lim l) = kept_by_limit lim (length l).
Proof.
  unfold ContextService.apply_limit, kept_by_limit. destruct lim as [n|]; [|reflexivity].
  destruct (n =? 0)%Z eqn:E0; [reflexivity|]. cbn [negb andb].
  apply Z.eqb_neq in E0.
  destruct (0 <? n)%Z eqn:Ep.
  - apply Z.ltb_lt in Ep.
    destruct (n <? Z.of_nat (length l))%Z eqn:E.
    + apply Z.ltb_lt in E. unfold slice_to.
      destruct (0 <=? n)%Z eqn:E1; [|apply Z.leb_gt in E1; lia].
      rewrite length_take. lia.
    + apply Z.ltb_ge in E. lia.
  - apply Z.ltb_ge in Ep.
    destruct (n <? Z.of_nat (length l))%Z eqn:E; [|apply Z.ltb_ge in E; lia].
    unfold slice_to. destruct (0 <=? n)%Z eqn:E1; [apply Z.leb_le in E1; lia|].
    rewrite length_take. lia.
Qed.

(** ** The aggregation engine *)

Import ContextService.

Lemma zoom_total env q d l w :
  ∃ items w', _get_zoom_context env q d l w = (Ok items, w').
Proof. apply try_except_total. Qed.

Lemma gmail_total env q d l w :
  ∃ items w', _get_gmail_context env q d l w = (Ok items, w').
Proof. apply try_except_total. Qed.

Lemma notion_total env q l w :
  ∃ items w', _get_notion_context env q l w = (Ok items, w').
Proof. apply try_except_total. Qed.

Lemma salesforce_total env q ef d l w :
  ∃ items w', _get_salesforce_context env q ef d l w = (Ok items, w').
Proof. apply try_except_total. Qed.


(** One source of the fan-out. *)
Lemma step_contribution (b : bool) (p : M (list ContextItem)) acc w :
  (∀ w0, ∃ a w', p w0 = (Ok a, w')) →
  ∃ items w',
    contribution b p w items w'
    ∧ (if b then (let* x := p in ret (acc ++ x)) else ret acc) w
      = (Ok (acc ++ items), w').
Proof.
  intros Hp. destruct b; cbn.
  - destruct (Hp w) as (a & w' & E). exists a, w'. split; [exact E|].
    now rewrite (bind_run _ _ _ _ _ E).
  - exists [], w. rewrite app_nil_r. auto.
Qed.

(** What [get_context] returns, in terms of what the four pipelines return:
    it never raises once [days_back] has been read. *)
Lemma get_context_run env r w d :
  days_back_of env r = Ok d →
  ∃ z g n f w1 w2 w3 w4,
    contribution (bool_decide ("zoom" ∈ enabled_sources r))
      (_get_zoom_context env (query r) d (limit r)) w z w1
    ∧ contribution (bool_decide ("gmail" ∈ enabled_sources r))
        (_get_gmail_context env (query r) d (limit r)) w1 g w2
    ∧ contribution (bool_decide ("notion" ∈ enabled_sources r))
        (_get_notion_context env (query r) (limit r)) w2 n w3
    ∧ contribution (bool_decide ("salesforce" ∈ enabled_sources r))
        (_get_salesforce_context env (query r) (focus_arg r) d (limit r)) w3 f w4
    ∧ get_context env r w
      = (Ok {| resp_source := "vibecoding-mcp";
               context_items :=
                 apply_limit (limit r) (sort_desc sort_key (z ++ g ++ n ++ f));
               resp_query := query r;
               resp_timestamp := clock env (now_calls w4) |},
         tick w4).
Proof.
  intros Hd.
  destruct (step_contribution (bool_decide ("zoom" ∈ enabled_sources r))
              (_get_zoom_context env (query r) d (limit r)) [] w
              (zoom_total _ _ _ _)) as (z & w1 & Cz & Ez).
  destruct (step_contribution (bool_decide ("gmail" ∈ enabled_sources r))
              (_get_gmail_context env (query r) d (limit r)) ([] ++ z) w1
              (gmail_total _ _ _ _)) as (g & w2 & Cg & Eg).
  destruct (step_contribution (bool_decide ("notion" ∈ enabled_sources r))
              (_get_notion_context env (query r) (limit r)) (([] ++ z) ++ g) w2
              (notion_total _ _ _)) as (n & w3 & Cn & En).
  destruct (step_contribution (bool_decide ("salesforce" ∈ enabled_sources r))
              (_get_salesforce_context env (query r) (focus_arg r) d (limit r))
              ((([] ++ z) ++ g) ++ n) w3
              (salesforce_total _ _ _ _ _)) as (f & w4 & Cf & Ef).
  exists z, g, n, f, w1, w2, w3, w4. repeat (split; [assumption|]).
  unfold get_context.
  rewrite (bind_run _ _ _ _ _ (eq_trans (lift_run _ _) (f_equal (λ o, (o, w)) Hd))).
  rewrite (bind_run _ _ _ _ _ Ez).
  rewrite (bind_run _ _ _ _ _ Eg).
  rewrite (bind_run _ _ _ _ _ En).
  fold (focus_arg r).
  rewrite (bind_run _ _ _ _ _ Ef).
  unfold bind, now, ret. cbn [app].
  now rewrite <- !app_assoc.
Qed.








(** [get_context] returns exactly when [days_back] can be read: whether it
    returns does not depend on any source. *)
Lemma get_context_returns_iff env r w :
  (∃ resp w', get_context env r w = (Ok resp, w')) ↔ (∃ d, days_back_of env r = Ok d).
Proof.
  split.
  - intros (resp & w' & H). destruct (days_back_of env r) as [d|e] eqn:Hd; [eauto|].
    unfold get_context in H.
    rewrite (bind_raised _ _ _ e w) in H; [discriminate|].
    rewrite lift_run, Hd. reflexivity.
  - intros (d & Hd).
    destruct (get_context_run env r w d Hd)
      as (z & g & n & f & w1 & w2 & w3 & w4 & _ & _ & _ & _ & E).
    eauto.
Qed.







(** ** Timestamps of the items *)

Ltac run_inv :=
  repeat match goal with
  | H : bind _ _ _ = (Ok _, _) |- _ =>
      let a := fresh "a" in let w := fresh "w" in let Hm := fresh "Hm" in
      apply bind_inv in H as (a & w & Hm & H)
  | H : ret _ _ = (Ok _, _) |- _ => unfold ret in H; inversion H; subst; clear H
  | H : raise _ _ = (Ok _, _) |- _ => discriminate H
  | H : try_except _ (λ _, ret _) _ = (Ok _, _) |- _ =>
      apply try_except_inv in H as [H | [-> _]]
  | H : (if ?c then _ else _) _ = (Ok _, _) |- _ => destruct c
  end.

Lemma ContextItem_init_timestamp env ty src c md extra w it w' :
  ContextItem_init env ty src c md None extra w = (Ok it, w') →
  timestamp it = Some (clock env (now_calls w)).
Proof.
  unfold ContextItem_init, timestamp_field. intros H.
  apply bind_inv in H as (ts & w1 & Hts & H).
  apply bind_inv in Hts as (t & w2 & Ht & Hts).
  unfold now in Ht. inversion Ht; subst. unfold ret in Hts. inversion Hts; subst.
  unfold lift, obind in H. repeat case_match; simplify_eq. reflexivity.
Qed.

Lemma init_stamped env ty src c md extra w it w' :
  ContextItem_init env ty src c md None extra w = (Ok it, w') → stamped it.
Proof.
  intros H. apply ContextItem_init_timestamp in H.
  eexists. split; [exact H|]. unfold sort_key. now rewrite H.
Qed.

Lemma snoc_stamped acc it : Forall stamped acc → stamped it → Forall stamped (acc ++ [it]).
Proof. intros. apply Forall_app. auto. Qed.

Lemma zoom_stamped env q d l w items w' :
  _get_zoom_context env q d l w = (Ok items, w') → Forall stamped items.
Proof.
  unfold _get_zoom_context. intros H.
  apply try_except_inv in H as [H | [-> _]]; [|constructor].
  apply bind_inv in H as (ts & w1 & _ & H).
  eapply (for_each_invariant (Forall stamped)); [|constructor|exact H].
  clear. intros x acc w acc' w' Hacc H. cbv beta in H. run_inv; try assumption;
    (apply snoc_stamped; [assumption|]; unfold MeetingContext in *;
     eauto using init_stamped).
Qed.

Lemma gmail_stamped env q d l w items w' :
  _get_gmail_context env q d l w = (Ok items, w') → Forall stamped items.
Proof.
  unfold _get_gmail_context. intros H.
  apply try_except_inv in H as [H | [-> _]]; [|constructor].
  apply bind_inv in H as (ts & w1 & _ & H).
  eapply (for_each_invariant (Forall stamped)); [|constructor|exact H].
  clear. intros x acc w acc' w' Hacc H. cbv beta in H. run_inv; try assumption;
    (apply snoc_stamped; [assumption|]; unfold EmailContext in *;
     eauto using init_stamped).
Qed.

Lemma notion_stamped env q l w items w' :
  _get_notion_context env q l w = (Ok items, w') → Forall stamped items.
Proof.
  unfold _get_notion_context. intros H.
  apply try_except_inv in H as [H | [-> _]]; [|constructor].
  apply bind_inv in H as (ts & w1 & _ & H).
  eapply (for_each_invariant (Forall stamped)); [|constructor|exact H].
  clear. intros x acc w acc' w' Hacc H. cbv beta in H. run_inv; try assumption;
    (apply snoc_stamped; [assumption|]; unfold DocumentContext in *;
     eauto using init_stamped).
Qed.

Lemma salesforce_stamped env q ef d l w items w' :
  _get_salesforce_context env q ef d l w = (Ok items, w') → Forall stamped items.
Proof.
  unfold _get_salesforce_context. intros H.
  apply try_except_inv in H as [H | [-> _]]; [|constructor].
  destruct (if dict_truthy ef then _ else _) as [account_id|].
  - apply bind_inv in H as (accounts & w1 & _ & H).
    apply bind_inv in H as (contacts & w2 & _ & H).
    apply bind_inv in H as (acc1 & w3 & Hacc & H).
    eapply (for_each_invariant (Forall stamped)); [| |exact H].
    + clear. intros x acc w acc' w' Hacc H. cbv beta in H. run_inv;
        (apply snoc_stamped; [assumption|]; unfold ContactContext in *;
         eauto using init_stamped).
    + eapply (for_each_invariant (Forall stamped)); [|constructor|exact Hacc].
      clear. intros x acc w acc' w' Hacc H. cbv beta in H. run_inv;
        (apply snoc_stamped; [assumption|]; unfold AccountContext in *;
         eauto using init_stamped).
  - apply bind_inv in H as (opps & w1 & _ & H).
    eapply (for_each_invariant (Forall stamped)); [|constructor|exact H].
    clear. intros x acc w acc' w' Hacc H. cbv beta in H. run_inv; try assumption;
      (apply snoc_stamped; [assumption|]; unfold OpportunityContext in *;
       eauto using init_stamped).
Qed.

Lemma contribution_stamped b p w items w' :
  (∀ w0 l w1, p w0 = (Ok l, w1) → Forall stamped l) →
  contribution b p w items w' → Forall stamped items.
Proof.
  intros Hp. destruct b; cbn.
  - apply Hp.
  - intros [-> _]. constructor.
Qed.

Lemma prefix_Forall {A} (P : A → Prop) (l1 l2 : list A) :
  l1 `prefix_of` l2 → Forall P l2 → Forall P l1.
Proof. intros [k ->] H. apply Forall_app in H. tauto. Qed.

(** C10.  An item built without a [timestamp] argument carries the reading
    of the clock made at its construction.  No call of the four pipelines
    passes one, so every item they return, and every item of a response of
    [get_context], has a timestamp, which is its sort key: the
    [datetime.min] branch of the key is not taken for them. *)
Theorem pipeline_items_are_timestamped env :
  (∀ ty src c md extra w it w',
     ContextItem_init env ty src c md None extra w = (Ok it, w') →
     timestamp it = Some (clock env (now_calls w)))
  ∧ (∀ q d l w items w',
       _get_zoom_context env q d l w = (Ok items, w') →
       Forall (λ it, ∃ t, timestamp it = Some t ∧ sort_key it = t) items)
  ∧ (∀ q d l w items w',
       _get_gmail_context env q d l w = (Ok items, w') →
       Forall (λ it, ∃ t, timestamp it = Some t ∧ sort_key it = t) items)
  ∧ (∀ q l w items w',
       _get_notion_context env q l w = (Ok items, w') →
       Forall (λ it, ∃ t, timestamp it = Some t ∧ sort_key it = t) items)
  ∧ (∀ q ef d l w items w',
       _get_salesforce_context env q ef d l w = (Ok items, w') →
       Forall (λ it, ∃ t, timestamp it = Some t ∧ sort_key it = t) items)
  ∧ (∀ r w resp w',
       get_context env r w = (Ok resp, w') →
       Forall (λ it, ∃ t, timestamp it = Some t ∧ sort_key it = t)
         (context_items resp)).
Proof.
  split; [apply ContextItem_init_timestamp|].
  split; [apply zoom_stamped|]. split; [apply gmail_stamped|].
  split; [apply notion_stamped|]. split; [apply salesforce_stamped|].
  intros r w resp w' H.
  destruct (days_back_of env r) as [d|e] eqn:Hd.
  - destruct (get_context_run env r w d Hd)
      as (z & g & n & f & w1 & w2 & w3 & w4 & Cz & Cg & Cn & Cf & E).
    rewrite E in H. inversion H; subst. cbn [context_items].
    eapply prefix_Forall; [apply apply_limit_prefix|].
    rewrite sort_desc_perm. repeat apply Forall_app_2.
    + eapply contribution_stamped; [|exact Cz]. apply zoom_stamped.
    + eapply contribution_stamped; [|exact Cg]. apply gmail_stamped.
    + eapply contribution_stamped; [|exact Cn]. apply notion_stamped.
    + eapply contribution_stamped; [|exact Cf]. apply salesforce_stamped.
  - unfold get_context in H.
    rewrite (bind_raised _ _ _ e w) in H; [discriminate|].
    rewrite lift_run, Hd. reflexivity.
Qed.

(** ** The vector index *)

Lemma item_dict_content it :
  dict_get_or (item_dict it) "content" (VStr "") = VStr (content it).
Proof.
  unfold dict_get_or, item_dict. cbn [app list_to_map foldr fst snd].
  rewrite !lookup_insert_ne by done. now rewrite lookup_insert_eq.
Qed.

(** Building the chunks of items in dictionary form never raises. *)
Lemma build_documents_total env items w :
  ∃ docs w', VectorStore.build_documents env (item_dict <$> items) w = (Ok docs, w').
Proof.
  unfold VectorStore.build_documents. generalize (@nil Document) as acc.
  revert w. induction items as [|it items IH]; intros w acc.
  - cbn. unfold ret. eauto.
  - cbn [fmap list_fmap for_each]. unfold VectorStore.item_documents at 1.
    rewrite item_dict_content.
    destruct (negb (truthy (VStr (content it)))).
    + erewrite bind_run by reflexivity. apply IH.
    + unfold bind at 1. unfold bind at 1. unfold now. cbn. apply IH.
Qed.

(** A search reads the index and never raises. *)
Lemma search_run env q fc k w :
  ∃ hits, VectorStore.search env q fc k w = (Ok hits, w).
Proof.
  unfold VectorStore.search, bind, get_store.
  destruct (vector_db (vector_store w)) as [db|]; [|unfold ret; eauto].
  destruct (documents (vector_store w)); [unfold ret; eauto|].
  unfold try_except, lift, ret.
  destruct (similarity_search env db q k _); eauto.
Qed.


(** ** The retrieval orchestrator *)


(** ** What touches the index *)

Lemma pi_ret {A} (a : A) : preserves_index (ret a).
Proof. intros w o w' E. unfold ret in E. now inversion E. Qed.

Lemma pi_raise {A} e : preserves_index (@raise A e).
Proof. intros w o w' E. unfold raise in E. now inversion E. Qed.

Lemma pi_lift {A} (x : outcome A) : preserves_index (lift x).
Proof. intros w o w' E. unfold lift in E. now inversion E. Qed.

Lemma pi_now env : preserves_index (now env).
Proof. intros w o w' E. unfold now in E. now inversion E. Qed.

Lemma pi_bind {A B} (m : M A) (k : A → M B) :
  preserves_index m → (∀ a, preserves_index (k a)) → preserves_index (bind m k).
Proof.
  intros Hm Hk w o w' E. unfold bind in E.
  destruct (m w) as [[a|e] w1] eqn:Em.
  - destruct (Hm _ _ _ Em) as [E1 E2]. destruct (Hk _ _ _ _ E) as [E3 E4].
    split; congruence.
  - inversion E; subst. eapply Hm, Em.
Qed.

Lemma pi_try {A} (m : M A) h :
  preserves_index m → (∀ e, preserves_index (h e)) → preserves_index (try_except m h).
Proof.
  intros Hm Hh w o w' E. unfold try_except in E.
  destruct (m w) as [[a|e] w1] eqn:Em.
  - inversion E; subst. eapply Hm, Em.
  - destruct (Hm _ _ _ Em) as [E1 E2]. destruct (Hh _ _ _ _ E) as [E3 E4].
    split; congruence.
Qed.

Lemma pi_for_each {A B} (body : A → list B → M (list B)) xs :
  (∀ x acc, preserves_index (body x acc)) →
  ∀ acc, preserves_index (for_each xs body acc).
Proof.
  intros Hb. induction xs as [|x xs IH]; intros acc; cbn.
  - apply pi_ret.
  - apply pi_bind; auto.
Qed.

Ltac pi_step :=
  first
    [ apply pi_ret | apply pi_raise | apply pi_lift | apply pi_now
    | apply pi_bind; [|intros ?]
    | apply pi_try; [|intros ?]
    | apply pi_for_each; intros ? ?
    | progress cbv beta zeta
    | match goal with
      | |- preserves_index (if ?c then _ else _) => destruct c
      | |- preserves_index (match ?x with _ => _ end) => destruct x
      end ].

Lemma pi_init env ty src c md given extra :
  preserves_index (ContextItem_init env ty src c md given extra).
Proof. unfold ContextItem_init, timestamp_field. repeat pi_step. Qed.

Lemma zoom_preserves env q d l : preserves_index (_get_zoom_context env q d l).
Proof.
  unfold _get_zoom_context, MeetingContext.
  repeat first [apply pi_init | pi_step].
Qed.

Lemma gmail_preserves env q d l : preserves_index (_get_gmail_context env q d l).
Proof.
  unfold _get_gmail_context, EmailContext.
  repeat first [apply pi_init | pi_step].
Qed.

Lemma notion_preserves env q l : preserves_index (_get_notion_context env q l).
Proof.
  unfold _get_notion_context, DocumentContext.
  repeat first [apply pi_init | pi_step].
Qed.

Lemma salesforce_preserves env q ef d l :
  preserves_index (_get_salesforce_context env q ef d l).
Proof.
  unfold _get_salesforce_context, AccountContext, ContactContext, OpportunityContext.
  repeat first [apply pi_init | pi_step].
Qed.

(** The aggregation engine never touches the index. *)
Lemma get_context_preserves env r : preserves_index (get_context env r).
Proof.
  unfold get_context.
  repeat first [apply zoom_preserves | apply gmail_preserves
               | apply notion_preserves | apply salesforce_preserves | pi_step].
Qed.

Lemma build_documents_preserves env items :
  preserves_index (VectorStore.build_documents env items).
Proof.
  unfold VectorStore.build_documents. apply pi_for_each. intros item acc.
  unfold VectorStore.item_documents. repeat pi_step.
Qed.

(** ** What [add_items] stores *)

Lemma imap_texts (g : nat → string → gmap string pyval) texts :
  page_content <$> imap (λ i text, {| page_content := text; doc_metadata := g i text |}) texts
  = texts.
Proof.
  revert g. induction texts as [|x texts IH]; intros g; cbn; [reflexivity|].
  f_equal. apply (IH (λ i, g (S i))).
Qed.

Lemma chunk_documents_texts md texts :
  page_content <$> VectorStore.chunk_documents md texts = texts.
Proof. unfold VectorStore.chunk_documents. apply imap_texts. Qed.

Lemma imap_untimed (f g : nat → string → Document) texts :
  (∀ i x, untimed (f i x) = untimed (g i x)) →
  untimed <$> imap f texts = untimed <$> imap g texts.
Proof.
  revert f g. induction texts as [|x texts IH]; intros f g H; cbn; [reflexivity|].
  rewrite H. f_equal. apply IH. intros i y. apply H.
Qed.

Lemma assign_all_agree es (m1 m2 : gmap string pyval) :
  (∀ k, k ≠ "timestamp" → m1 !! k = m2 !! k) →
  ∀ k, k ≠ "timestamp" →
       VectorStore.assign_all es m1 !! k = VectorStore.assign_all es m2 !! k.
Proof.
  unfold VectorStore.assign_all. revert m1 m2.
  induction es as [|[key v] es IH]; intros m1 m2 H; cbn; [exact H|].
  apply IH. intros k Hk. rewrite !lookup_insert. case_decide; auto.
Qed.

Lemma chunk_documents_untimed (m1 m2 : gmap string pyval) texts :
  (∀ k, k ≠ "timestamp" → m1 !! k = m2 !! k) →
  untimed <$> VectorStore.chunk_documents m1 texts
  = untimed <$> VectorStore.chunk_documents m2 texts.
Proof.
  intros H. unfold VectorStore.chunk_documents. apply imap_untimed.
  intros i x. unfold untimed. cbn. f_equal. apply map_eq. intros k.
  destruct (decide (k = "timestamp")) as [->|Hk].
  - now rewrite !lookup_delete_eq.
  - rewrite !lookup_delete_ne by congruence.
    rewrite !lookup_insert. repeat case_decide; auto.
Qed.

Lemma item_documents_inv env item acc w res w' :
  VectorStore.item_documents env item acc w = (Ok res, w') →
  (res = acc ∧ chunk_texts env [item] = [])
  ∨ ∃ s, dict_get_or item "content" (VStr "") = VStr s
         ∧ chunk_texts env [item] = split_text env s
         ∧ res = acc ++ VectorStore.chunk_documents
                          (VectorStore.assign_all (VectorStore.type_fields item)
                             {[ "source" := dict_get_or item "source" (VStr "unknown");
                                "type" := dict_get_or item "type" (VStr "unknown");
                                "id" := dict_get_or item "id" (VStr "");
                                "timestamp" := VStr (isoformat env (clock env (now_calls w))) ]})
                          (split_text env s).
Proof.
  unfold VectorStore.item_documents. cbn [chunk_texts].
  destruct (dict_get_or item "content" (VStr "")) as [| | | |s| | |] eqn:Ec;
    cbn [truthy]; intros H.
  5: { destruct (String.eqb s "") eqn:Es; cbn [negb] in H; run_inv.
       - left. auto.
       - right. exists s. rewrite app_nil_r. repeat split.
         unfold now in Hm. inversion Hm; subst.
         unfold lift, str_argument in Hm0. inversion Hm0; subst. reflexivity. }
  all: run_inv; auto; unfold lift, str_argument in *; discriminate.
Qed.

Lemma chunk_texts_cons env item items :
  chunk_texts env (item :: items) = chunk_texts env [item] ++ chunk_texts env items.
Proof.
  cbn. destruct (dict_get_or item "content" (VStr "")); try reflexivity.
  destruct (String.eqb s ""); [reflexivity|]. now rewrite app_nil_r.
Qed.

Lemma for_each_documents_texts env items :
  ∀ acc w res w',
    for_each items (VectorStore.item_documents env) acc w = (Ok res, w') →
    page_content <$> res = (page_content <$> acc) ++ chunk_texts env items.
Proof.
  induction items as [|item items IH]; intros acc w res w' H.
  - cbn in H. run_inv. cbn. now rewrite app_nil_r.
  - cbn [for_each] in H. apply bind_inv in H as (acc1 & w1 & Hi & H).
    rewrite (IH _ _ _ _ H), chunk_texts_cons, app_assoc. f_equal.
    apply item_documents_inv in Hi as [[-> ->]|(s & _ & -> & ->)].
    + now rewrite app_nil_r.
    + now rewrite fmap_app, chunk_documents_texts.
Qed.

(** The stored texts are the chunks of the non-empty contents, in order. *)
Lemma build_documents_texts env items w docs w' :
  VectorStore.build_documents env items w = (Ok docs, w') →
  page_content <$> docs = chunk_texts env items.
Proof. intros H. now apply for_each_documents_texts in H. Qed.

Lemma for_each_documents_untimed env items :
  ∀ acc1 acc2 w1 w2 r1 r2 w1' w2',
    untimed <$> acc1 = untimed <$> acc2 →
    for_each items (VectorStore.item_documents env) acc1 w1 = (Ok r1, w1') →
    for_each items (VectorStore.item_documents env) acc2 w2 = (Ok r2, w2') →
    untimed <$> r1 = untimed <$> r2.
Proof.
  induction items as [|item items IH]; intros acc1 acc2 w1 w2 r1 r2 w1' w2' Hacc H1 H2.
  - cbn in H1, H2. run_inv. exact Hacc.
  - cbn [for_each] in H1, H2.
    apply bind_inv in H1 as (a1 & v1 & Hi1 & H1).
    apply bind_inv in H2 as (a2 & v2 & Hi2 & H2).
    eapply IH; [|exact H1|exact H2].
    apply item_documents_inv in Hi1 as [[-> E1]|(s1 & Ec1 & E1 & ->)];
      apply item_documents_inv in Hi2 as [[-> E2]|(s2 & Ec2 & E2 & ->)].
    + exact Hacc.
    + rewrite fmap_app, Hacc. rewrite E1 in E2. rewrite <- E2.
      unfold VectorStore.chunk_documents. cbn. now rewrite app_nil_r.
    + rewrite fmap_app, <- Hacc. rewrite E2 in E1. rewrite <- E1.
      unfold VectorStore.chunk_documents. cbn. now rewrite app_nil_r.
    + rewrite !fmap_app, Hacc. f_equal.
      assert (s1 = s2) as -> by congruence.
      apply chunk_documents_untimed, assign_all_agree.
      intros k Hk. rewrite !lookup_insert. repeat case_decide; auto.
      rewrite !lookup_singleton_ne by congruence. reflexivity.
Qed.

(** Two runs over the same items build the same chunks, up to the time
    recorded in them. *)
Lemma build_documents_untimed env items w1 w2 d1 d2 w1' w2' :
  VectorStore.build_documents env items w1 = (Ok d1, w1') →
  VectorStore.build_documents env items w2 = (Ok d2, w2') →
  untimed <$> d1 = untimed <$> d2.
Proof. intros H1 H2. eapply for_each_documents_untimed; eauto. Qed.

(** What a call of [add_items] does.  When the chunks cannot be built,
    nothing changes.  Otherwise the tracking list gets the chunks; then
    either the backend takes them, and the collection holds them after what
    it held, or the backend raises, and the collection is as it was. *)
Lemma add_items_cases env items w o w' :
  VectorStore.add_items env items w = (o, w') →
  initialized w' = initialized w
  ∧ ((∃ e, o = Raised e ∧ vector_store w' = vector_store w
            ∧ VectorStore.build_documents env items w = (Raised e, w'))
     ∨ ∃ docs wb,
         VectorStore.build_documents env items w = (Ok docs, wb)
         ∧ documents (vector_store w') = documents (vector_store w) ++ docs
         ∧ ((o = Ok tt
             ∧ vector_db (vector_store w')
               = Some (collection_of env (vector_store w) ++ docs))
            ∨ ((∃ e, o = Raised e)
               ∧ vector_db (vector_store w') = vector_db (vector_store w)))).
Proof.
  unfold VectorStore.add_items, bind at 1. intros H.
  destruct (VectorStore.build_documents env items w) as [[docs|e] wb] eqn:Hb.
  2:{ injection H as <- <-.
      destruct (build_documents_preserves env items _ _ _ Hb) as [Es Ei].
      split; [exact Ei|]. left. eauto. }
  destruct (build_documents_preserves env items _ _ _ Hb) as [Es Ei].
  unfold bind, get_store, put_store, lift in H. cbn in H. rewrite Es in H.
  unfold collection_of, VectorStore.from_documents, VectorStore.add_documents in *.
  destruct (vector_db (vector_store w)) as [db|] eqn:Edb.
  - destruct (add_documents_error env db docs); injection H as <- <-; cbn;
      (split; [exact Ei|]); right; exists docs, wb;
      (split; [reflexivity|]); (split; [reflexivity|]); eauto.
  - destruct (from_documents_error env docs); injection H as <- <-; cbn;
      (split; [exact Ei|]); right; exists docs, wb;
      (split; [reflexivity|]); (split; [reflexivity|]); eauto.
Qed.

Lemma add_items_inv env items w w' :
  VectorStore.add_items env items w = (Ok tt, w') →
  ∃ docs wb,
    VectorStore.build_documents env items w = (Ok docs, wb)
    ∧ documents (vector_store w') = documents (vector_store w) ++ docs
    ∧ vector_db (vector_store w')
      = Some (collection_of env (vector_store w) ++ docs).
Proof.
  intros H. apply add_items_cases in H as (_ & [(e & [=] & _)|H]).
  destruct H as (docs & wb & Hb & Hd & [[_ Hv]|[(e & [=]) _]]). eauto.
Qed.

(** When [add_items] raises, the collection is as it was. *)
Lemma add_items_raised env items w e w' :
  VectorStore.add_items env items w = (Raised e, w') →
  vector_db (vector_store w') = vector_db (vector_store w)
  ∧ initialized w' = initialized w.
Proof.
  intros H. apply add_items_cases in H as (Ei & [(e' & _ & -> & _)|H]); [auto|].
  destruct H as (docs & wb & _ & _ & [[[=] _]|[_ Hv]]). auto.
Qed.

(** *** The identifier of a stored chunk *)

Lemma item_dict_no_id it : item_dict it !! "id" = None.
Proof.
  unfold item_dict.
  destruct (detail it); cbn [payload_fields app list_to_map foldr fst snd];
    rewrite !lookup_insert_ne by done; apply lookup_empty.
Qed.

Lemma assign_all_other es (m : gmap string pyval) k :
  Forall (λ kv, kv.1 ≠ k) es → VectorStore.assign_all es m !! k = m !! k.
Proof.
  unfold VectorStore.assign_all. revert m.
  induction es as [|[key v] es IH]; intros m H; cbn; [reflexivity|].
  inversion H; subst. rewrite IH by assumption. now apply lookup_insert_ne.
Qed.

Lemma type_fields_not_id item :
  Forall (λ kv, kv.1 ≠ "id") (VectorStore.type_fields item).
Proof.
  unfold VectorStore.type_fields.
  repeat case_match; repeat constructor; discriminate.
Qed.

(** No item in dictionary form has a key ["id"], so every chunk the index
    holds for an item carries the default identifier, the empty text: the
    items rebuilt from search hits bring no identifier to the merge. *)
Lemma indexed_chunks_carry_no_id env items :
  ∀ acc w docs w',
    Forall (λ d, doc_metadata d !! "id" = Some (VStr "")) acc →
    for_each (item_dict <$> items) (VectorStore.item_documents env) acc w
      = (Ok docs, w') →
    Forall (λ d, doc_metadata d !! "id" = Some (VStr "")) docs.
Proof.
  induction items as [|it items IH]; intros acc w docs w' Hacc H.
  - cbn in H. run_inv. exact Hacc.
  - cbn [fmap list_fmap for_each] in H.
    apply bind_inv in H as (acc1 & w1 & Hi & H).
    eapply IH; [|exact H].
    apply item_documents_inv in Hi as [[-> _]|(s & _ & _ & ->)]; [exact Hacc|].
    apply Forall_app. split; [exact Hacc|].
    apply Forall_forall. intros d Hd.
    unfold VectorStore.chunk_documents in Hd.
    apply elem_of_lookup_imap in Hd as (i & text & -> & _). cbn [doc_metadata].
    rewrite !lookup_insert_ne by done.
    rewrite assign_all_other by apply type_fields_not_id.
    rewrite lookup_insert_ne by done. rewrite lookup_insert_ne by done.
    rewrite lookup_insert_eq. unfold dict_get_or.
    now rewrite item_dict_no_id.
Qed.

(** C9, as the code has it.  [add_items] appends: when two calls with the
    same list both return, the tracking list and the collection hold what
    they held before, then the chunks of the list, then the same chunks once
    more, the second copy differing from the first at most in the recorded
    time. *)
Theorem add_items_twice_stores_every_chunk_twice env items w w1 w2 :
  VectorStore.add_items env items w = (Ok tt, w1) →
  VectorStore.add_items env items w1 = (Ok tt, w2) →
  ∃ docs1 docs2,
    documents (vector_store w1) = documents (vector_store w) ++ docs1
    ∧ documents (vector_store w2) = documents (vector_store w) ++ docs1 ++ docs2
    ∧ vector_db (vector_store w2)
      = Some (collection_of env (vector_store w) ++ docs1 ++ docs2)
    ∧ page_content <$> docs1 = chunk_texts env items
    ∧ untimed <$> docs2 = untimed <$> docs1.
Proof.
  intros H1 H2.
  apply add_items_inv in H1 as (docs1 & wb1 & Hb1 & Hd1 & Hv1).
  apply add_items_inv in H2 as (docs2 & wb2 & Hb2 & Hd2 & Hv2).
  exists docs1, docs2. split; [exact Hd1|].
  split; [now rewrite Hd2, Hd1, app_assoc|].
  split; [rewrite Hv2; unfold collection_of at 1; rewrite Hv1; now rewrite app_assoc|].
  split; [eapply build_documents_texts, Hb1|].
  eapply build_documents_untimed; eauto.
Qed.

(** C9, as stated, fails: one opportunity added twice is found twice, where
    a single call yields it once. *)
Lemma add_items_twice_duplicates_search_results :
  let w1 := final (VectorStore.add_items env_crm [item_dict opportunity_item] fresh_world) in
  let w2 := final (VectorStore.add_items env_crm [item_dict opportunity_item] w1) in
  returned (VectorStore.add_items env_crm [item_dict opportunity_item] fresh_world)
  = Some tt
  ∧ returned (VectorStore.add_items env_crm [item_dict opportunity_item] w1) = Some tt
  ∧ (λ hits : list SearchHit, hit_content <$> hits)
      <$> returned (VectorStore.search env_crm "alpha" None 5 w1)
    = Some ["Opportunity: Alpha renewal, Stage: Won, Amount: None"]
  ∧ (λ hits : list SearchHit, hit_content <$> hits)
      <$> returned (VectorStore.search env_crm "alpha" None 5 w2)
    = Some ["Opportunity: Alpha renewal, Stage: Won, Amount: None";
            "Opportunity: Alpha renewal, Stage: Won, Amount: None"].
Proof. vm_compute. repeat split. Qed.
(** ** The handler of the endpoint *)




(** The second case of C5 at a sample: the response holds an e-mail, whose
    chunk carries a date; the backend refuses it and the request is answered
    500, with the chunk in the tracking list and no collection. *)
Lemma mail_response_is_answered_500 :
  let run := Main.get_context env_indexed "user" request_plain fresh_world in
  run.1 = Raised (HTTPException 500)
  ∧ page_content <$> documents (vector_store (final run)) = ["alpha beta"]
  ∧ vector_db (vector_store (final run)) = None.
Proof. vm_compute. repeat split. Qed.
(** ** Merging the fresh items *)

Import VectorContextService.

Lemma accepted_iff item (ids : gset string) :
  str_truthy (item_id item) && negb (bool_decide (default "" (item_id item) ∈ ids)) = true
  ↔ ∃ i, item_id item = Some i ∧ i ≠ "" ∧ i ∉ ids.
Proof.
  destruct (item_id item) as [i|]; cbn.
  - rewrite andb_true_iff, !negb_true_iff, bool_decide_eq_false.
    rewrite String.eqb_neq. split.
    + intros [? ?]. eauto.
    + intros (j & [= <-] & ? & ?). auto.
  - split; [discriminate|]. intros (j & [=] & _).
Qed.

(** What the loop over the fresh items adds, for any list built so far and
    any set of identifiers seen so far. *)
Lemma merge_fresh_spec fresh :
  ∀ ctx (ids : gset string), ∃ added,
    merge_fresh fresh ctx ids = ctx ++ added
    ∧ added `sublist_of` fresh
    ∧ NoDup (item_id <$> added)
    ∧ (∀ y, y ∈ added → ∃ i, item_id y = Some i ∧ i ≠ "" ∧ i ∉ ids)
    ∧ (∀ x i, x ∈ fresh → item_id x = Some i → i ≠ "" → i ∉ ids →
         ∃ j y, list_find (λ z, item_id z = Some i) fresh = Some (j, y)
                ∧ y ∈ added).
Proof.
  induction fresh as [|item rest IH]; intros ctx ids.
  - exists []. cbn. rewrite app_nil_r.
    repeat split; try constructor; intros; exfalso; eapply not_elem_of_nil; eauto.
  - cbn [merge_fresh].
    destruct (str_truthy (item_id item)
              && negb (bool_decide (default "" (item_id item) ∈ ids))) eqn:Acc.
    + apply accepted_iff in Acc as (i & Hid & Hne & Hnew).
      rewrite Hid. cbn [default id].
      destruct (IH (ctx ++ [item]) ({[ i ]} ∪ ids))
        as (added & Hm & Hsub & Hnd & Hin & Hall).
      exists (item :: added). rewrite Hm, <- app_assoc.
      split; [reflexivity|]. split; [now constructor|]. split; [|split].
      * cbn. constructor; [|exact Hnd]. rewrite Hid.
        intros Hmem. apply list_elem_of_fmap in Hmem as (y & Hy & Hyin).
        destruct (Hin y Hyin) as (k & Hk & _ & Hfresh).
        rewrite Hk in Hy. inversion Hy; subst. set_solver.
      * intros y Hy. apply elem_of_cons in Hy as [->|Hy]; [eauto|].
        destruct (Hin y Hy) as (k & Hk & Hkne & Hknew).
        exists k. repeat split; auto. set_solver.
      * intros x k Hx Hk Hkne Hknew. cbn [list_find].
        destruct (decide (item_id item = Some k)) as [Heq|Hneq].
        -- exists 0, item. split; [reflexivity|]. apply elem_of_cons. auto.
        -- apply elem_of_cons in Hx as [->|Hx]; [contradiction|].
           assert (k ∉ ({[ i ]} ∪ ids : gset string)) as Hk'.
           { rewrite Hid in Hneq. apply not_elem_of_union. split; [|exact Hknew].
             rewrite elem_of_singleton. congruence. }
           destruct (Hall x k Hx Hk Hkne Hk') as (j & y & Hf & Hy).
           exists (S j), y. rewrite Hf. cbn. split; [reflexivity|].
           apply elem_of_cons. auto.
    + destruct (IH ctx ids) as (added & Hm & Hsub & Hnd & Hin & Hall).
      exists added. split; [exact Hm|]. split; [now constructor|].
      split; [exact Hnd|]. split; [exact Hin|].
      intros x k Hx Hk Hkne Hknew. cbn [list_find].
      assert (item_id item ≠ Some k) as Hneq.
      { intros Heq. assert (∃ i, item_id item = Some i ∧ i ≠ "" ∧ i ∉ ids) as Ha by eauto.
        apply accepted_iff in Ha. congruence. }
      destruct (decide (item_id item = Some k)) as [?|_]; [contradiction|].
      apply elem_of_cons in Hx as [->|Hx]; [congruence|].
      destruct (Hall x k Hx Hk Hkne Hknew) as (j & y & Hf & Hy).
      exists (S j), y. rewrite Hf. cbn. auto.
Qed.

(** The merge, for the identifiers read from the hits: with a query,
    [include_fresh] set and a search that found something, the response
    lists the items rebuilt from the search hits first, then fresh items of
    the aggregation engine in their order: an item is added when its
    identifier ([thread_id], [meeting_id] or [page_id]) is a non-empty text
    that is neither among the identifiers read from the hits nor the
    identifier of a fresh item added before it. *)
Lemma include_fresh_merge env r q w w1 hits vec w2 fresh w3 ids :
  query r = Some q → q ≠ "" → include_fresh r = true →
  ensure_initialized env w = (Ok tt, w1) →
  VectorStore.search env q (Some (filter_criteria_of r)) (int_or (limit r) 10) w1
    = (Ok hits, w1) →
  hits ≠ [] →
  items_of_hits env hits w1 = (Ok vec, w2) →
  ContextService.get_context env r w2 = (Ok fresh, w3) →
  existing_ids_of vec = Ok ids →
  ∃ added,
    VectorContextService.get_context env r w
      = (Ok {| resp_source := "vibecoding-mcp-vector";
               context_items := vec ++ added;
               resp_query := Some q;
               resp_timestamp := clock env (now_calls w3) |}, tick w3)
    ∧ added `sublist_of` context_items fresh
    ∧ NoDup (item_id <$> added)
    ∧ (∀ y, y ∈ added → ∃ i, item_id y = Some i ∧ i ≠ "" ∧ i ∉ ids)
    ∧ (∀ x i, x ∈ context_items fresh → item_id x = Some i → i ≠ "" → i ∉ ids →
         ∃ j y, list_find (λ z, item_id z = Some i) (context_items fresh) = Some (j, y)
                ∧ y ∈ added).
Proof.
  intros Hq Hne Hfresh Hi Hs Hhits Hvec Hctx Hids.
  destruct (merge_fresh_spec (context_items fresh) vec ids) as (added & Hm & Hrest).
  exists added. split; [|exact Hrest].
  unfold VectorContextService.get_context.
  rewrite (bind_run _ _ _ _ _ Hi). rewrite Hq. cbn [str_truthy default id].
  apply String.eqb_neq in Hne. rewrite Hne. cbn [negb].
  rewrite (bind_run _ _ _ _ _ Hs).
  destruct hits as [|h hits]; [contradiction|].
  rewrite (bind_run _ _ _ _ _ Hvec). rewrite Hfresh.
  erewrite bind_run;
    [|erewrite bind_run by exact Hctx; erewrite bind_run by (rewrite lift_run, Hids; reflexivity);
      reflexivity].
  rewrite Hm. reflexivity.
Qed.

(** The identifiers are read from the ["id"] of the metadata of the hits;
    when that is the empty text, nothing is read. *)
Lemma existing_ids_of_unidentified vec :
  Forall (λ it, dict_get (metadata it) "id" = VStr "") vec →
  existing_ids_of vec = Ok ∅.
Proof.
  induction 1 as [|it vec Hit _ IH]; [reflexivity|].
  cbn [existing_ids_of]. rewrite Hit. cbn. exact IH.
Qed.

(** ** The limit on the two retrieval paths *)

(** The aggregation engine cuts its list to a positive limit. *)
Lemma get_context_respects_limit env r w n resp w' :
  limit r = Some n → (0 < n)%Z →
  ContextService.get_context env r w = (Ok resp, w') →
  (Z.of_nat (length (context_items resp)) ≤ n)%Z.
Proof.
  intros Hl Hn H. destruct (ContextService.days_back_of env r) as [d|e] eqn:Hd.
  - destruct (get_context_run env r w d Hd)
      as (z & g & k & f & w1 & w2 & w3 & w4 & _ & _ & _ & _ & E).
    rewrite E in H. inversion H; subst. cbn [context_items].
    rewrite Hl. now apply apply_limit_length.
  - unfold ContextService.get_context in H.
    rewrite (bind_raised _ _ _ e w) in H; [discriminate|].
    rewrite lift_run, Hd. reflexivity.
Qed.

(** C2 on the vector-ranked path.  The bootstrap indexes the opportunity
    of the CRM.  With [limit] 1 and [include_fresh], the search returns one
    hit, the chunk of the opportunity, and the aggregation engine returns
    one item, the e-mail that the search of Gmail finds (the name of the
    opportunity does not contain the query); the e-mail is appended, and the
    response has two items. *)
Theorem include_fresh_exceeds_limit :
  let run := VectorContextService.get_context env_crm request_fresh fresh_world in
  limit request_fresh = Some 1%Z
  ∧ resp_source <$> returned run = Some "vibecoding-mcp-vector"
  ∧ (λ resp : ContextResponse, length (context_items resp)) <$> returned run = Some 2
  ∧ (λ resp : ContextResponse, content <$> context_items resp) <$> returned run
    = Some ["Opportunity: Beta pilot, Stage: Open, Amount: None"; "alpha beta"].
Proof. vm_compute. repeat split. Qed.
(** ** The filter of the vector search *)

Lemma singleton_truthy (k : string) (v : pyval) : truthy (VDict {[ k := v ]}) = true.
Proof.
  cbn. rewrite dom_singleton_L. apply negb_true_iff, bool_decide_eq_false.
  apply non_empty_singleton_L.
Qed.

Lemma search_filter_source (v : pyval) :
  VectorStore.search_filter (Some {[ "source" := v ]}) = Some {[ "source" := v ]}.
Proof.
  unfold VectorStore.search_filter, dict_truthy.
  rewrite singleton_truthy. cbn [default from_option id].
  rewrite map_filter_singleton_True by (cbn; auto).
  now rewrite singleton_truthy.
Qed.

(** One source listed: the search is filtered on that source. *)
Lemma single_source_filter r s :
  sources r = Some [s] →
  VectorStore.search_filter (Some (filter_criteria_of r))
  = Some {[ "source" := VStr s ]}.
Proof. intros H. unfold filter_criteria_of. rewrite H. apply search_filter_source. Qed.

(** No source listed: the search is not filtered. *)
Lemma no_source_filter r :
  sources r = None ∨ sources r = Some [] →
  VectorStore.search_filter (Some (filter_criteria_of r)) = None.
Proof. intros [H|H]; unfold filter_criteria_of; rewrite H; reflexivity. Qed.

(** Several sources listed: the search is filtered on a source equal to
    Python's [None]. *)
Lemma several_sources_filter r s1 s2 l :
  sources r = Some (s1 :: s2 :: l) →
  VectorStore.search_filter (Some (filter_criteria_of r))
  = Some {[ "source" := VNone ]}.
Proof. intros H. unfold filter_criteria_of. rewrite H. apply search_filter_source. Qed.

(** C6 with two sources.  For [sources = ["zoom", "gmail"]] the criteria are
    [{"source": None}], a non-empty dictionary, and the [filter] argument of
    the similarity search is that dictionary, not [None]. *)
Theorem two_sources_search_with_null_filter :
  filter_criteria_of request_two_sources = {[ "source" := VNone ]}
  ∧ VectorStore.search_filter (Some (filter_criteria_of request_two_sources))
    = Some {[ "source" := VNone ]}
  ∧ VectorStore.search_filter (Some (filter_criteria_of request_two_sources)) ≠ None.
Proof.
  split; [reflexivity|].
  rewrite (several_sources_filter request_two_sources "zoom" "gmail" []) by reflexivity.
  split; [reflexivity|discriminate].
Qed.

(** ** The account focus of the CRM pipeline *)

(** The account is fetched without the identifier of the focus: two focuses
    whose contacts are the same give the same items. *)
Lemma salesforce_account_ignores_focus env q a1 a2 d l w :
  sf_get_contacts env a1 (int_or l 5) = sf_get_contacts env a2 (int_or l 5) →
  ContextService._get_salesforce_context env q (Some {[ "account_id" := a1 ]}) d l w
  = ContextService._get_salesforce_context env q (Some {[ "account_id" := a2 ]}) d l w.
Proof.
  intros H. unfold ContextService._get_salesforce_context, dict_truthy.
  rewrite !singleton_truthy. cbn [default from_option id].
  rewrite !lookup_singleton_eq. now rewrite H.
Qed.

Lemma init_detail env ty src c md extra w it w' :
  ContextItem_init env ty src c md None extra w = (Ok it, w') →
  extra = Ok (detail it).
Proof.
  unfold ContextItem_init. intros H.
  apply bind_inv in H as (ts & w1 & _ & H).
  unfold lift, obind in H. repeat case_match; simplify_eq. reflexivity.
Qed.

Lemma account_not_opportunity env c n i ws a md w it w' :
  AccountContext env c n i ws a md w = (Ok it, w') → is_opportunity it = false.
Proof.
  unfold AccountContext. intros H. apply init_detail in H.
  unfold obind in H. repeat case_match; simplify_eq.
  unfold is_opportunity. now rewrite <- H.
Qed.

Lemma contact_not_opportunity env c n e p t a i md w it w' :
  ContactContext env c n e p t a i md w = (Ok it, w') → is_opportunity it = false.
Proof.
  unfold ContactContext. intros H. apply init_detail in H.
  unfold obind in H. repeat case_match; simplify_eq.
  unfold is_opportunity. now rewrite <- H.
Qed.

(** With a focus no opportunity is returned. *)
Lemma salesforce_focus_no_opportunity env q ef a d l w items w' :
  dict_truthy ef = true → default ∅ ef !! "account_id" = Some a →
  ContextService._get_salesforce_context env q ef d l w = (Ok items, w') →
  Forall (λ it, is_opportunity it = false) items.
Proof.
  intros Ht Ha. unfold ContextService._get_salesforce_context. rewrite Ht, Ha.
  intros H. apply try_except_inv in H as [H | [-> _]]; [|constructor].
  apply bind_inv in H as (accounts & w1 & _ & H).
  apply bind_inv in H as (contacts & w2 & _ & H).
  apply bind_inv in H as (acc1 & w3 & Hacc & H).
  eapply (for_each_invariant (Forall (λ it, is_opportunity it = false)));
    [| |exact H].
  - clear. intros x acc w acc' w' Hacc H. cbv beta in H. run_inv.
    apply Forall_app. split; [assumption|]. constructor; [|constructor].
    eauto using contact_not_opportunity.
  - eapply (for_each_invariant (Forall (λ it, is_opportunity it = false)));
      [|constructor|exact Hacc].
    clear. intros x acc w acc' w' Hacc H. cbv beta in H. run_inv.
    apply Forall_app. split; [assumption|]. constructor; [|constructor].
    eauto using account_not_opportunity.
Qed.

(** C8 on a CRM whose most recently modified account is not the focused one.
    The focus names account 001XX; [get_accounts(limit=1)] answers with
    account 001YY; the pipeline returns an [AccountContext] for 001YY, the
    contact of 001XX and no opportunity, and so does [get_context]. *)
Theorem account_focus_returns_another_account :
  let run :=
    ContextService._get_salesforce_context env_indexed None
      (Some {[ "account_id" := VStr "001XX" ]}) 7 (Some 10%Z) fresh_world in
  let resp := ContextService.get_context env_indexed request_account fresh_world in
  account_ids <$> returned run = Some ["001YY"]
  ∧ (λ items : list ContextItem, type <$> items) <$> returned run
    = Some ["account"; "contact"]
  ∧ (λ r : ContextResponse, account_ids (context_items r)) <$> returned resp
    = Some ["001YY"].
Proof. vm_compute. repeat split. Qed.

(** ** The theorems at sample inputs *)





Lemma add_items_twice_stores_every_chunk_twice_witness :
  let w1 := final (VectorStore.add_items env_crm [item_dict opportunity_item] fresh_world) in
  let w2 := final (VectorStore.add_items env_crm [item_dict opportunity_item] w1) in
  VectorStore.add_items env_crm [item_dict opportunity_item] fresh_world = (Ok tt, w1)
  ∧ VectorStore.add_items env_crm [item_dict opportunity_item] w1 = (Ok tt, w2)
  ∧ ∃ docs1 docs2,
      documents (vector_store w2) = documents (vector_store fresh_world) ++ docs1 ++ docs2
      ∧ page_content <$> docs1 = ["Opportunity: Alpha renewal, Stage: Won, Amount: None"]
      ∧ untimed <$> docs2 = untimed <$> docs1.
Proof.
  intros w1 w2.
  assert (VectorStore.add_items env_crm [item_dict opportunity_item] fresh_world
          = (Ok tt, w1)) as H1 by (vm_compute; reflexivity).
  assert (VectorStore.add_items env_crm [item_dict opportunity_item] w1
          = (Ok tt, w2)) as H2 by (vm_compute; reflexivity).
  split; [exact H1|]. split; [exact H2|].
  destruct (add_items_twice_stores_every_chunk_twice env_crm _ _ _ _ H1 H2)
    as (docs1 & docs2 & _ & Hd & _ & Ht & Hu).
  exists docs1, docs2. split; [exact Hd|]. split; [|exact Hu].
  rewrite Ht. reflexivity.
Defined.

Lemma pipeline_items_are_timestamped_witness :
  (∃ it w',
     ContextItem_init env_indexed (VStr "email") (VStr "gmail") (VStr "alpha beta") ∅
       None (Ok Base) fresh_world = (Ok it, w')
     ∧ timestamp it = Some (clock env_indexed (now_calls fresh_world)))
  ∧ ∃ resp w',
      ContextService.get_context env_search_only request_alpha fresh_world = (Ok resp, w')
      ∧ Forall (λ it, ∃ t, timestamp it = Some t ∧ ContextService.sort_key it = t)
          (context_items resp).
Proof.
  destruct (pipeline_items_are_timestamped env_indexed) as (Hinit & _).
  destruct (pipeline_items_are_timestamped env_search_only) as (_ & _ & _ & _ & _ & Hresp).
  split.
  - destruct (ContextItem_init env_indexed (VStr "email") (VStr "gmail")
                (VStr "alpha beta") ∅ None (Ok Base) fresh_world)
      as [[it|e] w'] eqn:E.
    + exists it, w'. split; [reflexivity|]. eapply Hinit, E.
    + vm_compute in E. discriminate E.
  - destruct (get_context_run env_search_only request_alpha fresh_world 7 eq_refl)
      as (z & g & n & f & u1 & u2 & u3 & u4 & _ & _ & _ & _ & E).
    eexists _, _. split; [exact E|]. eapply Hresp, E.
Defined.

(** * Further properties of the services *)

(** ** The response of the aggregation engine *)

Lemma get_context_fan_out env r w d :
  days_back_of env r = Ok d →
  ∃ arrivals w4,
    fan_out env r d w arrivals w4
    ∧ ContextService.get_context env r w
      = (Ok {| resp_source := "vibecoding-mcp";
               context_items :=
                 apply_limit (limit r) (sort_desc sort_key arrivals);
               resp_query := query r;
               resp_timestamp := clock env (now_calls w4) |},
         tick w4).
Proof.
  intros Hd.
  destruct (get_context_run env r w d Hd)
    as (z & g & n & f & w1 & w2 & w3 & w4 & Cz & Cg & Cn & Cf & E).
  exists (z ++ g ++ n ++ f), w4. split; [|exact E].
  exists z, g, n, f, w1, w2, w3. auto.
Qed.

(** X1.  The number of items of a response, for every value of [limit]: an absent
    limit and a limit of 0 keep everything, a positive limit keeps at most
    that many, and a negative limit [-k] drops the [k] oldest items. *)
Theorem response_length_follows_limit env r w d :
  days_back_of env r = Ok d →
  ∃ resp w' arrivals w4,
    ContextService.get_context env r w = (Ok resp, w')
    ∧ fan_out env r d w arrivals w4
    ∧ length (context_items resp) = kept_by_limit (limit r) (length arrivals).
Proof.
  intros Hd. destruct (get_context_fan_out env r w d Hd) as (arr & w4 & F & E).
  eexists _, _, arr, w4. split; [exact E|]. split; [exact F|].
  cbn [context_items]. rewrite apply_limit_kept.
  now rewrite (Permutation_length (sort_desc_perm sort_key arr)).
Qed.

Lemma response_length_follows_limit_witness :
  days_back_of env_search_only request_fresh = Ok 7%Z
  ∧ ∃ resp w',
      ContextService.get_context env_search_only request_fresh fresh_world = (Ok resp, w')
      ∧ length (context_items resp) = 1.
Proof.
  split; [reflexivity|].
  destruct (response_length_follows_limit env_search_only request_fresh fresh_world 7
              eq_refl) as (resp & w' & arr & w4 & E & F & L).
  exists resp, w'. split; [exact E|].
  assert (length (context_items resp)
          = length (default [] (context_items <$>
              returned (ContextService.get_context env_search_only request_fresh
                          fresh_world)))) as ->.
  { unfold returned. rewrite E. reflexivity. }
  vm_compute. reflexivity.
Defined.

(** X2.  A response holds nothing that the pipelines did not return, and nothing
    twice: together with the items that were cut off it is a rearrangement of
    what the fan-out collected. *)
Theorem response_is_part_of_the_fan_out env r w d :
  days_back_of env r = Ok d →
  ∃ resp w' arrivals w4 cut,
    ContextService.get_context env r w = (Ok resp, w')
    ∧ fan_out env r d w arrivals w4
    ∧ context_items resp ++ cut ≡ₚ arrivals
    ∧ Forall (λ c, Forall (λ x, (sort_key c ≤ sort_key x)%N) (context_items resp)) cut.
Proof.
  intros Hd. destruct (get_context_fan_out env r w d Hd) as (arr & w4 & F & E).
  destruct (apply_limit_prefix (limit r) (sort_desc sort_key arr)) as [cut Hcut].
  eexists _, _, arr, w4, cut. split; [exact E|]. split; [exact F|].
  cbn [context_items]. split.
  - rewrite <- Hcut. apply sort_desc_perm.
  - pose proof (sort_desc_sorted sort_key arr) as S. rewrite Hcut in S.
    apply StronglySorted_app in S as (S & _ & _).
    apply Forall_forall. intros c Hc. apply Forall_forall. intros x Hx.
    exact (S x c Hx Hc).
Qed.

Lemma response_is_part_of_the_fan_out_witness :
  days_back_of env_search_only request_fresh = Ok 7%Z
  ∧ ∃ resp w' arrivals cut,
      ContextService.get_context env_search_only request_fresh fresh_world = (Ok resp, w')
      ∧ context_items resp ++ cut ≡ₚ arrivals.
Proof.
  split; [reflexivity|].
  destruct (response_is_part_of_the_fan_out env_search_only request_fresh fresh_world 7
              eq_refl) as (resp & w' & arr & w4 & cut & E & _ & P & _).
  exists resp, w', arr, cut. auto.
Defined.

(** ** The kind of the items *)

Lemma init_fields env t s c md extra w it w' :
  ContextItem_init env (VStr t) (VStr s) c md None extra w = (Ok it, w') →
  type it = t ∧ source it = s ∧ metadata it = md
  ∧ str_field env c = Ok (content it) ∧ extra = Ok (detail it).
Proof.
  unfold ContextItem_init. intros H.
  apply bind_inv in H as (ts & w1 & _ & H).
  unfold lift, obind in H. cbn [str_field] in H.
  repeat case_match; simplify_eq. auto.
Qed.

Ltac kind_of H :=
  apply init_fields in H as (Ht & Hs & _ & _ & Hd);
  unfold obind in Hd; repeat case_match; simplify_eq;
  unfold kind_consistent; rewrite <- Hd; auto.

Lemma meeting_kind env c t p d du m md w it w' :
  MeetingContext env c t p d du m md w = (Ok it, w') → kind_consistent it.
Proof. unfold MeetingContext. intros H. kind_of H. Qed.

Lemma email_kind env c su se rs d th md w it w' :
  EmailContext env c su se rs d th md w = (Ok it, w') → kind_consistent it.
Proof. unfold EmailContext. intros H. kind_of H. Qed.

Lemma document_kind env c t a l p md w it w' :
  DocumentContext env c t a l p md w = (Ok it, w') → kind_consistent it.
Proof. unfold DocumentContext. intros H. kind_of H. Qed.

Lemma opportunity_kind env c n s a cd an ow oi md w it w' :
  OpportunityContext env c n s a cd an ow oi md w = (Ok it, w') → kind_consistent it.
Proof. unfold OpportunityContext. intros H. kind_of H. Qed.

Lemma account_kind env c n i ws a md w it w' :
  AccountContext env c n i ws a md w = (Ok it, w') → kind_consistent it.
Proof. unfold AccountContext. intros H. kind_of H. Qed.

Lemma contact_kind env c n e p t a i md w it w' :
  ContactContext env c n e p t a i md w = (Ok it, w') → kind_consistent it.
Proof. unfold ContactContext. intros H. kind_of H. Qed.

Lemma snoc_Forall {A} (P : A → Prop) acc x : Forall P acc → P x → Forall P (acc ++ [x]).
Proof. intros. apply Forall_app. auto. Qed.

Lemma zoom_kinds env q d l w items w' :
  _get_zoom_context env q d l w = (Ok items, w') → Forall kind_consistent items.
Proof.
  unfold _get_zoom_context. intros H.
  apply try_except_inv in H as [H | [-> _]]; [|constructor].
  apply bind_inv in H as (ts & w1 & _ & H).
  eapply (for_each_invariant (Forall kind_consistent)); [|constructor|exact H].
  clear. intros x acc w acc' w' Hacc H. cbv beta in H. run_inv; try assumption;
    (apply snoc_Forall; [assumption|]; eauto using meeting_kind).
Qed.

Lemma gmail_kinds env q d l w items w' :
  _get_gmail_context env q d l w = (Ok items, w') → Forall kind_consistent items.
Proof.
  unfold _get_gmail_context. intros H.
  apply try_except_inv in H as [H | [-> _]]; [|constructor].
  apply bind_inv in H as (ts & w1 & _ & H).
  eapply (for_each_invariant (Forall kind_consistent)); [|constructor|exact H].
  clear. intros x acc w acc' w' Hacc H. cbv beta in H. run_inv; try assumption;
    (apply snoc_Forall; [assumption|]; eauto using email_kind).
Qed.

Lemma notion_kinds env q l w items w' :
  _get_notion_context env q l w = (Ok items, w') → Forall kind_consistent items.
Proof.
  unfold _get_notion_context. intros H.
  apply try_except_inv in H as [H | [-> _]]; [|constructor].
  apply bind_inv in H as (ts & w1 & _ & H).
  eapply (for_each_invariant (Forall kind_consistent)); [|constructor|exact H].
  clear. intros x acc w acc' w' Hacc H. cbv beta in H. run_inv; try assumption;
    (apply snoc_Forall; [assumption|]; eauto using document_kind).
Qed.

Lemma salesforce_kinds env q ef d l w items w' :
  _get_salesforce_context env q ef d l w = (Ok items, w') → Forall kind_consistent items.
Proof.
  unfold _get_salesforce_context. intros H.
  apply try_except_inv in H as [H | [-> _]]; [|constructor].
  destruct (if dict_truthy ef then _ else _) as [account_id|].
  - apply bind_inv in H as (accounts & w1 & _ & H).
    apply bind_inv in H as (contacts & w2 & _ & H).
    apply bind_inv in H as (acc1 & w3 & Hacc & H).
    eapply (for_each_invariant (Forall kind_consistent)); [| |exact H].
    + clear. intros x acc w acc' w' Hacc H. cbv beta in H. run_inv;
        (apply snoc_Forall; [assumption|]; eauto using contact_kind).
    + eapply (for_each_invariant (Forall kind_consistent)); [|constructor|exact Hacc].
      clear. intros x acc w acc' w' Hacc H. cbv beta in H. run_inv;
        (apply snoc_Forall; [assumption|]; eauto using account_kind).
  - apply bind_inv in H as (opps & w1 & _ & H).
    eapply (for_each_invariant (Forall kind_consistent)); [|constructor|exact H].
    clear. intros x acc w acc' w' Hacc H. cbv beta in H. run_inv; try assumption;
      (apply snoc_Forall; [assumption|]; eauto using opportunity_kind).
Qed.

Lemma contribution_Forall (P : ContextItem → Prop) b p w items w' :
  (∀ w0 l w1, p w0 = (Ok l, w1) → Forall P l) →
  contribution b p w items w' → Forall P items.
Proof.
  intros Hp. destruct b; cbn.
  - apply Hp.
  - intros [-> _]. constructor.
Qed.

(** X3.  Every item of a response of the aggregation engine belongs to one of the
    six item classes, and its [type] and [source] are those of its class: an
    e-mail is ("email", "gmail"), a meeting ("meeting", "zoom"), a document
    ("document", "notion"), and the three CRM classes are from "salesforce". *)
Theorem response_items_have_consistent_kinds env r w resp w' :
  ContextService.get_context env r w = (Ok resp, w') →
  Forall kind_consistent (context_items resp).
Proof.
  intros H. destruct (days_back_of env r) as [d|e] eqn:Hd.
  - destruct (get_context_run env r w d Hd)
      as (z & g & n & f & w1 & w2 & w3 & w4 & Cz & Cg & Cn & Cf & E).
    rewrite E in H. inversion H; subst. cbn [context_items].
    eapply prefix_Forall; [apply apply_limit_prefix|].
    rewrite sort_desc_perm. repeat apply Forall_app_2.
    + eapply contribution_Forall; [|exact Cz]. apply zoom_kinds.
    + eapply contribution_Forall; [|exact Cg]. apply gmail_kinds.
    + eapply contribution_Forall; [|exact Cn]. apply notion_kinds.
    + eapply contribution_Forall; [|exact Cf]. apply salesforce_kinds.
  - unfold ContextService.get_context in H.
    rewrite (bind_raised _ _ _ e w) in H; [discriminate|].
    rewrite lift_run, Hd. reflexivity.
Qed.

Lemma response_items_have_consistent_kinds_witness :
  ∃ resp w',
    ContextService.get_context env_search_only request_alpha fresh_world = (Ok resp, w')
    ∧ Forall kind_consistent (context_items resp).
Proof.
  destruct (get_context_run env_search_only request_alpha fresh_world 7 eq_refl)
    as (z & g & n & f & u1 & u2 & u3 & u4 & _ & _ & _ & _ & E).
  eexists _, _. split; [exact E|].
  eapply response_items_have_consistent_kinds, E.
Defined.

(** ** The coarse query filter *)

Lemma ascii_lower_keeps_empty zoom recent found accounts contacts :
  lower_keeps_empty (sample_env zoom recent found accounts contacts).
Proof. split; [reflexivity|]. intros [|c s]; [reflexivity|discriminate]. Qed.

Lemma env_opportunities_keeps_empty : lower_keeps_empty env_opportunities.
Proof. split; [reflexivity|]. intros [|c s]; [reflexivity|discriminate]. Qed.

Lemma contains_in_empty n : contains n "" = true → n = "".
Proof. destruct n; [reflexivity|discriminate]. Qed.

(** X4.  With a query, every meeting the Zoom pipeline returns has the
    lower-cased query in its lower-cased transcript, the lower-casing being
    that of [str.lower]. *)
Theorem zoom_items_contain_the_query env q d l w items w' :
  q ≠ "" →
  _get_zoom_context env (Some q) d l w = (Ok items, w') →
  Forall (λ it, contains (str_lower env q) (str_lower env (content it)) = true) items.
Proof.
  intros Hq. unfold _get_zoom_context. intros H.
  apply try_except_inv in H as [H | [-> _]]; [|constructor].
  apply bind_inv in H as (ts & w1 & _ & H).
  eapply (for_each_invariant
            (Forall (λ it, contains (str_lower env q) (str_lower env (content it)) = true)));
    [|constructor|exact H].
  clear -Hq. intros x acc w acc' w' Hacc H. cbv beta in H.
  cbn [str_truthy default from_option id] in H.
  apply String.eqb_neq in Hq. rewrite Hq in H. cbn [negb] in H.
  apply bind_inv in H as (skip & w1 & Hskip & H).
  apply bind_inv in Hskip as (text & w2 & Htext & Hskip).
  unfold ret in Hskip. inversion Hskip; subst. clear Hskip.
  unfold lift in Htext. inversion Htext as [[Hrecv Hw]]. clear Htext.
  destruct (contains (str_lower env q) (str_lower env text)) eqn:Hc; cbn [negb] in H.
  - apply bind_inv in H as (date & w3 & _ & H).
    apply bind_inv in H as (it & w4 & Hit & H).
    unfold ret in H. inversion H; subst. clear H.
    apply snoc_Forall; [assumption|].
    unfold MeetingContext in Hit. apply init_fields in Hit as (_ & _ & _ & Hcontent & _).
    destruct (dict_get_or x "transcript" (VStr "")); try discriminate.
    cbn in Hrecv, Hcontent. congruence.
  - unfold ret in H. inversion H; subst. assumption.
Qed.

Lemma zoom_items_contain_the_query_witness :
  "ALPHA" ≠ ""
  ∧ ∃ items w',
      _get_zoom_context env_transcripts (Some "ALPHA") 7 None fresh_world = (Ok items, w')
      ∧ Forall (λ it, contains (ascii_lower "ALPHA") (ascii_lower (content it)) = true)
          items
      ∧ content <$> items = ["alpha beta"].
Proof.
  split; [discriminate|].
  destruct (_get_zoom_context env_transcripts (Some "ALPHA") 7 None fresh_world)
    as [[items|e] w'] eqn:E.
  - exists items, w'. split; [reflexivity|]. split.
    + exact (zoom_items_contain_the_query env_transcripts "ALPHA" _ _ _ _ _
               ltac:(discriminate) E).
    + vm_compute in E. inversion E. reflexivity.
  - vm_compute in E. discriminate E.
Defined.

(** X5.  Without an account focus the CRM pipeline returns opportunities only,
    and with a query only those whose lower-cased name contains the
    lower-cased query, the lower-casing being that of [str.lower], which
    maps the empty text and no other to the empty text. *)
Theorem opportunities_contain_the_query env q ef d l w items w' :
  lower_keeps_empty env →
  (if dict_truthy ef then default ∅ ef !! "account_id" else None) = None →
  _get_salesforce_context env q ef d l w = (Ok items, w') →
  Forall (λ it, ∃ name,
            opportunity_name it = Some name
            ∧ (str_truthy q = true →
               contains (str_lower env (default "" q)) (str_lower env name) = true))
    items.
Proof.
  intros [Hl0 Hl1] Hf. unfold _get_salesforce_context. rewrite Hf. intros H.
  apply try_except_inv in H as [H | [-> _]]; [|constructor].
  apply bind_inv in H as (opps & w1 & _ & H).
  match goal with |- Forall ?P _ =>
    eapply (for_each_invariant (Forall P)); [|constructor|exact H] end.
  clear -Hl0 Hl1. intros x acc w acc' w' Hacc H. cbv beta in H.
  apply bind_inv in H as (skip & w1 & Hskip & H).
  assert (skip = false →
          str_truthy q = true →
          ∃ nm, dict_get_or x "Name" (VStr "") = VStr nm
                ∧ contains (str_lower env (default "" q)) (str_lower env nm) = true)
    as Hkeep.
  { intros -> Hq. rewrite Hq in Hskip.
    apply bind_inv in Hskip as (nm & w2 & Hnm & Hskip).
    unfold ret in Hskip. injection Hskip as Hc Hw.
    unfold lift in Hnm. injection Hnm as Hrecv Hw'.
    destruct (dict_get_or x "Name" (VStr "")) as [| | | |s| | |]; try discriminate.
    cbn in Hrecv. injection Hrecv as ->. exists nm. split; [reflexivity|].
    now apply negb_false_iff in Hc. }
  destruct skip.
  { unfold ret in H. inversion H; subst. assumption. }
  specialize (Hkeep eq_refl). clear Hskip.
  apply bind_inv in H as (cd & w2 & _ & H).
  apply bind_inv in H as (am & w3 & _ & H).
  apply bind_inv in H as (an & w4 & _ & H).
  apply bind_inv in H as (ow & w5 & _ & H).
  apply bind_inv in H as (it & w6 & Hit & H).
  unfold ret in H. inversion H; subst. clear H.
  apply snoc_Forall; [assumption|].
  unfold OpportunityContext in Hit. apply init_fields in Hit as (_ & _ & _ & _ & Hd).
  unfold obind in Hd. repeat case_match; simplify_eq.
  unfold opportunity_name. rewrite <- Hd. eexists. split; [reflexivity|].
  intros Hq. destruct (Hkeep Hq) as (nm & Hnm & Hc).
  unfold dict_get_or in *. destruct (x !! "Name") as [v|] eqn:Ex; cbn in *.
  - subst v. cbn in *. congruence.
  - inversion Hnm; subst. rewrite Hl0 in Hc. apply contains_in_empty, Hl1 in Hc.
    destruct q as [q|]; cbn in *; [|discriminate]. subst q. discriminate.
Qed.

Lemma opportunities_contain_the_query_witness :
  ∃ items w',
    _get_salesforce_context env_opportunities (Some "alpha") None 7 None fresh_world
    = (Ok items, w')
    ∧ Forall (λ it, ∃ name,
                opportunity_name it = Some name
                ∧ (str_truthy (Some "alpha") = true →
                   contains (ascii_lower "alpha") (ascii_lower name) = true)) items
    ∧ omap opportunity_name items = ["Alpha renewal"].
Proof.
  destruct (_get_salesforce_context env_opportunities (Some "alpha") None 7 None
              fresh_world) as [[items|e] w'] eqn:E.
  - exists items, w'. split; [reflexivity|]. split.
    + exact (opportunities_contain_the_query env_opportunities _ None _ _ _ _ _
               env_opportunities_keeps_empty eq_refl E).
    + vm_compute in E. inversion E. reflexivity.
  - vm_compute in E. discriminate E.
Defined.

(** ** Records that cannot be normalised *)

Lemma for_each_one_each {A B} (R : A → B → Prop) (body : A → list B → M (list B)) :
  (∀ x acc w acc' w', body x acc w = (Ok acc', w') → ∃ y, acc' = acc ++ [y] ∧ R x y) →
  ∀ xs acc w res w',
    for_each xs body acc w = (Ok res, w') → ∃ ys, res = acc ++ ys ∧ Forall2 R xs ys.
Proof.
  intros Hbody xs. induction xs as [|x xs IH]; intros acc w res w' H.
  - cbn in H. unfold ret in H. injection H as <- _. exists []. now rewrite app_nil_r.
  - cbn [for_each] in H. apply bind_inv in H as (acc1 & w1 & Hb & H).
    destruct (Hbody _ _ _ _ _ Hb) as (y & -> & Hy).
    destruct (IH _ _ _ _ H) as (ys & -> & Hys).
    exists (y :: ys). rewrite <- app_assoc. split; [reflexivity|]. now constructor.
Qed.

Lemma for_each_covers {A B} (good : A → Prop) (R : A → B → Prop)
    (body : A → list B → M (list B)) :
  (∀ x acc w acc' w', body x acc w = (Ok acc', w') →
     acc' = acc ∨ ∃ y, acc' = acc ++ [y]) →
  (∀ x acc w acc' w', good x → body x acc w = (Ok acc', w') →
     ∃ y, acc' = acc ++ [y] ∧ R x y) →
  ∀ xs acc w res w',
    for_each xs body acc w = (Ok res, w') →
    ∃ ys, res = acc ++ ys ∧ length ys ≤ length xs
          ∧ ∀ x, x ∈ xs → good x → ∃ y, y ∈ ys ∧ R x y.
Proof.
  intros Hgrow Hgood xs. induction xs as [|x xs IH]; intros acc w res w' H.
  - cbn in H. unfold ret in H. injection H as <- _. exists [].
    rewrite app_nil_r. split; [reflexivity|]. split; [reflexivity|].
    intros x Hx. exfalso. eapply not_elem_of_nil, Hx.
  - cbn [for_each] in H. apply bind_inv in H as (acc1 & w1 & Hb & H).
    destruct (IH _ _ _ _ H) as (ys & -> & Hlen & Hall).
    destruct (Hgrow _ _ _ _ _ Hb) as [->|[y ->]].
    + exists ys. split; [reflexivity|]. split; [cbn; lia|].
      intros x' Hx' Hg. apply elem_of_cons in Hx' as [->|Hx']; [|eauto].
      destruct (Hgood _ _ _ _ _ Hg Hb) as (y & Hy & _).
      apply (f_equal length) in Hy. rewrite length_app in Hy. cbn in Hy. lia.
    + exists (y :: ys). rewrite <- app_assoc. split; [reflexivity|].
      split; [cbn; lia|].
      intros x' Hx' Hg. apply elem_of_cons in Hx' as [->|Hx'].
      * destruct (Hgood _ _ _ _ _ Hg Hb) as (y' & Hy & HR).
        apply app_inv_head in Hy. injection Hy as ->.
        exists y'. split; [apply elem_of_cons; auto|exact HR].
      * destruct (Hall x' Hx' Hg) as (y' & Hy' & HR).
        exists y'. split; [apply elem_of_cons; auto|exact HR].
Qed.

(** X6.  The Zoom pipeline has no handler around one transcript: without a query
    it returns either one meeting for every transcript, in order, or nothing
    at all; and one transcript whose [meeting_id] is null is enough to lose
    the whole batch. *)
Theorem zoom_batch_is_all_or_nothing env q d l w ts items w' :
  str_truthy q = false →
  zoom_get_recent_meeting_transcripts env d (int_or l 5) = Ok ts →
  _get_zoom_context env q d l w = (Ok items, w') →
  (items = []
   ∨ Forall2 (λ t it,
        str_field env (dict_get_or t "transcript" (VStr "")) = Ok (content it)
        ∧ ∃ ti ps da du mi,
            detail it = Meeting ti ps da du mi
            ∧ str_field env (dict_get_or t "meeting_id" (VStr "")) = Ok mi) ts items)
  ∧ ((∃ t, t ∈ ts ∧ t !! "meeting_id" = Some VNone) → items = []).
Proof.
  intros Hq Hts. unfold _get_zoom_context.
  match goal with |- _ → (_ ∨ Forall2 ?R _ _) ∧ _ => set (Rel := R) end.
  intros H.
  assert (items = [] ∨ Forall2 Rel ts items) as Hall.
  { apply try_except_inv in H as [H | [-> _]]; [|auto].
    right. rewrite (bind_run _ _ _ _ _ (eq_trans (lift_run _ _) (f_equal (λ o, (o, w)) Hts))) in H.
    apply (for_each_one_each Rel) in H as (ys & -> & Hys); [exact Hys|].
    clear -Hq. intros x acc w acc' w' H. cbv beta in H. rewrite Hq in H.
    rewrite (bind_run _ _ _ false w) in H by reflexivity.
    apply bind_inv in H as (date & w3 & _ & H).
    apply bind_inv in H as (it & w4 & Hit & H).
    unfold ret in H. injection H as <- _. exists it. split; [reflexivity|].
    unfold MeetingContext in Hit. apply init_fields in Hit as (_ & _ & _ & Hc & Hd).
    split; [exact Hc|].
    unfold obind in Hd. repeat case_match; simplify_eq. eauto 10. }
  split; [exact Hall|].
  intros (t & Ht & Hnull). destruct Hall as [?|Hall]; [assumption|].
  apply list_elem_of_lookup in Ht as (i & Hi).
  destruct (Forall2_lookup_l _ _ _ _ _ Hall Hi) as (it & _ & _ & (ti & ps & da & du & mi & _ & Hmi)).
  unfold dict_get_or in Hmi. rewrite Hnull in Hmi. discriminate Hmi.
Qed.

Lemma zoom_batch_is_all_or_nothing_witness :
  str_truthy None = false
  ∧ zoom_get_recent_meeting_transcripts env_transcript_without_id 7 (int_or None 5)
    = Ok [ {[ "meeting_id" := VStr "91"; "transcript" := VStr "alpha" ]};
           transcript_without_id ]
  ∧ transcript_without_id !! "meeting_id" = Some VNone
  ∧ returned (_get_zoom_context env_transcript_without_id None 7 None fresh_world)
    = Some [].
Proof.
  split; [reflexivity|]. split; [reflexivity|]. split; [reflexivity|].
  destruct (_get_zoom_context env_transcript_without_id None 7 None fresh_world)
    as [[items|e] w'] eqn:E.
  - destruct (zoom_batch_is_all_or_nothing env_transcript_without_id None 7 None
                fresh_world _ items w' eq_refl eq_refl E) as (_ & Hnull).
    rewrite Hnull; [reflexivity|].
    exists transcript_without_id. split; [|reflexivity].
    apply elem_of_cons. right. apply elem_of_cons. now left.
  - vm_compute in E. discriminate E.
Defined.


Lemma get_or_text rec k dflt :
  all_text rec → dict_get_or rec k (VStr dflt) = VStr (get_text rec k dflt).
Proof.
  intros H. unfold dict_get_or, get_text.
  destruct (rec !! k) as [v|] eqn:E; [|reflexivity].
  destruct (H _ _ E) as (s & ->). reflexivity.
Qed.

(** X7.  The Gmail pipeline handles each message on its own: a message that
    cannot be normalised is left out, and every message whose fields are all
    texts yields an item whatever the other messages are.  The item takes its
    content from [body], from [snippet] when there is no [body], and is empty
    when there is neither. *)
Theorem gmail_keeps_every_wellformed_message env q d l w emails :
  (if str_truthy q
   then gmail_search_emails env (default "" q) (int_or l 10)
   else gmail_get_recent_emails env d (int_or l 10)) = Ok emails →
  ∃ items w',
    _get_gmail_context env q d l w = (Ok items, w')
    ∧ length items ≤ length emails
    ∧ ∀ e, e ∈ emails → all_text e →
        ∃ it date,
          it ∈ items
          ∧ content it = get_text e "body" (get_text e "snippet" "")
          ∧ detail it
            = Email (get_text e "subject" "") (get_text e "from" "")
                [get_text e "to" ""] date (Some (get_text e "thread_id" ""))
          ∧ metadata it !! "id" = Some (VStr (get_text e "id" "")).
Proof.
  intros Hfetch. destruct (gmail_total env q d l w) as (items & w' & E).
  exists items, w'. split; [exact E|].
  unfold _get_gmail_context in E.
  assert ((if str_truthy q
           then lift (gmail_search_emails env (default "" q) (int_or l 10))
           else lift (gmail_get_recent_emails env d (int_or l 10))) w
          = (Ok emails, w)) as Hl.
  { destruct (str_truthy q); rewrite lift_run, Hfetch; reflexivity. }
  unfold try_except in E. rewrite (bind_run _ _ _ _ _ Hl) in E.
  match type of E with context [for_each emails ?b []] => set (body := b) in * end.
  assert (∀ x acc v acc' v', body x acc v = (Ok acc', v') →
            acc' = acc ∨ ∃ y, acc' = acc ++ [y]) as Hgrow.
  { subst body. intros x acc v acc' v' H. cbv beta in H.
    apply try_except_inv in H as [H | [-> _]]; [|auto].
    right. run_inv; eauto. }
  assert (∀ x acc v, ∃ acc' v', body x acc v = (Ok acc', v')) as Htot.
  { subst body. intros x acc v. apply try_except_total. }
  destruct (for_each_total body Htot emails [] w) as (res & w1 & Ef).
  rewrite Ef in E. injection E as <- <-.
  pose (Rel := λ (e : gmap string pyval) (it : ContextItem),
          ∃ date,
            content it = get_text e "body" (get_text e "snippet" "")
            ∧ detail it
              = Email (get_text e "subject" "") (get_text e "from" "")
                  [get_text e "to" ""] date (Some (get_text e "thread_id" ""))
            ∧ metadata it !! "id" = Some (VStr (get_text e "id" ""))).
  assert (∀ x acc v acc' v', all_text x → body x acc v = (Ok acc', v') →
            ∃ y, acc' = acc ++ [y] ∧ Rel x y) as Hgood.
  { subst body Rel. clear. intros x acc v acc' v' Hg H. cbv beta in H.
    rewrite !(get_or_text _ _ _ Hg) in H.
    unfold try_except, bind, lift, str_argument, now, ret, EmailContext,
      ContextItem_init, timestamp_field in H.
    destruct (strptime_email env (get_text x "date" "")) as [dt|];
      cbn in H; injection H as <- _; eexists; (split; [reflexivity|]);
      eexists; cbn; (split; [reflexivity|]); (split; [reflexivity|]);
      rewrite lookup_insert_ne by done; apply lookup_insert_eq. }
  destruct (for_each_covers all_text Rel body Hgrow Hgood _ _ _ _ _ Ef)
    as (ys & Hres & Hlen & Hcov).
  cbn in Hres. subst res. split; [exact Hlen|].
  intros e He Hg. destruct (Hcov e He Hg) as (it & Hit & date & Hr).
  exists it, date. tauto.
Qed.

Lemma gmail_keeps_every_wellformed_message_witness :
  gmail_get_recent_emails env_email_without_recipient 7 (int_or None 10)
  = Ok [email_without_recipient; email1]
  ∧ all_text email1
  ∧ ∃ items w',
      _get_gmail_context env_email_without_recipient None 7 None fresh_world
      = (Ok items, w')
      ∧ content <$> items = ["alpha beta"].
Proof.
  split; [reflexivity|].
  assert (all_text email1) as Hwf.
  { intros k v Hk. unfold email1 in Hk. apply elem_of_list_to_map_2 in Hk.
    repeat (apply elem_of_cons in Hk as [Hk|Hk]; [injection Hk as _ ->; eauto|]).
    inversion Hk. }
  split; [exact Hwf|].
  destruct (gmail_keeps_every_wellformed_message env_email_without_recipient None 7 None
              fresh_world _ eq_refl) as (items & w' & E & _ & _).
  exists items, w'. split; [exact E|].
  vm_compute in E. injection E as <- _. reflexivity.
Defined.

(** ** The filter and the failures of the vector search *)

Lemma truthy_dict (m : gmap string pyval) : truthy (VDict m) = true ↔ m ≠ ∅.
Proof.
  cbn. rewrite negb_true_iff, bool_decide_eq_false. now rewrite dom_empty_iff_L.
Qed.

(** X8.  Of the criteria handed to [search], the entries under ["source"] and
    ["type"] are passed on to the backend, with their values, and every other
    key is dropped; when neither key is there the backend gets no filter. *)
Theorem search_filter_keeps_source_and_type (fc : gmap string pyval) :
  match VectorStore.search_filter (Some fc) with
  | Some m =>
      (∀ k, m !! k = if decide (k = "source" ∨ k = "type") then fc !! k else None)
      ∧ (is_Some (fc !! "source") ∨ is_Some (fc !! "type"))
  | None => fc !! "source" = None ∧ fc !! "type" = None
  end.
Proof.
  unfold VectorStore.search_filter, dict_truthy. cbn [default from_option id].
  set (P := λ kv : string * pyval, kv.1 = "source" ∨ kv.1 = "type").
  assert (∀ k, filter P fc !! k
               = if decide (k = "source" ∨ k = "type") then fc !! k else None) as Hl.
  { intros k. rewrite map_lookup_filter. destruct (fc !! k) as [v|]; cbn.
    - unfold P. cbn. case_decide; [now rewrite option_guard_True|
                                   now rewrite option_guard_False].
    - now case_decide. }
  destruct (truthy (VDict fc)) eqn:Hfc.
  - destruct (truthy (VDict (filter P fc))) eqn:Hf.
    + split; [exact Hl|]. apply truthy_dict in Hf.
      destruct (fc !! "source") eqn:Es; [eauto|].
      destruct (fc !! "type") eqn:Et; [eauto|].
      exfalso. apply Hf. apply map_eq. intros k. rewrite Hl, lookup_empty.
      case_decide as Hk; [|reflexivity]. destruct Hk as [->| ->]; assumption.
    + assert (filter P fc = ∅) as He.
      { destruct (decide (filter P fc = ∅)) as [|Hne]; [assumption|].
        apply truthy_dict in Hne. congruence. }
      pose proof (Hl "source") as H1. pose proof (Hl "type") as H2.
      rewrite He, lookup_empty in H1, H2.
      rewrite decide_True in H1 by auto. rewrite decide_True in H2 by auto. auto.
  - assert (fc = ∅) as ->.
    { destruct (decide (fc = ∅)) as [|Hne]; [assumption|].
      apply truthy_dict in Hne. congruence. }
    cbn. split; apply lookup_empty.
Qed.

(** X9.  [search] never raises and never changes anything: on an empty index, and
    when the backend raises, it answers with the empty list; otherwise with
    one hit for each chunk of the backend's answer, in its order, whose score
    is the ["score"] of the chunk's metadata, or 0.0. *)
Theorem search_absorbs_backend_failures env q fc k w :
  ∃ hits,
    VectorStore.search env q fc k w = (Ok hits, w)
    ∧ (vector_db (vector_store w) = None ∨ documents (vector_store w) = [] → hits = [])
    ∧ (∀ db e, vector_db (vector_store w) = Some db →
         similarity_search env db q k (VectorStore.search_filter fc) = Raised e →
         hits = [])
    ∧ (∀ db docs, vector_db (vector_store w) = Some db →
         documents (vector_store w) ≠ [] →
         similarity_search env db q k (VectorStore.search_filter fc) = Ok docs →
         hit_content <$> hits = page_content <$> docs
         ∧ hit_metadata <$> hits = doc_metadata <$> docs
         ∧ hit_score <$> hits
           = (λ d, dict_get_or (doc_metadata d) "score" (VFloat 0)) <$> docs).
Proof.
  unfold VectorStore.search, bind, get_store.
  destruct (vector_db (vector_store w)) as [db|] eqn:Edb.
  2:{ exists []. unfold ret. repeat split; auto; intros; discriminate. }
  destruct (documents (vector_store w)) as [|d0 ds] eqn:Ed.
  { exists []. unfold ret. repeat split; auto; intros; congruence. }
  unfold try_except, lift, ret.
  destruct (similarity_search env db q k (VectorStore.search_filter fc))
    as [docs|e] eqn:Es.
  - eexists. split; [reflexivity|]. split; [intros [?|?]; discriminate|].
    split; [intros db' e' [= <-]; congruence|].
    intros db' docs' [= <-] _ Hs. rewrite Es in Hs. injection Hs as <-.
    rewrite <- !list_fmap_compose. auto.
  - exists []. split; [reflexivity|]. split; [auto|]. split; [auto|].
    intros db' docs' [= <-] _ Hs. congruence.
Qed.

(** ** The pages of Notion *)

Lemma for_each_sublist {A B} (R : A → B → Prop) (body : A → list B → M (list B)) :
  (∀ x acc w acc' w', body x acc w = (Ok acc', w') →
     acc' = acc ∨ ∃ y, acc' = acc ++ [y] ∧ R x y) →
  ∀ xs acc w res w',
    for_each xs body acc w = (Ok res, w') →
    ∃ kept ys, res = acc ++ ys ∧ kept `sublist_of` xs ∧ Forall2 R kept ys.
Proof.
  intros Hbody xs. induction xs as [|x xs IH]; intros acc w res w' H.
  - cbn in H. unfold ret in H. injection H as <- _.
    exists [], []. rewrite app_nil_r. repeat split; constructor.
  - cbn [for_each] in H. apply bind_inv in H as (acc1 & w1 & Hb & H).
    destruct (IH _ _ _ _ H) as (kept & ys & -> & Hsub & HF).
    destruct (Hbody _ _ _ _ _ Hb) as [->|(y & -> & Hy)].
    + exists kept, ys. split; [reflexivity|]. split; [now constructor|exact HF].
    + exists (x :: kept), (y :: ys). rewrite <- app_assoc.
      split; [reflexivity|]. split; [now constructor|now constructor].
Qed.

(** X10.  The Notion pipeline answers with documents of pages of the listing, in
    the order of the listing.  A page gives a document only if it has an
    identifier, its content could be fetched and every block that iterating
    over the content yields gave a text (an empty dictionary or an empty
    text yields no block); the content of the document is the texts of the
    blocks joined by newlines.  Any other page is skipped without touching
    the rest. *)
Theorem notion_documents_follow_the_listing env q l w pages :
  (if str_truthy q
   then notion_search_pages env (default "" q) (int_or l 10)
   else notion_get_database_pages env (int_or l 10)) = Ok pages →
  ∃ items w' kept,
    _get_notion_context env q l w = (Ok items, w')
    ∧ kept `sublist_of` pages
    ∧ Forall2 (document_of env) kept items.
Proof.
  intros Hfetch. destruct (notion_total env q l w) as (items & w' & E).
  exists items, w'. pose proof E as E0.
  unfold _get_notion_context in E.
  assert ((if str_truthy q
           then lift (notion_search_pages env (default "" q) (int_or l 10))
           else lift (notion_get_database_pages env (int_or l 10))) w
          = (Ok pages, w)) as Hl.
  { destruct (str_truthy q); rewrite lift_run, Hfetch; reflexivity. }
  unfold try_except in E. rewrite (bind_run _ _ _ _ _ Hl) in E.
  match type of E with context [for_each pages ?b []] => set (body := b) in * end.
  assert (∀ x acc v, ∃ acc' v', body x acc v = (Ok acc', v')) as Htot.
  { subst body. intros x acc v. apply try_except_total. }
  destruct (for_each_total body Htot pages [] w) as (res & w1 & Ef).
  assert (∀ x acc v acc' v', body x acc v = (Ok acc', v') →
            acc' = acc ∨ ∃ y, acc' = acc ++ [y] ∧ document_of env x y) as Hbody.
  { subst body. clear. intros page acc v acc' v' H. cbv beta in H.
    apply try_except_inv in H as [H | [-> _]]; [|auto].
    destruct (truthy (dict_get page "id")) eqn:Hid; cbn [negb] in H.
    2:{ unfold ret in H. injection H as <- _. auto. }
    right.
    apply bind_inv in H as (pwc & v1 & Hc & H).
    apply bind_inv in H as (blocks & v2 & Hb & H).
    apply bind_inv in H as (texts & v3 & Ht & H).
    apply bind_inv in H as (edited & v4 & _ & H).
    apply bind_inv in H as (doc & v5 & Hdoc & H).
    unfold ret in H. injection H as <- _. exists doc. split; [reflexivity|].
    unfold lift in Hc, Ht. injection Hc as Hc _. injection Ht as Ht _.
    assert (iterate (dict_get_or pwc "content" (VList [])) = Ok blocks) as Hblocks.
    { unfold lift in Hb. now injection Hb as -> _. }
    unfold DocumentContext in Hdoc.
    apply init_fields in Hdoc as (_ & _ & Hmd & Hcontent & Hdetail).
    cbn [str_field] in Hcontent. injection Hcontent as Hcontent.
    unfold obind in Hdetail.
    destruct (str_field env (dict_get_or page "title" (VStr "Untitled")))
      as [title|] eqn:Et; [|discriminate].
    cbn in Hdetail.
    destruct (str_field env (dict_get page "id")) as [pid|] eqn:Ep; [|discriminate].
    injection Hdetail as Hdetail.
    exists pwc, blocks, texts, pid, title, edited. repeat split; auto. }
  rewrite Ef in E. injection E as <- <-.
  destruct (for_each_sublist (document_of env) body Hbody _ _ _ _ _ Ef)
    as (kept & ys & Hres & Hsub & HF).
  cbn in Hres. subst res. exists kept. split; [exact E0|]. split; assumption.
Qed.

Lemma notion_documents_follow_the_listing_witness :
  ∃ pages items w' kept,
    notion_get_database_pages env_pages (int_or None 10) = Ok pages
    ∧ _get_notion_context env_pages None None fresh_world = (Ok items, w')
    ∧ kept `sublist_of` pages
    ∧ Forall2 (document_of env_pages) kept items.
Proof.
  eexists.
  destruct (notion_documents_follow_the_listing env_pages None None fresh_world _ eq_refl)
    as (items & w' & kept & H).
  exists items, w', kept. split; [reflexivity|exact H].
Defined.

(** ** Invariants of the index *)

Lemma keeps_preserving {A} P (m : M A) : preserves_index m → keeps P m.
Proof. intros Hm w o w' HP E. destruct (Hm _ _ _ E) as [-> _]. exact HP. Qed.

Lemma keeps_bind {A B} P (m : M A) (k : A → M B) :
  keeps P m → (∀ a, keeps P (k a)) → keeps P (bind m k).
Proof.
  intros Hm Hk w o w' HP E. unfold bind in E.
  destruct (m w) as [[a|e] w1] eqn:Em.
  - eapply Hk; [|exact E]. eapply Hm; eauto.
  - inversion E; subst. eapply Hm; eauto.
Qed.

Lemma keeps_try {A} P (m : M A) h :
  keeps P m → (∀ e, keeps P (h e)) → keeps P (try_except m h).
Proof.
  intros Hm Hh w o w' HP E. unfold try_except in E.
  destruct (m w) as [[a|e] w1] eqn:Em.
  - inversion E; subst. eapply Hm; eauto.
  - eapply Hh; [|exact E]. eapply Hm; eauto.
Qed.

Lemma keeps_set_initialized P b : keeps P (set_initialized b).
Proof. intros w o w' HP E. unfold set_initialized in E. now inversion E; subst. Qed.

Lemma keeps_get_initialized P : keeps P get_initialized.
Proof. intros w o w' HP E. unfold get_initialized in E. now inversion E; subst. Qed.

Lemma add_items_keeps_tracked env items :
  keeps (tracked env) (VectorStore.add_items env items).
Proof.
  intros w o w' HP E.
  apply add_items_cases in E as (_ & [(e & _ & -> & _)|(docs & wb & _ & Hd & Hv)]);
    [exact HP|].
  intros db' Hdb'. rewrite Hd.
  destruct Hv as [[_ Hv]|[_ Hv]]; rewrite Hv in Hdb'.
  - injection Hdb' as <-. unfold collection_of.
    destruct (vector_db (vector_store w)) as [db|] eqn:Edb.
    + destruct (HP db Edb) as (l & -> & Hl).
      exists (l ++ docs). split; [now rewrite app_assoc|].
      now apply sublist_app.
    + exists docs. split; [reflexivity|]. now apply sublist_inserts_l.
  - destruct (HP db' Hdb') as (l & -> & Hl).
    exists l. split; [reflexivity|]. now apply sublist_inserts_r.
Qed.

Lemma search_preserves env q fc k : preserves_index (VectorStore.search env q fc k).
Proof.
  intros w o w' E. destruct (search_run env q fc k w) as (hits & E').
  rewrite E' in E. now inversion E; subst.
Qed.

Lemma items_of_hits_preserves env hits : preserves_index (items_of_hits env hits).
Proof.
  unfold items_of_hits. apply pi_for_each. intros h acc.
  cbv beta zeta. apply pi_bind; [apply pi_init|]. intros it. apply pi_ret.
Qed.

Lemma check_sources_preserves env u srcs :
  preserves_index (Main.check_sources env u srcs).
Proof.
  induction srcs as [|s srcs IH]; cbn; [apply pi_ret|].
  destruct (check_permission env u s); [exact IH|apply pi_raise].
Qed.

Section keeps_facts.
Variable P : VectorStoreState → Prop.
Variable env : Env.
Hypothesis add_items_keeps : ∀ items, keeps P (VectorStore.add_items env (item_dict <$> items)).

Lemma initialize_keeps d : keeps P (initialize env d).
Proof.
  unfold initialize. apply keeps_bind; [apply keeps_get_initialized|].
  intros [|]; [apply keeps_preserving, pi_ret|].
  apply keeps_bind; [apply keeps_preserving, get_context_preserves|].
  intros resp. apply keeps_bind; [apply add_items_keeps|].
  intros _. apply keeps_set_initialized.
Qed.

Lemma ensure_initialized_keeps : keeps P (ensure_initialized env).
Proof.
  unfold ensure_initialized. apply keeps_bind; [apply keeps_get_initialized|].
  intros [|]; [apply keeps_preserving, pi_ret|apply initialize_keeps].
Qed.

Lemma orchestrator_keeps r : keeps P (VectorContextService.get_context env r).
Proof.
  unfold VectorContextService.get_context.
  apply keeps_bind; [apply ensure_initialized_keeps|]. intros _.
  destruct (negb (str_truthy (query r)));
    [apply keeps_preserving, get_context_preserves|].
  apply keeps_bind; [apply keeps_preserving, search_preserves|].
  intros [|h hits]; [apply keeps_preserving, get_context_preserves|].
  apply keeps_preserving.
  apply pi_bind; [apply items_of_hits_preserves|]. intros vec.
  apply pi_bind.
  - destruct (include_fresh r); [|apply pi_ret].
    apply pi_bind; [apply get_context_preserves|]. intros ?.
    apply pi_bind; [apply pi_lift|]. intros ?. apply pi_ret.
  - intros ?. apply pi_bind; [apply pi_now|]. intros ?. apply pi_ret.
Qed.

Lemma endpoint_keeps u r : keeps P (Main.get_context env u r).
Proof.
  unfold Main.get_context. apply keeps_try; [|intros e; apply keeps_preserving, pi_raise].
  apply keeps_bind; [apply keeps_preserving, check_sources_preserves|]. intros _.
  destruct (query r); [apply orchestrator_keeps|].
  apply keeps_bind; [apply keeps_preserving, get_context_preserves|]. intros resp.
  apply keeps_bind; [apply add_items_keeps|]. intros _.
  apply keeps_preserving, pi_ret.
Qed.

End keeps_facts.

(** X11.  The collection never runs ahead of the tracking list
    [self.documents]: it holds what the directory held, then chunks of the
    tracking list, in the order of the list.  This holds when the process
    starts and is kept by every operation of the index, the orchestrator and
    the handler, whether the operation returns or raises.  The two lists
    need not be equal: a call of [add_items] that raises leaves the
    collection as it was, and the chunks it built are in the tracking
    list. *)
Theorem collection_follows_the_tracking_list env :
  tracked env (vector_store fresh_world)
  ∧ (∀ items, keeps (tracked env) (VectorStore.add_items env items))
  ∧ (∀ d, keeps (tracked env) (initialize env d))
  ∧ (∀ items, keeps (tracked env) (add_to_index env items))
  ∧ (∀ r, keeps (tracked env) (VectorContextService.get_context env r))
  ∧ (∀ u r, keeps (tracked env) (Main.get_context env u r))
  ∧ (∀ items w e w' docs wb,
       VectorStore.add_items env items w = (Raised e, w') →
       VectorStore.build_documents env items w = (Ok docs, wb) →
       vector_db (vector_store w') = vector_db (vector_store w)
       ∧ documents (vector_store w') = documents (vector_store w) ++ docs).
Proof.
  split; [intros db [=]|]. split; [apply add_items_keeps_tracked|].
  split; [intros d; apply initialize_keeps; intros; apply add_items_keeps_tracked|].
  split; [intros items; apply add_items_keeps_tracked|].
  split; [intros r; apply orchestrator_keeps; intros; apply add_items_keeps_tracked|].
  split; [intros u r; apply endpoint_keeps; intros; apply add_items_keeps_tracked|].
  intros items w e w' docs wb E Hb.
  split; [now apply add_items_raised in E|].
  apply add_items_cases in E as (_ & [(e' & _ & _ & Hb')|(docs' & wb' & Hb' & Hd & _)]).
  - congruence.
  - rewrite Hb in Hb'. injection Hb' as <- _. exact Hd.
Qed.

Lemma collection_follows_the_tracking_list_witness :
  let run := VectorStore.add_items env_indexed [item_dict email_item] fresh_world in
  ∃ e docs wb,
    run = (Raised e, final run)
    ∧ VectorStore.build_documents env_indexed [item_dict email_item] fresh_world
      = (Ok docs, wb)
    ∧ vector_db (vector_store (final run)) = vector_db (vector_store fresh_world)
    ∧ documents (vector_store (final run))
      = documents (vector_store fresh_world) ++ docs.
Proof.
  intros run.
  assert (run = (Raised ValueError, final run)) as E by (vm_compute; reflexivity).
  destruct (VectorStore.build_documents env_indexed [item_dict email_item] fresh_world)
    as [[docs|e] wb] eqn:Hb; [|vm_compute in Hb; discriminate Hb].
  exists ValueError, docs, wb. split; [exact E|]. split; [reflexivity|].
  exact (proj2 (proj2 (proj2 (proj2 (proj2 (proj2
           (collection_follows_the_tracking_list env_indexed))))))
           _ _ _ _ _ _ E Hb).
Defined.
(** ** The chunks of an item *)

Lemma type_fields_keys item :
  Forall (λ kv : string * pyval,
            kv.1 ∈ ["subject"; "sender"; "date"; "title"; "last_edited"; "name"])
    (VectorStore.type_fields item).
Proof.
  unfold VectorStore.type_fields.
  repeat case_match; repeat constructor.
Qed.

Lemma type_fields_other item k :
  k ∉ ["subject"; "sender"; "date"; "title"; "last_edited"; "name"] →
  Forall (λ kv : string * pyval, kv.1 ≠ k) (VectorStore.type_fields item).
Proof.
  intros Hk. eapply Forall_impl; [apply type_fields_keys|].
  intros kv Hin Heq. cbv beta in Hin. rewrite Heq in Hin. contradiction.
Qed.

Ltac not_a_type_field :=
  let H := fresh in
  intros H; repeat (apply elem_of_cons in H as [H|H]; [discriminate|]); inversion H.

Lemma item_documents_describe env item acc w res w' :
  VectorStore.item_documents env item acc w = (Ok res, w') →
  ∃ docs, res = acc ++ docs
    ∧ Forall (λ d, describes env item d ∧ doc_metadata d !! "score" = None) docs.
Proof.
  intros H. apply item_documents_inv in H as [[-> _]|(s & Hs & _ & ->)].
  - exists []. now rewrite app_nil_r.
  - eexists. split; [reflexivity|]. apply Forall_forall. intros d Hd.
    unfold VectorStore.chunk_documents in Hd.
    apply elem_of_lookup_imap in Hd as (i & text & -> & Hi). cbn [doc_metadata].
    split.
    + exists s, i. cbn [page_content doc_metadata]. split; [exact Hs|].
      split; [exact Hi|].
      split; [rewrite lookup_insert_ne by done; apply lookup_insert_eq|].
      split; [apply lookup_insert_eq|].
      split.
      * rewrite !lookup_insert_ne by done.
        rewrite assign_all_other by (apply type_fields_other; not_a_type_field).
        apply lookup_insert_eq.
      * rewrite !lookup_insert_ne by done.
        rewrite assign_all_other by (apply type_fields_other; not_a_type_field).
        rewrite lookup_insert_ne by done. apply lookup_insert_eq.
    + rewrite !lookup_insert_ne by done.
      rewrite assign_all_other by (apply type_fields_other; not_a_type_field).
      rewrite !lookup_insert_ne by done. now apply lookup_singleton_ne.
Qed.

Lemma for_each_documents_describe env items (Q : Document → Prop) :
  (∀ item d, item ∈ items → describes env item d ∧ doc_metadata d !! "score" = None →
             Q d) →
  ∀ acc w res w',
    for_each items (VectorStore.item_documents env) acc w = (Ok res, w') →
    ∃ docs, res = acc ++ docs ∧ Forall Q docs.
Proof.
  induction items as [|item items IH]; intros HQ acc w res w' H.
  - cbn in H. run_inv. exists []. now rewrite app_nil_r.
  - cbn [for_each] in H. apply bind_inv in H as (acc1 & w1 & Hi & H).
    apply item_documents_describe in Hi as (d1 & -> & Hd1).
    apply IH in H as (d2 & -> & Hd2).
    2:{ intros it d Hit. apply HQ. now right. }
    exists (d1 ++ d2). rewrite app_assoc. split; [reflexivity|].
    apply Forall_app. split; [|exact Hd2].
    eapply Forall_impl; [exact Hd1|]. intros d. apply HQ. now left.
Qed.

(** X12.  Every chunk a call of [add_items] adds comes from one of the items of
    the call: its text is the [chunk]-th piece of that item's content, it
    records how many pieces the content has, and it carries the item's
    [source] and [type] (["unknown"] when the item has none). *)
Theorem stored_chunks_describe_their_items env items w w' :
  VectorStore.add_items env items w = (Ok tt, w') →
  ∃ docs,
    documents (vector_store w') = documents (vector_store w) ++ docs
    ∧ Forall (λ d, ∃ item, item ∈ items ∧ describes env item d) docs.
Proof.
  intros H. apply add_items_inv in H as (docs & wb & Hb & Hd & _).
  exists docs. split; [exact Hd|].
  unfold VectorStore.build_documents in Hb.
  eapply (for_each_documents_describe env items) in Hb as (docs' & -> & HF);
    [exact HF|].
  intros item d Hin [Hdesc _]. eauto.
Qed.

Lemma stored_chunks_describe_their_items_witness :
  ∃ w' docs,
    VectorStore.add_items env_crm [item_dict opportunity_item] fresh_world = (Ok tt, w')
    ∧ documents (vector_store w') = documents (vector_store fresh_world) ++ docs
    ∧ Forall (λ d, ∃ item, item ∈ [item_dict opportunity_item]
                           ∧ describes env_crm item d) docs.
Proof.
  eexists.
  assert (∀ w, w = (VectorStore.add_items env_crm [item_dict opportunity_item]
                      fresh_world).2 →
    VectorStore.add_items env_crm [item_dict opportunity_item] fresh_world = (Ok tt, w))
    as E.
  { intros w ->. vm_compute. reflexivity. }
  specialize (E _ eq_refl).
  destruct (stored_chunks_describe_their_items _ _ _ _ E) as (docs & Hd & HF).
  exists docs. split; [exact E|]. split; assumption.
Defined.
(** ** The responses of the orchestrator *)

Lemma aggregation_source env r w resp w' :
  ContextService.get_context env r w = (Ok resp, w') →
  resp_source resp = "vibecoding-mcp" ∧ resp_query resp = query r.
Proof.
  intros H. destruct (ContextService.days_back_of env r) as [d|e] eqn:Hd.
  - destruct (get_context_run env r w d Hd)
      as (z & g & k & f & w1 & w2 & w3 & w4 & _ & _ & _ & _ & E).
    rewrite E in H. inversion H; subst. auto.
  - unfold ContextService.get_context in H.
    rewrite (bind_raised _ _ _ e w) in H; [discriminate|].
    rewrite lift_run, Hd. reflexivity.
Qed.

(** The runs of the orchestrator that answer from the index. *)
Lemma vector_response_inv env r w resp w' :
  VectorContextService.get_context env r w = (Ok resp, w') →
  resp_source resp = "vibecoding-mcp-vector" →
  ∃ q w1 h hits vec w2,
    query r = Some q ∧ q ≠ ""
    ∧ ensure_initialized env w = (Ok tt, w1)
    ∧ VectorStore.search env q (Some (filter_criteria_of r)) (int_or (limit r) 10) w1
      = (Ok (h :: hits), w1)
    ∧ items_of_hits env (h :: hits) w1 = (Ok vec, w2)
    ∧ resp_query resp = Some q
    ∧ ((include_fresh r = false ∧ context_items resp = vec)
       ∨ (include_fresh r = true
          ∧ ∃ fresh w3 ids,
              ContextService.get_context env r w2 = (Ok fresh, w3)
              ∧ existing_ids_of vec = Ok ids
              ∧ context_items resp = merge_fresh (context_items fresh) vec ids)).
Proof.
  unfold VectorContextService.get_context. intros H Hsrc.
  apply bind_inv in H as ([] & w1 & Hi & H).
  destruct (query r) as [q|] eqn:Hq; cbn [str_truthy default id] in H.
  2:{ cbn in H. apply aggregation_source in H as [H _]. congruence. }
  destruct (String.eqb q "") eqn:Hne; cbn [negb] in H.
  { apply aggregation_source in H as [H _]. congruence. }
  apply String.eqb_neq in Hne.
  apply bind_inv in H as (hits & w1' & Hs & H).
  destruct (search_run env q (Some (filter_criteria_of r)) (int_or (limit r) 10) w1)
    as (hits' & Hs').
  rewrite Hs' in Hs. injection Hs as -> <-.
  destruct hits as [|h hits].
  { apply aggregation_source in H as [H _]. congruence. }
  apply bind_inv in H as (vec & w2 & Hv & H).
  exists q, w1, h, hits, vec, w2. do 5 (split; [first [reflexivity|assumption]|]).
  apply bind_inv in H as (items & w3 & Hm & H).
  apply bind_inv in H as (ts & w4 & _ & H).
  unfold ret in H. injection H as <- _. cbn [resp_query context_items].
  split; [reflexivity|].
  destruct (include_fresh r).
  - right. split; [reflexivity|].
    apply bind_inv in Hm as (fresh & w3' & Hf & Hm).
    apply bind_inv in Hm as (ids & w3'' & Hids & Hm).
    unfold lift in Hids. injection Hids as Hids <-.
    unfold ret in Hm. injection Hm as <- <-. eauto 10.
  - left. unfold ret in Hm. injection Hm as <- _. auto.
Qed.

Lemma items_of_hits_rebuilt env hits w vec w' :
  items_of_hits env hits w = (Ok vec, w') → Forall2 (rebuilt env) hits vec.
Proof.
  unfold items_of_hits. intros H.
  eapply (for_each_one_each (rebuilt env)) in H as (ys & -> & HF); [exact HF|].
  clear. intros h acc w acc' w' H. cbv beta zeta in H.
  apply bind_inv in H as (it & w1 & Hinit & H).
  unfold ret in H. injection H as <- _. exists it. split; [reflexivity|].
  unfold ContextItem_init in Hinit.
  apply bind_inv in Hinit as (ts & w0 & Hts & Hinit).
  unfold timestamp_field in Hts.
  apply bind_inv in Hts as (t & w00 & _ & Hts). unfold ret in Hts.
  injection Hts as <- _.
  unfold lift, obind in Hinit. cbn [str_field] in Hinit.
  unfold rebuilt.
  destruct (str_field env (dict_get_or (hit_metadata h) "type" (VStr "unknown")));
    [|discriminate].
  destruct (str_field env (dict_get_or (hit_metadata h) "source" (VStr "unknown")));
    [|discriminate].
  injection Hinit as <- _. cbn. eauto 10.
Qed.

(** The sample request with a query is answered from the index. *)
Lemma sample_vector_run :
  ∃ resp w',
    VectorContextService.get_context env_crm request_alpha fresh_world = (Ok resp, w')
    ∧ resp_source resp = "vibecoding-mcp-vector".
Proof. vm_compute. eauto. Qed.

(** X13.  A response that the orchestrator answers from the index (its [source]
    is ["vibecoding-mcp-vector"]) starts with one item for each search hit,
    in the order of the hits and not sorted by time: a plain [ContextItem]
    with the text of the chunk, the chunk's metadata with the score added
    under ["vector_score"], the chunk's [type] and [source], and a fresh
    timestamp; the typed fields of the original item (subject, sender,
    identifiers, ...) are not rebuilt.  Without [include_fresh] nothing
    follows these items. *)
Theorem vector_response_rebuilds_plain_items env r w resp w' :
  VectorContextService.get_context env r w = (Ok resp, w') →
  resp_source resp = "vibecoding-mcp-vector" →
  ∃ q w1 hits vec added,
    query r = Some q
    ∧ ensure_initialized env w = (Ok tt, w1)
    ∧ VectorStore.search env q (Some (filter_criteria_of r)) (int_or (limit r) 10) w1
      = (Ok hits, w1)
    ∧ hits ≠ []
    ∧ context_items resp = vec ++ added
    ∧ Forall2 (rebuilt env) hits vec
    ∧ (include_fresh r = false → added = [])
    ∧ resp_query resp = query r.
Proof.
  intros H Hsrc.
  destruct (vector_response_inv _ _ _ _ _ H Hsrc)
    as (q & w1 & h & hits & vec & w2 & Hq & _ & Hi & Hs & Hv & Hrq & Hitems).
  apply items_of_hits_rebuilt in Hv.
  destruct Hitems as [[Hf ->]|(Hf & fresh & w3 & ids & _ & _ & ->)].
  - exists q, w1, (h :: hits), vec, []. rewrite app_nil_r.
    repeat split; auto; congruence.
  - destruct (merge_fresh_spec (context_items fresh) vec ids)
      as (added & -> & _).
    exists q, w1, (h :: hits), vec, added.
    repeat split; auto; congruence.
Qed.

Lemma vector_response_rebuilds_plain_items_witness :
  ∃ resp w',
    VectorContextService.get_context env_crm request_alpha fresh_world = (Ok resp, w')
    ∧ ∃ q w1 hits vec added,
        query request_alpha = Some q
        ∧ ensure_initialized env_crm fresh_world = (Ok tt, w1)
        ∧ VectorStore.search env_crm q (Some (filter_criteria_of request_alpha))
            (int_or (limit request_alpha) 10) w1 = (Ok hits, w1)
        ∧ hits ≠ []
        ∧ context_items resp = vec ++ added
        ∧ Forall2 (rebuilt env_crm) hits vec
        ∧ (include_fresh request_alpha = false → added = [])
        ∧ resp_query resp = query request_alpha.
Proof.
  destruct sample_vector_run as (resp & w' & Hr & Hs).
  exists resp, w'. split; [exact Hr|].
  exact (vector_response_rebuilds_plain_items _ _ _ _ _ Hr Hs).
Defined.

Lemma orchestrator_response_inv env r w resp w' :
  VectorContextService.get_context env r w = (Ok resp, w') →
  (∃ w1, ContextService.get_context env r w1 = (Ok resp, w'))
  ∨ resp_source resp = "vibecoding-mcp-vector".
Proof.
  unfold VectorContextService.get_context. intros H.
  apply bind_inv in H as ([] & w1 & Hi & H).
  destruct (negb (str_truthy (query r))); [eauto|].
  apply bind_inv in H as (hits & w1' & Hs & H).
  destruct hits as [|h hits]; [eauto|]. right.
  apply bind_inv in H as (vec & w2 & Hv & H).
  apply bind_inv in H as (items & w3 & Hm & H).
  apply bind_inv in H as (ts & w4 & _ & H).
  unfold ret in H. now injection H as <- _.
Qed.

Lemma search_length env q fc k w hits w' :
  backend_respects_k env →
  VectorStore.search env q fc k w = (Ok hits, w') →
  (Z.of_nat (length hits) ≤ Z.max 0 k)%Z.
Proof.
  intros Hk. unfold VectorStore.search, bind, get_store.
  destruct (vector_db (vector_store w)) as [db|];
    [|unfold ret; intros [= <- _]; cbn; lia].
  destruct (documents (vector_store w));
    [unfold ret; intros [= <- _]; cbn; lia|].
  unfold try_except, lift, ret.
  destruct (similarity_search env db q k (VectorStore.search_filter fc))
    as [docs|e] eqn:Es; intros [= <- _]; [|cbn; lia].
  rewrite length_fmap. eapply Hk, Es.
Qed.

(** X14.  Without [include_fresh], and with a backend that answers with at most
    [k] chunks, a response of the orchestrator has at most [limit] items,
    for a positive [limit], whether it comes from the index or from the
    aggregation engine. *)
Theorem orchestrator_respects_limit_without_fresh env r n w resp w' :
  backend_respects_k env →
  include_fresh r = false →
  limit r = Some n → (0 < n)%Z →
  VectorContextService.get_context env r w = (Ok resp, w') →
  (Z.of_nat (length (context_items resp)) ≤ n)%Z.
Proof.
  intros Hk Hf Hl Hn H.
  destruct (orchestrator_response_inv _ _ _ _ _ H) as [(w1 & Ha)|Hsrc].
  { eapply get_context_respects_limit; eauto. }
  destruct (vector_response_inv _ _ _ _ _ H Hsrc)
    as (q & w1 & h & hits & vec & w2 & _ & _ & _ & Hs & Hv & _ & Hitems).
  destruct Hitems as [[_ ->]|[Hf' _]]; [|congruence].
  apply items_of_hits_rebuilt, Forall2_length in Hv. rewrite <- Hv.
  pose proof (search_length _ _ _ _ _ _ _ Hk Hs) as Hlen.
  rewrite Hl in Hlen. unfold int_or in Hlen.
  destruct (n =? 0)%Z eqn:E0; [apply Z.eqb_eq in E0; lia|]. lia.
Qed.

Lemma first_k_backend_respects_k env :
  similarity_search env = first_k_backend → backend_respects_k env.
Proof.
  intros Hb db q k f docs. rewrite Hb. unfold first_k_backend. intros [= <-].
  rewrite length_take. lia.
Qed.

Lemma orchestrator_respects_limit_without_fresh_witness :
  ∃ resp w',
    VectorContextService.get_context env_crm request_alpha fresh_world = (Ok resp, w')
    ∧ (Z.of_nat (length (context_items resp)) ≤ 5)%Z.
Proof.
  destruct sample_vector_run as (resp & w' & Hr & _).
  exists resp, w'. split; [exact Hr|].
  apply (orchestrator_respects_limit_without_fresh env_crm request_alpha 5
           fresh_world resp w').
  - now apply first_k_backend_respects_k.
  - reflexivity.
  - reflexivity.
  - lia.
  - exact Hr.
Defined.

(** X15.  A response answered from the index never holds an opportunity, an
    account or a contact, even with [include_fresh]: the items rebuilt from
    the hits are plain items, and the merge of the fresh items only takes
    e-mails, meetings and documents that have an identifier. *)
Theorem vector_response_has_no_crm_item env r w resp w' :
  VectorContextService.get_context env r w = (Ok resp, w') →
  resp_source resp = "vibecoding-mcp-vector" →
  Forall (λ it, crm_item it = false) (context_items resp).
Proof.
  intros H Hsrc.
  destruct (vector_response_inv _ _ _ _ _ H Hsrc)
    as (q & w1 & h & hits & vec & w2 & _ & _ & _ & _ & Hv & _ & Hitems).
  apply items_of_hits_rebuilt in Hv.
  assert (Forall (λ it, crm_item it = false) vec) as Hvec.
  { clear -Hv. induction Hv as [|hit it ? ? (Hb & _) _ IH]; constructor; [|exact IH].
    unfold crm_item. now rewrite Hb. }
  destruct Hitems as [[_ ->]|(_ & fresh & w3 & ids & _ & _ & ->)]; [exact Hvec|].
  destruct (merge_fresh_spec (context_items fresh) vec ids)
    as (added & -> & _ & _ & Hin & _).
  apply Forall_app. split; [exact Hvec|].
  apply Forall_forall. intros it Hit.
  destruct (Hin it Hit) as (i & Hid & Hne & _).
  unfold item_id in Hid. unfold crm_item.
  destruct (detail it); try reflexivity; congruence.
Qed.

Lemma vector_response_has_no_crm_item_witness :
  ∃ resp w',
    VectorContextService.get_context env_crm request_alpha fresh_world = (Ok resp, w')
    ∧ Forall (λ it, crm_item it = false) (context_items resp).
Proof.
  destruct sample_vector_run as (resp & w' & Hr & Hs).
  exists resp, w'. split; [exact Hr|].
  exact (vector_response_has_no_crm_item _ _ _ _ _ Hr Hs).
Defined.

(** ** The scores of the hits *)

Lemma add_items_keeps_unscored env items :
  unscored_directory env →
  keeps unscored (VectorStore.add_items env items).
Proof.
  intros Hdir w o w' HP E.
  apply add_items_cases in E as (_ & [(e & _ & -> & _)|(docs & wb & Hb & _ & Hv)]);
    [exact HP|].
  intros db Hdb. destruct Hv as [[_ Hv]|[_ Hv]]; rewrite Hv in Hdb; [|now apply HP].
  injection Hdb as <-.
  apply Forall_app. split.
  - unfold collection_of.
    destruct (vector_db (vector_store w)) as [db|] eqn:Edb; [now apply HP|exact Hdir].
  - unfold VectorStore.build_documents in Hb.
    eapply (for_each_documents_describe env items) in Hb as (docs' & -> & HF);
      [exact HF|].
    now intros item d _ [_ Hd].
Qed.

Lemma search_scores_zero env q fc k w hits w' :
  backend_returns_stored env → unscored (vector_store w) →
  VectorStore.search env q fc k w = (Ok hits, w') →
  Forall (λ h, hit_score h = VFloat 0) hits.
Proof.
  intros Hback Hun. unfold VectorStore.search, bind, get_store.
  destruct (vector_db (vector_store w)) as [db|] eqn:Edb;
    [|unfold ret; intros [= <- _]; constructor].
  destruct (documents (vector_store w));
    [unfold ret; intros [= <- _]; constructor|].
  unfold try_except, lift, ret.
  destruct (similarity_search env db q k (VectorStore.search_filter fc))
    as [docs|e] eqn:Es; intros [= <- _]; [|constructor].
  apply Forall_fmap, Forall_forall. intros doc Hd. cbn.
  apply (Hback _ _ _ _ _ Es) in Hd.
  pose proof (Hun db Edb) as Hall. rewrite Forall_forall in Hall.
  unfold dict_get_or. now rewrite (Hall doc Hd).
Qed.

(** No operation of the index, the orchestrator or the handler ever writes
    a ["score"] into the metadata of a chunk. *)
Lemma unscored_is_kept env :
  unscored_directory env →
  unscored (vector_store fresh_world)
  ∧ (∀ items, keeps unscored (VectorStore.add_items env items))
  ∧ (∀ d, keeps unscored (initialize env d))
  ∧ (∀ r, keeps unscored (VectorContextService.get_context env r))
  ∧ (∀ u r, keeps unscored (Main.get_context env u r)).
Proof.
  intros Hdir.
  split; [intros db [=]|]. split; [intros items; apply add_items_keeps_unscored, Hdir|].
  split; [intros d; apply initialize_keeps; intros; apply add_items_keeps_unscored, Hdir|].
  split; [intros r; apply orchestrator_keeps; intros; apply add_items_keeps_unscored, Hdir|].
  intros u r. apply endpoint_keeps. intros; apply add_items_keeps_unscored, Hdir.
Qed.

(** X16.  The relevance score the orchestrator reports is constant.  With a
    backend that answers with chunks of the collection, on an index filled
    by this program (no chunk of the directory and none of the collection
    has a ["score"] in its metadata, which every operation keeps), every
    item rebuilt from a search hit has [vector_score] 0.0. *)
Theorem vector_score_is_always_zero env r w resp w' :
  backend_returns_stored env →
  unscored_directory env →
  unscored (vector_store w) →
  VectorContextService.get_context env r w = (Ok resp, w') →
  resp_source resp = "vibecoding-mcp-vector" →
  Forall (λ it, detail it = Base → metadata it !! "vector_score" = Some (VFloat 0))
    (context_items resp)
  ∧ unscored (vector_store w').
Proof.
  intros Hback Hdir Hun H Hsrc.
  split;
    [|eapply orchestrator_keeps; eauto; intros; apply add_items_keeps_unscored, Hdir].
  destruct (vector_response_inv _ _ _ _ _ H Hsrc)
    as (q & w1 & h & hits & vec & w2 & _ & _ & Hi & Hs & Hv & _ & Hitems).
  assert (unscored (vector_store w1)) as Hun1.
  { eapply ensure_initialized_keeps; eauto.
    intros; apply add_items_keeps_unscored, Hdir. }
  pose proof (search_scores_zero _ _ _ _ _ _ _ Hback Hun1 Hs) as Hz.
  apply items_of_hits_rebuilt in Hv.
  assert (Forall (λ it, metadata it !! "vector_score" = Some (VFloat 0)) vec) as Hvec.
  { clear -Hv Hz. induction Hv as [|hit it ? ? (_ & _ & Hm & _) _ IH];
      constructor; inversion Hz; subst; [|auto].
    rewrite Hm. rewrite lookup_insert_eq. congruence. }
  destruct Hitems as [[_ ->]|(_ & fresh & w3 & ids & _ & _ & ->)].
  { eapply Forall_impl; [exact Hvec|]. auto. }
  destruct (merge_fresh_spec (context_items fresh) vec ids)
    as (added & -> & _ & _ & Hin & _).
  apply Forall_app. split; [eapply Forall_impl; [exact Hvec|]; auto|].
  apply Forall_forall. intros it Hit Hb.
  destruct (Hin it Hit) as (i & Hid & Hne & _).
  unfold item_id in Hid. rewrite Hb in Hid. congruence.
Qed.

Lemma first_k_backend_returns_stored env :
  similarity_search env = first_k_backend → backend_returns_stored env.
Proof.
  intros Hb db q k f docs. rewrite Hb. unfold first_k_backend. intros [= <-] doc Hd.
  apply subseteq_take in Hd.
  apply list_elem_of_In, List.filter_In in Hd as [Hd _].
  now apply list_elem_of_In.
Qed.

Lemma vector_score_is_always_zero_witness :
  ∃ resp w',
    VectorContextService.get_context env_crm request_alpha fresh_world = (Ok resp, w')
    ∧ Forall (λ it, detail it = Base → metadata it !! "vector_score" = Some (VFloat 0))
        (context_items resp)
    ∧ unscored (vector_store w').
Proof.
  destruct sample_vector_run as (resp & w' & Hr & Hs).
  exists resp, w'. split; [exact Hr|].
  apply (vector_score_is_always_zero env_crm request_alpha fresh_world resp w').
  - now apply first_k_backend_returns_stored.
  - constructor.
  - intros db Hdb. discriminate Hdb.
  - exact Hr.
  - exact Hs.
Defined.

(** ** The bootstrap *)

(** X17.  On an initialized service [initialize] does nothing.  Otherwise it
    asks the aggregation engine for the four sources with limit 100, which
    answers with at most 100 items, and hands them to the index.  When the
    index takes their chunks, the collection holds them after what it held
    and the service is initialized, so the bootstrap does not run again.
    When the index raises, [initialize] raises the same error, the
    collection is as it was and the service stays uninitialized, so the
    next call runs the bootstrap again. *)
Theorem bootstrap_runs_once env d w :
  (initialized w = true → initialize env d w = (Ok tt, w))
  ∧ (initialized w = false →
     ∃ resp w0,
       ContextService.get_context env (bootstrap_request d) w = (Ok resp, w0)
       ∧ length (context_items resp) ≤ 100
       ∧ ((∃ w1 docs,
              initialize env d w = (Ok tt, w1)
              ∧ initialized w1 = true
              ∧ (∀ d', initialize env d' w1 = (Ok tt, w1))
              ∧ page_content <$> docs
                = chunk_texts env (item_dict <$> context_items resp)
              ∧ documents (vector_store w1) = documents (vector_store w) ++ docs
              ∧ vector_db (vector_store w1)
                = Some (collection_of env (vector_store w) ++ docs))
          ∨ (∃ e w1,
                initialize env d w = (Raised e, w1)
                ∧ VectorStore.add_items env (item_dict <$> context_items resp) w0
                  = (Raised e, w1)
                ∧ initialized w1 = false
                ∧ vector_db (vector_store w1) = vector_db (vector_store w)))).
Proof.
  assert (∀ w0 d0, initialized w0 = true → initialize env d0 w0 = (Ok tt, w0)) as Hdone.
  { intros w0 d0 Hw0. unfold initialize. erewrite bind_run by reflexivity.
    now rewrite Hw0. }
  split; [apply Hdone|]. intros Hinit.
  unfold initialize. erewrite bind_run by reflexivity. rewrite Hinit.
  fold (bootstrap_request d).
  assert (days_back_of env (bootstrap_request d) = Ok d) as Hd by reflexivity.
  destruct (get_context_run env (bootstrap_request d) w d Hd)
    as (z & g & n & f & u1 & u2 & u3 & u4 & _ & _ & _ & _ & E).
  rewrite (bind_run _ _ _ _ _ E).
  destruct (get_context_preserves env _ _ _ _ E) as [Es Ei].
  eexists _, _. split; [exact E|]. cbn [context_items].
  split.
  { pose proof (apply_limit_length 100
       (sort_desc sort_key (z ++ g ++ n ++ f)) ltac:(lia)). cbn [limit bootstrap_request]. lia. }
  match goal with |- context [VectorStore.add_items env (item_dict <$> ?l)] =>
    destruct (VectorStore.add_items env (item_dict <$> l) (tick u4))
      as [[[]|e] w5] eqn:Ea end.
  - left. rewrite (bind_run _ _ _ _ _ Ea). unfold set_initialized.
    apply add_items_inv in Ea as (docs & wb & Hb & Hdocs & Hdb).
    eexists _, docs. split; [reflexivity|]. cbn [initialized vector_store].
    split; [reflexivity|]. split; [intros d'; now apply Hdone|].
    split; [eapply build_documents_texts, Hb|].
    rewrite Hdocs, Hdb. unfold collection_of. rewrite Es. auto.
  - right. unfold bind at 1. rewrite Ea.
    apply add_items_raised in Ea as [Hv Hi].
    exists e, w5. split; [reflexivity|]. split; [reflexivity|].
    rewrite Hi, Hv. rewrite Es, Ei. auto.
Qed.

(** At the sample inputs: the opportunity of the CRM is taken and the
    service is initialized; the thread of the mailbox, whose chunk carries a
    date, is refused and the service stays uninitialized. *)
Lemma bootstrap_runs_once_witness :
  (∃ w1, initialize env_crm 30 fresh_world = (Ok tt, w1)
         ∧ initialized w1 = true
         ∧ (page_content <$> documents (vector_store w1))
           = ["Opportunity: Beta pilot, Stage: Open, Amount: None"])
  ∧ (∃ w1, initialize env_indexed 30 fresh_world = (Raised ValueError, w1)
           ∧ initialized w1 = false
           ∧ vector_db (vector_store w1) = None).
Proof.
  split.
  - destruct (bootstrap_runs_once env_crm 30 fresh_world) as [_ H].
    destruct (H eq_refl) as (resp & w0 & _ & _ & [(w1 & docs & E & Hi & _)|(e & w1 & E & _)]).
    + exists w1. split; [exact E|]. split; [exact Hi|].
      apply (f_equal snd) in E. cbn [snd] in E. subst w1. vm_compute. reflexivity.
    + exfalso. apply (f_equal fst) in E. vm_compute in E. discriminate.
  - destruct (bootstrap_runs_once env_indexed 30 fresh_world) as [_ H].
    destruct (H eq_refl) as (resp & w0 & _ & _ & [(w1 & docs & E & _)|(e & w1 & E & _ & Hi & Hv)]).
    + exfalso. apply (f_equal fst) in E. vm_compute in E. discriminate.
    + exists w1. split; [|split; [exact Hi|exact Hv]].
      rewrite E. f_equal. f_equal. apply (f_equal fst) in E. vm_compute in E.
      injection E as <-. reflexivity.
Defined.
(** ** Requests that list no source *)

Lemma aggregation_ignores_permissions p env r :
  ContextService.get_context (with_permission p env) r = ContextService.get_context env r.
Proof. reflexivity. Qed.

Lemma orchestrator_ignores_permissions p env r :
  VectorContextService.get_context (with_permission p env) r
  = VectorContextService.get_context env r.
Proof. reflexivity. Qed.

Lemma add_to_index_ignores_permissions p env items :
  add_to_index (with_permission p env) items = add_to_index env items.
Proof. reflexivity. Qed.

(** X19.  A request that lists no source ([sources] absent or empty) is answered
    from all four sources without any permission being checked: the answer
    of the endpoint is the same whatever the permission table says. *)
Theorem unlisted_sources_are_not_checked env p u r w :
  sources r = None ∨ sources r = Some [] →
  enabled_sources r = ["zoom"; "gmail"; "notion"; "salesforce"]
  ∧ Main.get_context (with_permission p env) u r w = Main.get_context env u r w.
Proof.
  intros Hs. split.
  { unfold enabled_sources. destruct Hs as [-> | ->]; reflexivity. }
  unfold Main.get_context.
  assert (default [] (sources r) = []) as -> by (destruct Hs as [-> | ->]; reflexivity).
  cbn [Main.check_sources].
  rewrite orchestrator_ignores_permissions, aggregation_ignores_permissions.
  reflexivity.
Qed.

Lemma unlisted_sources_are_not_checked_witness :
  enabled_sources request_plain = ["zoom"; "gmail"; "notion"; "salesforce"]
  ∧ Main.get_context (with_permission (λ _ _, false) env_indexed) "user"
      request_plain fresh_world
    = Main.get_context env_indexed "user" request_plain fresh_world.
Proof.
  apply (unlisted_sources_are_not_checked env_indexed (λ _ _, false) "user"
           request_plain fresh_world).
  left. reflexivity.
Defined.

(** ** Authentication and permissions *)

Lemma users_db_lookup name entry :
  AuthService.USERS_DB !! name = Some entry →
  AuthService.entry_username entry = name
  ∧ AuthService.entry_disabled entry = false
  ∧ (name = "admin" ∨ name = "sales")
  ∧ AuthService.entry_permissions entry
    = {[ "zoom" := true; "gmail" := true; "notion" := true; "salesforce" := true ]}
  ∧ (AuthService.entry_password entry = "admin123" ↔ name = "admin")
  ∧ (AuthService.entry_password entry = "sales123" ↔ name = "sales").
Proof.
  unfold AuthService.USERS_DB. intros H.
  apply lookup_insert_Some in H as [[<- <-]|[_ H]].
  { cbn. repeat split; auto; discriminate. }
  apply lookup_singleton_Some in H as [<- <-].
  cbn. repeat split; auto; discriminate.
Qed.

Lemma four_sources_lookup (s : string) :
  ({[ "zoom" := true; "gmail" := true; "notion" := true; "salesforce" := true ]}
     : gmap string bool) !! s
  = if bool_decide (s ∈ ["zoom"; "gmail"; "notion"; "salesforce"]) then Some true
    else None.
Proof.
  destruct (decide (s = "zoom")) as [->|H1]; [reflexivity|].
  destruct (decide (s = "gmail")) as [->|H2]; [reflexivity|].
  destruct (decide (s = "notion")) as [->|H3]; [reflexivity|].
  destruct (decide (s = "salesforce")) as [->|H4]; [reflexivity|].
  rewrite !lookup_insert_ne by congruence.
  rewrite lookup_singleton_ne by congruence.
  rewrite bool_decide_eq_false_2; [reflexivity|].
  intros Hin. repeat (apply elem_of_cons in Hin as [Hin|Hin]; [congruence|]).
  inversion Hin.
Qed.

Lemma decode_inv jose token p :
  AuthService.decode jose token = Some p →
  AuthService.jwt_decode jose token = Some p
  ∧ (p !! "sub" = None ∨ ∃ s, p !! "sub" = Some (VStr s)).
Proof.
  unfold AuthService.decode.
  destruct (AuthService.jwt_decode jose token) as [c|]; [|discriminate].
  destruct (c !! "sub") as [[]|] eqn:Es; intros [= <-]; eauto.
Qed.


Lemma get_current_user_inv env jose token user :
  AuthService.get_current_user env jose token = Ok user →
  ∃ p name entry,
    AuthService.decode jose token = Some p
    ∧ p !! "sub" = Some (VStr name)
    ∧ AuthService.USERS_DB !! name = Some entry
    ∧ user = AuthService.User_of entry.
Proof.
  unfold AuthService.get_current_user. intros H.
  destruct (AuthService.decode jose token) as [p|] eqn:Ed; [|discriminate].
  destruct (decode_inv _ _ _ Ed) as [_ [Es|[name Es]]];
    unfold dict_get in H; rewrite Es in H; cbn in H; [discriminate|].
  destruct (AuthService.USERS_DB !! name) as [entry|] eqn:El; [|discriminate].
  injection H as <-. exists p, name, entry. auto.
Qed.

(** A token is refused with 401 and nothing else. *)
Lemma get_current_user_raised env jose token e :
  AuthService.get_current_user env jose token = Raised e → e = HTTPException 401.
Proof.
  unfold AuthService.get_current_user. intros H.
  destruct (AuthService.decode jose token) as [p|] eqn:Ed; [|now injection H as <-].
  destruct (decode_inv _ _ _ Ed) as [_ [Es|[name Es]]];
    unfold dict_get in H; rewrite Es in H; cbn in H; [now injection H as <-|].
  destruct (AuthService.USERS_DB !! name); [discriminate|now injection H as <-].
Qed.

(** X20.  What the users of the program may read.  A user that
    [get_current_user] accepts is active, and is permitted a source exactly
    when the source name is not empty and either the user is [admin], who
    may read a source of any name, or the source is one of zoom, gmail,
    notion and salesforce. *)
Theorem authenticated_user_permissions env jose token user :
  AuthService.get_current_user env jose token = Ok user →
  AuthService.get_current_active_user user = Ok user
  ∧ ∀ s, AuthService.check_permission (Some user) s = true
         ↔ s ≠ "" ∧ (AuthService.username user = "admin"
                     ∨ s ∈ ["zoom"; "gmail"; "notion"; "salesforce"]).
Proof.
  intros H.
  destruct (get_current_user_inv _ _ _ _ H) as (p & name & entry & _ & _ & Hl & ->).
  destruct (users_db_lookup _ _ Hl) as (Hn & Hd & Hname & Hp & _).
  split.
  { unfold AuthService.get_current_active_user. cbn. now rewrite Hd. }
  intros s. unfold AuthService.check_permission. cbn [AuthService.User_of
    AuthService.username AuthService.permissions].
  destruct (String.eqb s "") eqn:Es.
  { apply String.eqb_eq in Es. split; [discriminate|]. intros [? _]. contradiction. }
  apply String.eqb_neq in Es.
  destruct (String.eqb (AuthService.entry_username entry) "admin") eqn:Ea.
  { apply String.eqb_eq in Ea. split; auto. }
  apply String.eqb_neq in Ea.
  rewrite Hp, four_sources_lookup.
  destruct (bool_decide (s ∈ ["zoom"; "gmail"; "notion"; "salesforce"])) eqn:Eb.
  - apply bool_decide_eq_true in Eb. cbn. split; auto.
  - apply bool_decide_eq_false in Eb. cbn. split; [discriminate|].
    intros [_ [?|?]]; contradiction.
Qed.

Lemma authenticated_user_permissions_witness :
  ∃ user,
    AuthService.get_current_user env_indexed sample_jose "sales" = Ok user
    ∧ AuthService.get_current_active_user user = Ok user
    ∧ ∀ s, AuthService.check_permission (Some user) s = true
           ↔ s ≠ "" ∧ (AuthService.username user = "admin"
                       ∨ s ∈ ["zoom"; "gmail"; "notion"; "salesforce"]).
Proof.
  eexists. split; [reflexivity|].
  apply (authenticated_user_permissions env_indexed sample_jose "sales").
  reflexivity.
Defined.

Lemma verify_user_inv name password user :
  AuthService.verify_user name password = Some user →
  ∃ entry, AuthService.USERS_DB !! name = Some entry
           ∧ AuthService.entry_password entry = password
           ∧ user = AuthService.User_of entry.
Proof.
  unfold AuthService.verify_user. intros H.
  destruct (AuthService.USERS_DB !! name) as [entry|]; [|discriminate].
  destruct (String.eqb (AuthService.entry_password entry) password) eqn:Ep;
    [|discriminate].
  apply String.eqb_eq in Ep. cbn [negb] in H.
  destruct (AuthService.entry_disabled entry); [discriminate|].
  injection H as <-. eauto.
Qed.




(** X22.  [/token] issues a token for [admin] with [admin123] and for [sales]
    with [sales123], and answers every other pair of name and password with
    401. *)
Theorem login_requires_a_stored_password jose name password :
  ((name = "admin" ∧ password = "admin123") ∨ (name = "sales" ∧ password = "sales123")
   → ∃ tok, AuthService.login_for_access_token jose name password = Ok tok)
  ∧ (¬ ((name = "admin" ∧ password = "admin123")
        ∨ (name = "sales" ∧ password = "sales123"))
     → AuthService.login_for_access_token jose name password
       = Raised (HTTPException 401)).
Proof.
  split.
  - intros [[-> ->]|[-> ->]]; eexists; reflexivity.
  - intros Hno. unfold AuthService.login_for_access_token.
    destruct (AuthService.verify_user name password) as [user|] eqn:Hv; [|reflexivity].
    exfalso. apply Hno.
    destruct (verify_user_inv _ _ _ Hv) as (entry & Hl & Hp & _).
    destruct (users_db_lookup _ _ Hl) as (_ & _ & [->| ->] & _ & Ha & Hs).
    + left. split; [reflexivity|]. rewrite <- Hp. now apply Ha.
    + right. split; [reflexivity|]. rewrite <- Hp. now apply Hs.
Qed.

Lemma login_requires_a_stored_password_witness :
  (∃ tok, AuthService.login_for_access_token sample_jose "admin" "admin123" = Ok tok)
  ∧ AuthService.login_for_access_token sample_jose "admin" "Admin123"
    = Raised (HTTPException 401).
Proof.
  split.
  - apply (proj1 (login_requires_a_stored_password sample_jose "admin" "admin123")).
    left. split; reflexivity.
  - reflexivity.
Defined.

(** X23.  The answers of [get_current_user].  The one error it raises is
    401, and it raises it for a token that does not verify, for one with no
    subject, for one whose subject is not text, which the JWT library
    refuses, and for one whose subject names no stored user.  A token whose
    subject names a stored user is answered with that user. *)
Theorem token_errors env jose token :
  (∀ e, AuthService.get_current_user env jose token = Raised e →
        e = HTTPException 401)
  ∧ (AuthService.jwt_decode jose token = None →
     AuthService.get_current_user env jose token = Raised (HTTPException 401))
  ∧ (∀ p, AuthService.jwt_decode jose token = Some p →
          p !! "sub" = None →
          AuthService.get_current_user env jose token = Raised (HTTPException 401))
  ∧ (∀ p v, AuthService.jwt_decode jose token = Some p →
            p !! "sub" = Some v → (∀ s, v ≠ VStr s) →
            AuthService.get_current_user env jose token = Raised (HTTPException 401))
  ∧ (∀ p name, AuthService.jwt_decode jose token = Some p →
               p !! "sub" = Some (VStr name) →
               AuthService.USERS_DB !! name = None →
               AuthService.get_current_user env jose token
               = Raised (HTTPException 401))
  ∧ (∀ p name entry, AuthService.jwt_decode jose token = Some p →
                     p !! "sub" = Some (VStr name) →
                     AuthService.USERS_DB !! name = Some entry →
                     AuthService.get_current_user env jose token
                     = Ok (AuthService.User_of entry)).
Proof.
  split; [apply get_current_user_raised|].
  unfold AuthService.get_current_user, AuthService.decode, dict_get.
  split; [now intros ->|].
  split; [intros p -> Hs; rewrite Hs; cbn; now rewrite Hs|].
  split.
  { intros p v -> -> Hv. destruct v; try reflexivity. now destruct (Hv s). }
  split; intros p name; [intros -> Hs Hl|intros entry -> Hs Hl];
    rewrite Hs; cbn; rewrite Hs; cbn; now rewrite Hl.
Qed.

Lemma token_errors_witness :
  AuthService.get_current_user env_crm jose_refusing "token"
  = Raised (HTTPException 401)
  ∧ AuthService.get_current_user env_crm jose_without_subject "token"
    = Raised (HTTPException 401)
  ∧ AuthService.get_current_user env_crm sample_jose "nobody"
    = Raised (HTTPException 401)
  ∧ (∃ entry, AuthService.USERS_DB !! "sales" = Some entry
              ∧ AuthService.get_current_user env_crm sample_jose "sales"
                = Ok (AuthService.User_of entry)).
Proof.
  split.
  { apply (proj1 (proj2 (token_errors env_crm jose_refusing "token"))).
    reflexivity. }
  split.
  { apply (proj1 (proj2 (proj2 (token_errors env_crm jose_without_subject "token")))
             {[ "exp" := VInt 0 ]}); reflexivity. }
  split.
  { apply (proj1 (proj2 (proj2 (proj2 (proj2
             (token_errors env_crm sample_jose "nobody")))))
             {[ "sub" := VStr "nobody" ]} "nobody"); reflexivity. }
  eexists. split; [reflexivity|].
  apply (proj2 (proj2 (proj2 (proj2 (proj2
           (token_errors env_crm sample_jose "sales")))))
           {[ "sub" := VStr "sales" ]} "sales"); reflexivity.
Defined.
(** ** The errors of the route *)





